(** * SmartShop: intent parsing, deterministic retrieval, AI fallback

    A shallow embedding of [shop/views copy 3.py], [shop/models.py] and
    [shop/services/gemini_client.py].

    Conventions of the model
    - Text is ASCII: a Python [str] is a [string]; characters outside the
      ASCII range are never letters, digits or white space and are left
      alone by [lower].
    - A [DecimalField(decimal_places=2)] is an integer number of cents.
    - A database table is the list of its rows in storage order; a
      queryset without [order_by] yields that order.
    - The generative backend is an oracle [ai : string -> string] standing
      for [generate_text]; every call is recorded in a trace. *)

From Stdlib Require Import ZArith List String Ascii Bool Lia.
From Stdlib Require Import Sorted Permutation DecimalString SpecFloat.
From Stdlib Require DecimalPos.
Import ListNotations.

Local Open Scope string_scope.
Local Open Scope Z_scope.

(* ================================================================== *)
(** * Text primitives (Python [str] methods and the [re] patterns used) *)
(* ================================================================== *)

Definition code (c : ascii) : Z := Z.of_N (N_of_ascii c).

(** [\d] *)
Definition is_digit (c : ascii) : bool := (48 <=? code c) && (code c <=? 57).

(** [[a-zA-Z]] *)
Definition is_alpha (c : ascii) : bool :=
  ((65 <=? code c) && (code c <=? 90)) || ((97 <=? code c) && (code c <=? 122)).

(** [str.isspace] on ASCII, which is also [\s]: TAB..CR, FS..US and SPACE. *)
Definition is_space (c : ascii) : bool :=
  ((9 <=? code c) && (code c <=? 13)) || ((28 <=? code c) && (code c <=? 32)).

Definition lower_char (c : ascii) : ascii :=
  if (65 <=? code c) && (code c <=? 90)
  then ascii_of_N (N_of_ascii c + 32) else c.

(** [s.lower()] *)
Fixpoint lower (s : string) : string :=
  match s with
  | EmptyString => EmptyString
  | String c r => String (lower_char c) (lower r)
  end.

Fixpoint lstrip (s : string) : string :=
  match s with
  | EmptyString => EmptyString
  | String c r => if is_space c then lstrip r else s
  end.

Fixpoint rstrip (s : string) : string :=
  match s with
  | EmptyString => EmptyString
  | String c r =>
      match rstrip r with
      | EmptyString => if is_space c then EmptyString else String c EmptyString
      | r' => String c r'
      end
  end.

(** [s.strip()] *)
Definition strip (s : string) : string := rstrip (lstrip s).

(** Python truthiness of a [str]: [not s] is [is_empty s]. *)
Definition is_empty (s : string) : bool :=
  match s with EmptyString => true | _ => false end.

Fixpoint starts_with (p s : string) : bool :=
  match p, s with
  | EmptyString, _ => true
  | String a p', String b s' => Ascii.eqb a b && starts_with p' s'
  | String _ _, EmptyString => false
  end.

(** [needle in hay] *)
Fixpoint contains (needle hay : string) : bool :=
  starts_with needle hay
  || match hay with
     | EmptyString => false
     | String _ r => contains needle r
     end.

(** [any(w in s for w in words)] *)
Definition any_in (words : list string) (s : string) : bool :=
  existsb (fun w => contains w s) words.

(** [w in set_of_words] *)
Definition mem (w : string) (words : list string) : bool :=
  existsb (String.eqb w) words.

Definition flush (cur : string) : list string :=
  if is_empty cur then [] else [cur].

Fixpoint findall_alpha_from (cur s : string) : list string :=
  match s with
  | EmptyString => flush cur
  | String c r =>
      if is_alpha c
      then findall_alpha_from (cur ++ String c EmptyString) r
      else (flush cur ++ findall_alpha_from EmptyString r)%list
  end.

(** [re.findall(r"[a-zA-Z]+", s)]: the maximal runs of letters, in order. *)
Definition findall_alpha (s : string) : list string :=
  findall_alpha_from EmptyString s.

Fixpoint take_digits (s : string) : string :=
  match s with
  | EmptyString => EmptyString
  | String c r => if is_digit c then String c (take_digits r) else EmptyString
  end.

(** The pattern [\$?\s*(\d+)] anchored at the head of [s]; the value is
    group 1.  Greedy choices never need to be undone: when the digits are
    missing after the optional dollar and the white space, giving back the
    dollar or a blank leaves a character that is no digit either. *)
Definition match_amount_here (s : string) : option string :=
  let after_dollar :=
    match s with
    | String c r => if Ascii.eqb c "$"%char then r else s
    | EmptyString => s
    end in
  let d := take_digits (lstrip after_dollar) in
  if is_empty d then None else Some d.

(** [re.search(r"\$?\s*(\d+)", s)]: the leftmost position where the
    pattern matches. *)
Fixpoint re_search_amount (s : string) : option string :=
  match match_amount_here s with
  | Some d => Some d
  | None =>
      match s with
      | EmptyString => None
      | String _ r => re_search_amount r
      end
  end.

Fixpoint int_of_digits (acc : Z) (s : string) : Z :=
  match s with
  | EmptyString => acc
  | String c r => int_of_digits (10 * acc + (code c - 48)) r
  end.

(** [int(m.group(1)) if m else None] *)
Definition parse_amount (ql : string) : option Z :=
  option_map (int_of_digits 0) (re_search_amount ql).

(** [str(n)] for an [int]. *)
Definition str_of_Z (z : Z) : string := NilZero.string_of_int (Z.to_int z).

Definition newline : string := String (ascii_of_N 10) EmptyString.

(** [sep.join(parts)] *)
Fixpoint join (sep : string) (parts : list string) : string :=
  match parts with
  | [] => EmptyString
  | [x] => x
  | x :: r => x ++ sep ++ join sep r
  end.

(* ================================================================== *)
(** * Data model ([shop/models.py]) *)
(* ================================================================== *)

Record Product := {
  id : Z;
  name : string;
  category : string;
  price : Z;                  (* cents *)
  tags : string;
  short_description : string;
  ai_description : string;
  ai_review_summary : string
}.

Record Review := {
  review_product : Z;         (* foreign key *)
  rating : Z;
  text : string;
  created_at : Z
}.

Inductive EventType := VIEW | CART | PURCHASE | SEARCH.

Record Interaction := {
  user : string;
  product : option Z;         (* nullable foreign key *)
  event_type : EventType;
  query_text : string;
  interaction_created_at : Z
}.

(** [str(p.price)] for a two-place decimal. *)
Definition two_digits (n : Z) : string :=
  if n <? 10 then "0" ++ str_of_Z n else str_of_Z n.

Definition price_str (cents : Z) : string :=
  (if cents <? 0 then "-" else EmptyString)
  ++ str_of_Z (Z.abs cents / 100) ++ "." ++ two_digits (Z.abs cents mod 100).

(** [field__icontains=w] *)
Definition icontains (field w : string) : bool := contains (lower w) (lower field).

(** [price__lte=amount], [price__gte=amount] with an integer amount. *)
Definition price_lte (amount : Z) (p : Product) : bool := price p <=? 100 * amount.
Definition price_gte (amount : Z) (p : Product) : bool := 100 * amount <=? price p.

(** ** [order_by] *)

Inductive OrderKey (A : Type) :=
| Asc (f : A -> Z)            (* order_by("f")  *)
| Desc (f : A -> Z).          (* order_by("-f") *)

Arguments Asc {A} f.
Arguments Desc {A} f.

Fixpoint cmp_keys {A} (ks : list (OrderKey A)) (a b : A) : comparison :=
  match ks with
  | [] => Eq
  | Asc f :: r =>
      match f a ?= f b with Eq => cmp_keys r a b | c => c end
  | Desc f :: r =>
      match f b ?= f a with Eq => cmp_keys r a b | c => c end
  end.

Definition leb_keys {A} (ks : list (OrderKey A)) (a b : A) : bool :=
  match cmp_keys ks a b with Gt => false | _ => true end.

Fixpoint insert_by {A} (ks : list (OrderKey A)) (x : A) (l : list A) : list A :=
  match l with
  | [] => [x]
  | y :: r => if leb_keys ks x y then x :: l else y :: insert_by ks x r
  end.

(** [qs.order_by(k1, k2, ...)]: rows that agree on every key keep their
    storage order. *)
Definition order_by {A} (ks : list (OrderKey A)) (qs : list A) : list A :=
  fold_right (insert_by ks) [] qs.

(* ================================================================== *)
(** * Plain search: intent and retrieval ([api_search]) *)
(* ================================================================== *)

Definition search_wants_under (ql : string) : bool :=
  any_in ["below"; "under"; "<"; "less than"; "cheaper"] ql.

Definition search_wants_over (ql : string) : bool :=
  any_in ["above"; "over"; ">"; "more than"; "higher than"; "expensive"] ql.

Definition search_noise : list string :=
  ["product"; "products"; "gift"; "below"; "under"; "less"; "than";
   "above"; "over"; "more"; "higher"; "price"; "prices";
   "cheap"; "cheaper"; "expensive"; "dollar"; "dollars"].

Definition search_keywords (ql : string) : list string :=
  filter (fun w => negb (mem w search_noise)) (findall_alpha ql).

(** The disjunction built by [kw_query |= Q(name..) | Q(category..) | Q(tags..)]. *)
Definition search_kw_query (keywords : list string) (p : Product) : bool :=
  existsb (fun w => icontains (name p) w || icontains (category p) w
                    || icontains (tags p) w) keywords.

(** Steps 4 to 6 of [api_search], from the lower-cased query on. *)
Definition search_results (all : list Product) (ql : string) : list Product :=
  let amount := parse_amount ql in
  let wants_under := search_wants_under ql in
  let wants_over := search_wants_over ql in
  let keywords := search_keywords ql in
  let qs := all in
  let qs :=
    match amount with
    | Some a =>
        if wants_under then filter (price_lte a) qs
        else if wants_over then filter (price_gte a) qs
        else qs
    | None => qs
    end in
  let qs :=
    match keywords with
    | [] => qs
    | _ => filter (search_kw_query keywords) qs
    end in
  match amount with
  | Some _ =>
      if wants_over then firstn 20 (order_by [Asc price; Asc id] qs)
      else if wants_under then firstn 20 (order_by [Desc price; Asc id] qs)
      else firstn 20 (order_by [Asc id] qs)
  | None => firstn 20 (order_by [Asc id] qs)
  end.

(* ================================================================== *)
(** * Chat: intent and retrieval ([api_chat], steps 1 to 5) *)
(* ================================================================== *)

Definition chat_wants_under (ql : string) : bool :=
  any_in ["below"; "under"; "<"; "less than"; "cheaper"; "low price"] ql.

Definition chat_wants_over (ql : string) : bool :=
  any_in ["above"; "over"; ">"; "more than"; "higher than"; "at least"] ql.

Definition chat_wants_high (ql : string) : bool :=
  any_in ["higher price"; "high price"; "expensive"; "premium"; "costly";
          "most expensive"] ql.

Definition categories : list string :=
  ["electronics"; "fashion"; "home"; "office"; "sports"].

(** [next((c for c in categories if c in ql), None)] *)
Definition chat_category (ql : string) : option string :=
  find (fun c => contains c ql) categories.

Definition chat_noise : list string :=
  ["suggest"; "recommend"; "show"; "me"; "please";
   "gift"; "below"; "under"; "less"; "than";
   "above"; "over"; "more"; "higher"; "price"; "prices";
   "expensive"; "premium"; "costly"; "most";
   "dollar"; "dollars"].

Definition chat_keywords (ql : string) : list string :=
  filter (fun w => negb (mem w chat_noise) && (2 <? Z.of_nat (String.length w)))
         (findall_alpha ql).

Definition chat_kw_query (keywords : list string) (p : Product) : bool :=
  existsb (fun w => icontains (name p) w || icontains (tags p) w
                    || icontains (category p) w
                    || icontains (short_description p) w) keywords.

Definition chat_filter (all : list Product) (ql : string) : list Product :=
  let amount := parse_amount ql in
  let keywords := chat_keywords ql in
  let qs := all in
  let qs :=
    match chat_category ql with
    | Some c => filter (fun p => icontains (category p) c || icontains (tags p) c) qs
    | None => qs
    end in
  let qs :=
    match amount with
    | Some a =>
        if chat_wants_under ql then filter (price_lte a) qs
        else if chat_wants_over ql || chat_wants_high ql
             then filter (price_gte a) qs
        else qs
    | None => qs
    end in
  match keywords with
  | [] => qs
  | _ => filter (chat_kw_query (firstn 6 keywords)) qs
  end.

(** Step 5: the ordering and the title line. *)
Definition chat_order (ql : string) (qs : list Product) : list Product * string :=
  match parse_amount ql with
  | None =>
      if chat_wants_high ql
      then (order_by [Desc price; Desc id] qs,
            "Here are some higher-priced products from our catalog:")
      else (order_by [Desc id] qs, "Here are some products from our catalog:")
  | Some a =>
      if chat_wants_over ql || chat_wants_high ql
      then (order_by [Desc price; Desc id] qs,
            "Here are some products from our catalog priced above $"
              ++ str_of_Z a ++ ":")
      else if chat_wants_under ql
      then (order_by [Asc price; Asc id] qs,
            "Here are some products from our catalog under $" ++ str_of_Z a ++ ":")
      else (order_by [Desc id] qs, "Here are some products from our catalog:")
  end.

(** [products = list(qs[:5])] together with the title. *)
Definition chat_retrieve (all : list Product) (ql : string)
  : list Product * string :=
  let (qs, title) := chat_order ql (chat_filter all ql) in
  (firstn 5 qs, title).

Definition chat_products (all : list Product) (ql : string) : list Product :=
  fst (chat_retrieve all ql).

(* ================================================================== *)
(** * The stores, the backend and the effects of a request *)
(* ================================================================== *)

Record World := {
  products : list Product;
  reviews : list Review;
  interactions : list Interaction;
  now : Z                                    (* value of [auto_now_add] *)
}.

Inductive Event :=
| Select (table : string)                    (* a queryset is evaluated *)
| Insert (table : string)
| Update (table : string) (pk : Z)
| Generate (prompt : string).                (* [generate_text] is called *)

Record St := { world : World; trace : list Event }.

Definition M (A : Type) : Type := St -> A * St.

Definition ret {A} (a : A) : M A := fun s => (a, s).

Definition bind {A B} (m : M A) (k : A -> M B) : M B :=
  fun s => let (a, s') := m s in k a s'.

Notation "x <- m ;; k" := (bind m (fun x => k))
  (at level 61, m at next level, right associativity).

Definition emit (e : Event) : M unit :=
  fun s => (tt, {| world := world s; trace := (trace s ++ [e])%list |}).

Definition read {A} (table : string) (f : World -> A) : M A :=
  _ <- emit (Select table) ;; fun s => (f (world s), s).

Definition write (e : Event) (f : World -> World) : M unit :=
  _ <- emit e ;; fun s => (tt, {| world := f (world s); trace := trace s |}).

(** A request starts on a store with an empty trace. *)
Definition run {A} (m : M A) (w : World) : A * St :=
  m {| world := w; trace := [] |}.

(** [generate_text(prompt)] for a call that returns: the backend's answer,
    the empty string on any failure of the remote call.  The call that
    raises for want of the API key is [client_generate_text] below, and
    [api_chat_served] is the chat endpoint over it. *)
Definition generate_text (ai : string -> string) (prompt : string) : M string :=
  _ <- emit (Generate prompt) ;; ret (ai prompt).

(** [Product.objects.all()], evaluated. *)
Definition select_products : M (list Product) := read "product" products.

Definition lookup_product (pid : Z) (rows : list Product) : option Product :=
  find (fun p => id p =? pid) rows.

(** [get_object_or_404(Product, id=product_id)]; [None] is the 404. *)
Definition get_product (pid : Z) : M (option Product) :=
  read "product" (fun w => lookup_product pid (products w)).

Definition save_row (p : Product) (rows : list Product) : list Product :=
  if existsb (fun q => id q =? id p) rows
  then map (fun q => if id q =? id p then p else q) rows
  else (rows ++ [p])%list.

(** [product.save()] *)
Definition save_product (p : Product) : M unit :=
  write (Update "product" (id p))
        (fun w => {| products := save_row p (products w);
                     reviews := reviews w;
                     interactions := interactions w;
                     now := now w |}).

(** [Interaction.objects.create(user=u, event_type=.., query_text=..)] *)
Definition create_interaction (u : string) (pid : option Z) (ev : EventType)
           (q : string) : M unit :=
  write (Insert "interaction")
        (fun w => {| products := products w;
                     reviews := reviews w;
                     interactions :=
                       (interactions w
                        ++ [ {| user := u; product := pid; event_type := ev;
                                query_text := q;
                                interaction_created_at := now w |} ])%list;
                     now := now w |}).

(** ** Responses *)

Inductive Body :=
| Results (ps : list Product)               (* {"results": [...]} *)
| Reply (s : string)                        (* {"reply": s} *)
| Error (s : string)                        (* {"error": s} *)
| Description (pid : Z) (s : string)        (* {"product_id", "ai_description"} *)
| ReviewSummary (pid : Z) (s : string)      (* {"product_id", "ai_review_summary"} *)
| NotFound.

Record Response := { status : Z; body : Body }.

Definition respond (st : Z) (b : Body) : Response := {| status := st; body := b |}.

(* ================================================================== *)
(** * [api_search] *)
(* ================================================================== *)

(** [requester] is the authenticated user's name, if any; [q_param] is
    [request.GET.get("q") or ""]. *)
Definition api_search (requester : option string) (q_param : string) : M Response :=
  let q := strip q_param in
  if is_empty q then ret (respond 200 (Results []))
  else
    _ <- match requester with
         | Some u => create_interaction u None SEARCH q
         | None => ret tt
         end ;;
    let ql := lower q in
    all <- select_products ;;
    ret (respond 200 (Results (search_results all ql))).

(* ================================================================== *)
(** * [api_chat] *)
(* ================================================================== *)

Definition chat_rejection : string := "Please type a question first.".

Definition chat_guidance : string :=
  "I couldn't find matching products. Try: 'most expensive products', 'over $50 electronics', or 'under $30 sports'.".

Definition chat_notice : string :=
  newline ++ newline ++ "(Note: AI service busy, showing catalog-based suggestions.)".

(** The separator of the reply line is an em dash (U+2014). *)
Definition em_dash : string :=
  String (ascii_of_N 226) (String (ascii_of_N 128) (String (ascii_of_N 148) EmptyString)).

Definition chat_line (p : Product) : string :=
  "- " ++ name p ++ " ($" ++ price_str (price p) ++ ") " ++ em_dash ++ " "
  ++ category p ++ " (View: /products/" ++ str_of_Z (id p) ++ "/)".

Definition chat_catalog_line (p : Product) : string :=
  "- " ++ name p ++ " ($" ++ price_str (price p) ++ ") [" ++ category p
  ++ "] Tags: " ++ tags p.

Definition chat_prompt (message : string) (ps : list Product) : string :=
  join newline
    [ EmptyString;
      "You are SmartShop's assistant. ONLY use products from the list below.";
      "Do NOT invent new products. Do NOT add items not in the list.";
      EmptyString;
      "User request: " ++ message;
      EmptyString;
      "Products:";
      join newline (map chat_catalog_line ps);
      EmptyString;
      "Reply with a short friendly list. Include prices.";
      EmptyString ].

(** [message_param] is [request.data.get("message") or ""]. *)
Definition api_chat (ai : string -> string) (message_param : string) : M Response :=
  let message := strip message_param in
  if is_empty message then ret (respond 400 (Reply chat_rejection))
  else
    let ql := lower message in
    all <- select_products ;;
    let (ps, title) := chat_retrieve all ql in
    match ps with
    | [] => ret (respond 200 (Reply chat_guidance))
    | _ =>
        let deterministic := join newline (title :: map chat_line ps) in
        t <- generate_text ai (chat_prompt message ps) ;;
        let ai_reply := strip t in
        let reply := if is_empty ai_reply then deterministic ++ chat_notice
                     else ai_reply in
        ret (respond 200 (Reply reply))
    end.

(* ================================================================== *)
(** * [api_generate_description] *)
(* ================================================================== *)

Definition description_prompt (p : Product) : string :=
  join newline
    [ EmptyString;
      "Write a short, engaging e-commerce product description (80-120 words).";
      "Focus on benefits, not only specs.";
      "Product:";
      "- name: " ++ name p;
      "- category: " ++ category p;
      "- price: " ++ price_str (price p);
      "- tags: " ++ tags p;
      "Existing short description: " ++ short_description p;
      EmptyString ].

Definition set_ai_description (p : Product) (s : string) : Product :=
  {| id := id p; name := name p; category := category p; price := price p;
     tags := tags p; short_description := short_description p;
     ai_description := s; ai_review_summary := ai_review_summary p |}.

Definition set_ai_review_summary (p : Product) (s : string) : Product :=
  {| id := id p; name := name p; category := category p; price := price p;
     tags := tags p; short_description := short_description p;
     ai_description := ai_description p; ai_review_summary := s |}.

Definition api_generate_description (ai : string -> string) (product_id : Z)
  : M Response :=
  found <- get_product product_id ;;
  match found with
  | None => ret (respond 404 NotFound)
  | Some p =>
      t <- generate_text ai (description_prompt p) ;;
      if is_empty t
      then ret (respond 502 (Error "Gemini returned empty text"))
      else
        let p' := set_ai_description p t in
        _ <- save_product p' ;;
        ret (respond 200 (Description (id p') (ai_description p')))
  end.

(* ================================================================== *)
(** * Review summaries ([basic_review_summary], [api_summarize_reviews]) *)
(* ================================================================== *)

(** ** The float arithmetic of [avg] and of [f"{avg:.1f}"] *)

Definition float_of_Z (z : Z) : spec_float :=
  match z with
  | Z0 => S754_zero false
  | Zpos p => S754_finite false p 0
  | Zneg p => S754_finite true p 0
  end.

(** [a / b] on two [int]s: the binary64 number nearest to the quotient
    (ties to even).  The only call has [b = len(reviews) > 0]. *)
Definition py_truediv (a b : Z) : spec_float :=
  SFdiv 53 1024 (float_of_Z a) (float_of_Z b).

Definition round_half_even (num den : Z) : Z :=
  let q := num / den in
  match 2 * (num mod den) ?= den with
  | Lt => q
  | Gt => q + 1
  | Eq => if Z.even q then q else q + 1
  end.

(** The magnitude [m * 2^e] in tenths, rounded to the nearest integer
    (ties to even) on the exact binary value, as [format] does. *)
Definition tenths (m : positive) (e : Z) : Z :=
  if 0 <=? e then 10 * Z.pos m * 2 ^ e
  else round_half_even (10 * Z.pos m) (2 ^ (- e)).

Definition show_tenths (neg : bool) (t : Z) : string :=
  (if neg then "-" else EmptyString) ++ str_of_Z (t / 10) ++ "." ++ str_of_Z (t mod 10).

(** [f"{x:.1f}"] *)
Definition format_1f (x : spec_float) : string :=
  match x with
  | S754_zero s => show_tenths s 0
  | S754_finite s m e => show_tenths s (tenths m e)
  | S754_infinity s => (if s then "-" else EmptyString) ++ "inf"
  | S754_nan => "nan"
  end.

(** ** [basic_review_summary] *)

Definition pros_keywords : list string :=
  ["great"; "good"; "perfect"; "love"; "value"; "works"; "quality"].

Definition cons_keywords : list string :=
  ["bad"; "poor"; "disappointed"; "durable"; "worse"; "problem"; "okay"].

Definition sum_ratings (rs : list Review) : Z :=
  fold_right (fun r acc => rating r + acc) 0 rs.

(** [avg = sum(r.rating for r in reviews) / len(reviews)] *)
Definition avg (rs : list Review) : spec_float :=
  py_truediv (sum_ratings rs) (Z.of_nat (List.length rs)).

(** The texts appended to [pros] (resp. [cons]) by the loop. *)
Definition matching (keywords : list string) (rs : list Review) : list string :=
  map text (filter (fun r => any_in keywords (lower (text r))) rs).

Definition no_pros : string := "No strong pros detected from text.".
Definition no_cons : string := "No strong cons detected from text.".

(** [xs[:3] if xs else [placeholder]] *)
Definition top3 (placeholder : string) (xs : list string) : list string :=
  match xs with
  | [] => [placeholder]
  | _ => firstn 3 xs
  end.

Definition pros_of (rs : list Review) : list string :=
  top3 no_pros (matching pros_keywords rs).
Definition cons_of (rs : list Review) : list string :=
  top3 no_cons (matching cons_keywords rs).

Definition sentiment_line (rs : list Review) : string :=
  "Overall sentiment: average rating is " ++ format_1f (avg rs) ++ "/5 from "
  ++ str_of_Z (Z.of_nat (List.length rs)) ++ " review(s).".

Definition bullet (s : string) : string := "- " ++ s.

Definition basic_review_summary (rs : list Review) : string :=
  match rs with
  | [] => "No reviews yet."
  | _ =>
      join newline
        ([sentiment_line rs; EmptyString; "Top pros:"] ++ map bullet (pros_of rs)
         ++ [EmptyString; "Top cons:"] ++ map bullet (cons_of rs))%list
  end.

(** ** [api_summarize_reviews] *)

(** [product.reviews.all().order_by("-created_at")[:20]] *)
Definition recent_reviews (pid : Z) (rows : list Review) : list Review :=
  firstn 20 (order_by [Desc created_at]
               (filter (fun r => review_product r =? pid) rows)).

Definition review_line (r : Review) : string :=
  "- (" ++ str_of_Z (rating r) ++ "/5) " ++ text r.

Definition summary_prompt (rs : list Review) : string :=
  join newline
    [ EmptyString;
      "Summarize these customer reviews into:";
      "1) overall sentiment (one line)";
      "2) top pros (3 bullets)";
      "3) top cons (3 bullets)";
      "Keep it concise.";
      EmptyString;
      "Reviews:";
      join newline (map review_line rs);
      EmptyString ].

Definition summary_notice : string :=
  newline ++ newline ++ "(Note: AI quota reached, showing basic summary.)".

Definition api_summarize_reviews (ai : string -> string) (product_id : Z)
  : M Response :=
  found <- get_product product_id ;;
  match found with
  | None => ret (respond 404 NotFound)
  | Some p =>
      rs <- read "review" (fun w => recent_reviews (id p) (reviews w)) ;;
      match rs with
      | [] => ret (respond 400 (Error "No reviews to summarize"))
      | _ =>
          t <- generate_text ai (summary_prompt rs) ;;
          let summary := if is_empty t
                         then basic_review_summary rs ++ summary_notice
                         else t in
          let p' := set_ai_review_summary p summary in
          _ <- save_product p' ;;
          ret (respond 200 (ReviewSummary (id p') (ai_review_summary p')))
      end
  end.

(* ================================================================== *)
(** * Recommendations ([generate_json], [_recommend_products_for_user]) *)
(* ================================================================== *)

#[local] Unset Elimination Schemes.

(** A value returned by [json.loads]. *)
Inductive json :=
| JNull
| JBool (b : bool)
| JInt (z : Z)
| JFloat (literal : string)
| JStr (s : string)
| JArr (items : list json)
| JObj (fields : list (string * json)).

#[local] Set Elimination Schemes.

Inductive outcome (A : Type) :=
| Returns (a : A)
| Raises (exn : string).

Arguments Returns {A} a.
Arguments Raises {A} exn.

(** [generate_json(prompt)]; [json_loads t = None] when [json.loads(t)]
    raises, as it does on the empty text of a failed call. *)
Definition generate_json (ai : string -> string)
           (json_loads : string -> option json) (prompt : string) : M json :=
  t <- generate_text ai prompt ;;
  ret (match json_loads t with
       | Some v => v
       | None => JObj []
       end).

(** [d.get(key, default)] *)
Definition dict_get (fields : list (string * json)) (key : string) (default : json)
  : json :=
  match find (fun kv => String.eqb (fst kv) key) fields with
  | Some kv => snd kv
  | None => default
  end.

Fixpoint chars (s : string) : list string :=
  match s with
  | EmptyString => []
  | String c r => String c EmptyString :: chars r
  end.

(** [for i in v]: a list yields its items, a [str] its characters, a
    [dict] its keys; nothing else is iterable. *)
Definition py_iter (v : json) : outcome (list json) :=
  match v with
  | JArr items => Returns items
  | JStr s => Returns (map JStr (chars s))
  | JObj fields => Returns (map (fun kv => JStr (fst kv)) fields)
  | _ => Raises "TypeError"
  end.

(** [isinstance(i, int)] holds for the integers and, [bool] being a
    subclass of [int], for [True] (that is 1) and [False] (that is 0). *)
Definition as_int (v : json) : option Z :=
  match v with
  | JInt z => Some z
  | JBool b => Some (if b then 1 else 0)
  | _ => None
  end.

(** [[i for i in ids if isinstance(i, int)]] *)
Definition int_ids (items : list json) : list Z :=
  flat_map (fun v => match as_int v with Some z => [z] | None => [] end) items.

(** [Product.objects.filter(id__in=ids)] *)
Definition filter_id_in (ids : list Z) (rows : list Product) : list Product :=
  filter (fun p => existsb (Z.eqb (id p)) ids) rows.

(** [found_map.get(i)] for [found_map = {p.id: p for p in found}]: a later
    row replaces an earlier one under the same key. *)
Definition found_map_get (found : list Product) (i : Z) : option Product :=
  find (fun p => id p =? i) (rev found).

(** [[found_map[i] for i in ids if i in found_map]] *)
Definition keep_order (found : list Product) (ids : list Z) : list Product :=
  flat_map (fun i => match found_map_get found i with
                     | Some p => [p]
                     | None => []
                     end) ids.

Definition event_eqb (a b : EventType) : bool :=
  match a, b with
  | VIEW, VIEW | CART, CART | PURCHASE, PURCHASE | SEARCH, SEARCH => true
  | _, _ => false
  end.

(** [Interaction.objects.filter(user=user).order_by("-created_at")[:50]] *)
Definition user_interactions (u : string) (rows : list Interaction)
  : list Interaction :=
  firstn 50 (order_by [Desc interaction_created_at]
               (filter (fun i => String.eqb (user i) u) rows)).

Definition purchased_ids (rows : list Interaction) : list Z :=
  flat_map (fun i => match product i with
                     | Some pid => if event_eqb (event_type i) PURCHASE
                                   then [pid] else []
                     | None => []
                     end) rows.

(** [.values("product_id").annotate(c=Count("product_id")).order_by("-c")[:10]]:
    one row per purchased product with its number of purchases. *)
Definition popular_ids (rows : list Interaction) : list (Z * Z) :=
  let bought := purchased_ids rows in
  firstn 10
    (order_by [Desc snd]
       (map (fun pid => (pid, Z.of_nat (count_occ Z.eq_dec bought pid)))
            (nodup Z.eq_dec bought))).

(** [[x["product_id"] for x in popular_ids if x["product_id"]]] *)
Definition truthy_ids (rows : list (Z * Z)) : list Z :=
  filter (fun pid => negb (pid =? 0)) (map fst rows).

(** [[i.product.name for i in interactions if i.event_type == ev and i.product]] *)
Definition names_of (ev : EventType) (its : list Interaction)
           (rows : list Product) : list string :=
  flat_map (fun i =>
              if event_eqb (event_type i) ev
              then match product i with
                   | Some pid => match lookup_product pid rows with
                                 | Some p => [name p]
                                 | None => []
                                 end
                   | None => []
                   end
              else []) its.

(** [[i.query_text for i in interactions if i.event_type == "SEARCH" and i.query_text]] *)
Definition searched_of (its : list Interaction) : list string :=
  flat_map (fun i => if event_eqb (event_type i) SEARCH && negb (is_empty (query_text i))
                     then [query_text i] else []) its.

(** [xs[-10:]] *)
Definition last10 {A} (xs : list A) : list A := skipn (List.length xs - 10) xs.

Definition catalog_line (p : Product) : string :=
  str_of_Z (id p) ++ ". " ++ name p ++ " | category=" ++ category p
  ++ " | price=" ++ price_str (price p) ++ " | tags=" ++ tags p.

Definition dquote : string := String (ascii_of_N 34) EmptyString.

(** [repr_list] stands for Python's rendering of a list of [str] inside an
    f-string. *)
Definition recommend_prompt (repr_list : list string -> string)
           (viewed purchased searched : list string) (catalog : list Product)
  : string :=
  join newline
    [ EmptyString;
      "You are an e-commerce recommendation engine.";
      "Return ONLY valid JSON (no markdown, no explanation).";
      EmptyString;
      "User behavior:";
      "- viewed: " ++ repr_list (last10 viewed);
      "- purchased: " ++ repr_list (last10 purchased);
      "- searched: " ++ repr_list (last10 searched);
      EmptyString;
      "Task:";
      "Rank the best product IDs from this catalog for the user.";
      EmptyString;
      "Catalog:";
      join newline (map catalog_line catalog);
      EmptyString;
      "Return JSON in this format:";
      "{";
      "  " ++ dquote ++ "recommended_product_ids" ++ dquote ++ ": [1,2,3,4,5,6,7,8]";
      "}";
      EmptyString ].

(** What the recommendation engine takes from outside: the backend and two
    Python built-ins. *)
Record Env := {
  ai : string -> string;
  json_loads : string -> option json;
  repr_list : list string -> string
}.

Definition _recommend_products_for_user (E : Env) (u : string)
  : M (outcome (list Product)) :=
  its <- read "interaction" (fun w => user_interactions u (interactions w)) ;;
  match its with
  | [] =>
      popular <- read "interaction" (fun w => popular_ids (interactions w)) ;;
      match truthy_ids popular with
      | [] =>
          ps <- read "product" (fun w => firstn 10 (products w)) ;;
          ret (Returns ps)
      | ids =>
          ps <- read "product" (fun w => filter_id_in ids (products w)) ;;
          ret (Returns ps)
      end
  | _ =>
      signals <- read "product"
        (fun w => (names_of VIEW its (products w),
                   names_of PURCHASE its (products w))) ;;
      let viewed := fst signals in
      let purchased := snd signals in
      let searched := searched_of its in
      catalog <- read "product" (fun w => firstn 50 (products w)) ;;
      data <- generate_json (ai E) (json_loads E)
                (recommend_prompt (repr_list E) viewed purchased searched catalog) ;;
      match data with
      | JObj fields =>
          match py_iter (dict_get fields "recommended_product_ids" (JArr [])) with
          | Raises e => ret (Raises e)
          | Returns items =>
              let ids := int_ids items in
              found <- read "product" (fun w => filter_id_in ids (products w)) ;;
              match keep_order found ids with
              | [] =>
                  ps <- read "product" (fun w => firstn 10 (products w)) ;;
                  ret (Returns ps)
              | ordered => ret (Returns ordered)
              end
          end
      | _ => ret (Raises "AttributeError")
      end
  end.

(* ================================================================== *)
(** * Vocabulary of the properties *)
(* ================================================================== *)

(** ** Orders on result sequences *)

Definition price_up_id_up (a b : Product) : Prop :=
  price a < price b \/ (price a = price b /\ id a <= id b).

Definition price_down_id_up (a b : Product) : Prop :=
  price b < price a \/ (price a = price b /\ id a <= id b).

Definition price_down_id_down (a b : Product) : Prop :=
  price b < price a \/ (price a = price b /\ id b <= id a).

Definition price_non_decreasing (a b : Product) : Prop := price a <= price b.

(** [amount <= p.price] and [p.price <= amount] for a price in cents. *)
Definition costs_at_least (n : Z) (p : Product) : Prop := 100 * n <= price p.
Definition costs_at_most (n : Z) (p : Product) : Prop := price p <= 100 * n.

(** ** The query intent each endpoint acts on *)

Inductive Direction := UNDER | OVER | NONE.

Record QueryIntent := {
  intent_amount : option Z;
  intent_direction : Direction;
  intent_keywords : list string
}.

(** The branch of the price filter of [api_search]. *)
Definition search_intent (q : string) : QueryIntent :=
  let ql := lower (strip q) in
  {| intent_amount := parse_amount ql;
     intent_direction := if search_wants_under ql then UNDER
                         else if search_wants_over ql then OVER else NONE;
     intent_keywords := search_keywords ql |}.

(** The branch of the price filter of [api_chat]. *)
Definition chat_intent (q : string) : QueryIntent :=
  let ql := lower (strip q) in
  {| intent_amount := parse_amount ql;
     intent_direction := if chat_wants_under ql then UNDER
                         else if chat_wants_over ql || chat_wants_high ql then OVER
                         else NONE;
     intent_keywords := chat_keywords ql |}.

(** ** The text and the data the recommendation engine gets from the backend *)

Definition recommend_history (u : string) (w : World) : list Interaction :=
  user_interactions u (interactions w).

Definition recommend_prompt_of (E : Env) (u : string) (w : World) : string :=
  let its := recommend_history u w in
  recommend_prompt (repr_list E)
    (names_of VIEW its (products w)) (names_of PURCHASE its (products w))
    (searched_of its) (firstn 50 (products w)).

Definition recommend_data (E : Env) (u : string) (w : World) : json :=
  match json_loads E (ai E (recommend_prompt_of E u w)) with
  | Some v => v
  | None => JObj []
  end.

(** The products of the store under the given ids, in the order of the ids. *)
Definition rows_in_order (ids : list Z) (rows : list Product) : list Product :=
  flat_map (fun i => match lookup_product i rows with
                     | Some p => [p]
                     | None => []
                     end) ids.

Definition Product_eq_dec (a b : Product) : {a = b} + {a <> b}.
Proof. decide equality; auto using string_dec, Z.eq_dec. Defined.

(** ** The properties as the specification words them *)

(** "above $N" / "over $N": prices at least N, sorted by falling price,
    ties by rising id. *)
Definition over_property (retrieve : list Product -> string -> list Product)
           (all : list Product) (q : string) (n : Z) : Prop :=
  let ql := lower (strip q) in
  contains ("above $" ++ str_of_Z n) ql = true
  \/ contains ("over $" ++ str_of_Z n) ql = true ->
  Forall (costs_at_least n) (retrieve all ql)
  /\ StronglySorted price_down_id_up (retrieve all ql).

(** "under $N" / "below $N": prices at most N, sorted by rising price, at
    most [limit] results. *)
Definition under_property (retrieve : list Product -> string -> list Product)
           (limit : nat) (all : list Product) (q : string) (n : Z) : Prop :=
  let ql := lower (strip q) in
  contains ("under $" ++ str_of_Z n) ql = true
  \/ contains ("below $" ++ str_of_Z n) ql = true ->
  Forall (costs_at_most n) (retrieve all ql)
  /\ StronglySorted price_non_decreasing (retrieve all ql)
  /\ (List.length (retrieve all ql) <= limit)%nat.

(** The recommendation is a sequence of at most 10 products. *)
Definition at_most_ten (E : Env) (u : string) (w : World) : Prop :=
  exists ps, fst (run (_recommend_products_for_user E u) w) = Returns ps
             /\ (List.length ps <= 10)%nat.

(** Every product ranked by the backend is one of the 50 candidates of the
    prompt. *)
Definition among_candidates (E : Env) (u : string) (w : World) : Prop :=
  forall ps, fst (run (_recommend_products_for_user E u) w) = Returns ps ->
             Forall (fun p => In p (firstn 50 (products w))) ps.

(** ** The displayed mean *)

(** [t] tenths is a one-decimal value nearest to the exact quotient
    [s / n]: [|s/n - t/10| <= 1/20]. *)
Definition nearest_tenth (t s n : Z) : Prop := 2 * Z.abs (10 * s - t * n) <= n.

Definition nearest_tenthb (t s n : Z) : bool := 2 * Z.abs (10 * s - t * n) <=? n.

(** The mean of ratings that sum to [s] over [n] reviews is displayed as a
    non-negative number of tenths nearest to [s / n]. *)
Definition mean_checks (s n : Z) : bool :=
  match py_truediv s n with
  | S754_finite false m e => nearest_tenthb (tenths m e) s n
  | _ => false
  end.

Definition Zseq (lo : Z) (count : nat) : list Z :=
  map (fun i => lo + Z.of_nat i) (seq 0 count).

(** Every sum of [n <= 20] ratings between 1 and 5. *)
Definition all_means_check : bool :=
  forallb (fun n => forallb (fun s => mean_checks s n) (Zseq n (Z.to_nat (4 * n + 1))))
          (Zseq 1 20).

Definition newest_first (a b : Review) : Prop := created_at b <= created_at a.

(** ** Sample data *)

Definition item (i : Z) (n c : string) (cents : Z) (t d : string) : Product :=
  {| id := i; name := n; category := c; price := cents; tags := t;
     short_description := d; ai_description := EmptyString;
     ai_review_summary := EmptyString |}.

(** The catalog of [shop/tests.py]. *)
Definition test_catalog : list Product :=
  [ item 1 "Wireless Earbuds" "Electronics" 4990 "audio,wireless,gym"
         "Compact wireless earbuds.";
    item 2 "Yoga Mat" "Sports" 1800 "fitness,yoga,home-workout"
         "Non-slip yoga mat.";
    item 3 "Smart Watch" "Electronics" 11900 "health,fitness,wearable"
         "Track fitness and notifications." ].

(** Two products at the same price and a dearer one. *)
Definition tie_catalog : list Product :=
  [ item 1 "Mug" "Home" 2000 "kitchen" "A mug.";
    item 2 "Cup" "Home" 2000 "kitchen" "A cup.";
    item 3 "Kettle" "Home" 3000 "kitchen" "A kettle." ].

Definition numbered (i : nat) : Product :=
  item (Z.of_nat i) ("Item " ++ str_of_Z (Z.of_nat i)) "Home" 1000 "misc" "An item.".

(** [n] products with ids 1 to [n]. *)
Definition catalog_of_size (n : nat) : list Product := map numbered (seq 1 n).

Definition review (pid r : Z) (t : string) (at_ : Z) : Review :=
  {| review_product := pid; rating := r; text := t; created_at := at_ |}.

(** Four reviews of the first product, after [shop/tests.py]. *)
Definition test_reviews : list Review :=
  [ review 1 5 "Great quality and works perfectly." 1;
    review 1 4 "Good value for money. I like it." 2;
    review 1 3 "It's okay, but could be better." 3;
    review 1 2 "Not very durable. Disappointed." 4 ].

Definition viewed_by (u : string) (pid : Z) (at_ : Z) : Interaction :=
  {| user := u; product := Some pid; event_type := VIEW;
     query_text := EmptyString; interaction_created_at := at_ |}.

Definition test_world : World :=
  {| products := test_catalog; reviews := test_reviews;
     interactions := [viewed_by "alice" 1 1]; now := 10 |}.

Definition world_of_size (n : nat) : World :=
  {| products := catalog_of_size n; reviews := [];
     interactions := [viewed_by "alice" 1 1]; now := 10 |}.

(** A backend that answers every prompt with a ranking of [ids]. *)
Definition ranking_text (ids : list Z) : string :=
  "{" ++ dquote ++ "recommended_product_ids" ++ dquote ++ ": ["
  ++ join ", " (map str_of_Z ids) ++ "]}".

Definition ranking_env (ids : list Z) : Env :=
  {| ai := fun _ => ranking_text ids;
     json_loads := fun t =>
       if String.eqb t (ranking_text ids)
       then Some (JObj [("recommended_product_ids", JArr (map JInt ids))])
       else None;
     repr_list := fun xs => "[" ++ join ", " xs ++ "]" |}.

(** A backend that fails on every call. *)
Definition silent (prompt : string) : string := EmptyString.

(* ================================================================== *)
(** * Pages and the catalogue listing ([home], [product_detail],
      [api_products]) *)
(* ================================================================== *)

(** What a page view hands to its template, or the error it ends in. *)
Inductive Page :=
| HomePage (listed recommended : list Product)
| DetailPage (p : Product) (shown : list Review)
| Http404
| Http500 (exn : string).

(** [api_products]: the serialized [Product.objects.all().order_by("id")]. *)
Definition api_products : M (list Product) :=
  read "product" (fun w => order_by [Asc id] (products w)).

(** [home]; [requester] is the authenticated user's name, if any.  The
    listing [Product.objects.all().order_by("id")[:24]] is lazy and is
    evaluated when the page is rendered, after the recommendations. *)
Definition home (E : Env) (requester : option string) : M Page :=
  match requester with
  | Some u =>
      r <- _recommend_products_for_user E u ;;
      match r with
      | Raises e => ret (Http500 e)
      | Returns recommended =>
          listed <- read "product"
                      (fun w => firstn 24 (order_by [Asc id] (products w))) ;;
          ret (HomePage listed (firstn 8 recommended))
      end
  | None =>
      listed <- read "product"
                  (fun w => firstn 24 (order_by [Asc id] (products w))) ;;
      ret (HomePage listed [])
  end.

(** [product.reviews.all().order_by("-created_at")[:10]] *)
Definition shown_reviews (pid : Z) (rows : list Review) : list Review :=
  firstn 10 (order_by [Desc created_at]
               (filter (fun r => review_product r =? pid) rows)).

(** [product_detail] *)
Definition product_detail (requester : option string) (product_id : Z) : M Page :=
  found <- get_product product_id ;;
  match found with
  | None => ret Http404
  | Some p =>
      _ <- match requester with
           | Some u => create_interaction u (Some (id p)) VIEW EmptyString
           | None => ret tt
           end ;;
      shown <- read "review" (fun w => shown_reviews (id p) (reviews w)) ;;
      ret (DetailPage p shown)
  end.

(* ================================================================== *)
(** * The client of the generative backend ([gemini_client.py]) *)
(* ================================================================== *)

(** [generate_text] itself.  [key] is [os.getenv("GEMINI_API_KEY")];
    [generate_content prompt] is the remote call: it raises, or returns a
    response whose [text] may be [None].  [_client()] is called outside
    the [try], the remote call inside. *)
Definition client_generate_text (key : option string)
           (generate_content : string -> outcome (option string))
           (prompt : string) : outcome string :=
  match key with
  | None => Raises "RuntimeError"
  | Some k =>
      if is_empty k then Raises "RuntimeError"
      else match generate_content prompt with
           | Returns (Some t) => Returns (strip t)
           | Returns None => Returns (strip EmptyString)
           | Raises _ => Returns EmptyString
           end
  end.

(* ================================================================== *)
(** * Further vocabulary *)
(* ================================================================== *)

Fixpoint has_digit (s : string) : bool :=
  match s with
  | EmptyString => false
  | String c r => is_digit c || has_digit r
  end.

(** The first maximal run of digits of a text. *)
Fixpoint digit_run (s : string) : string :=
  match s with
  | EmptyString => EmptyString
  | String c r => if is_digit c then take_digits s else digit_run r
  end.

Definition is_lower (c : ascii) : bool := (97 <=? code c) && (code c <=? 122).

Fixpoint all_chars (f : ascii -> bool) (s : string) : bool :=
  match s with
  | EmptyString => true
  | String c r => f c && all_chars f r
  end.

(** Two rows that differ at most in the fields written by the backend. *)
Definition same_listing (a b : Product) : Prop :=
  id a = id b /\ name a = name b /\ category a = category b
  /\ price a = price b /\ tags a = tags b
  /\ short_description a = short_description b.

Definition id_up (a b : Product) : Prop := id a <= id b.
Definition id_down (a b : Product) : Prop := id b <= id a.

Definition is_generate (e : Event) : bool :=
  match e with Generate _ => true | _ => false end.

(** The number of calls of [generate_text] in a trace. *)
Definition backend_calls (t : list Event) : nat :=
  List.length (filter is_generate t).

(** The number of purchases of a product over all users. *)
Definition purchases (pid : Z) (rows : list Interaction) : Z :=
  Z.of_nat (count_occ Z.eq_dec (purchased_ids rows) pid).

Definition logged_search (u q : string) (w : World) : World :=
  {| products := products w;
     reviews := reviews w;
     interactions :=
       (interactions w
        ++ [ {| user := u; product := None; event_type := SEARCH;
                query_text := q; interaction_created_at := now w |} ])%list;
     now := now w |}.

(** A page of a queryset: the first [n] rows, in some order, of a
    selection [l] of the catalog. *)
Definition page_of (n : nat) (all l res : list Product) : Prop :=
  (exists ks, res = firstn n (order_by ks l))
  /\ incl l all
  /\ (NoDup (map id all) -> NoDup (map id l)).

(** The selection [api_search] sorts and cuts. *)
Definition search_selection (all : list Product) (ql : string) : list Product :=
  let qs :=
    match parse_amount ql with
    | Some a =>
        if search_wants_under ql then filter (price_lte a) all
        else if search_wants_over ql then filter (price_gte a) all
        else all
    | None => all
    end in
  match search_keywords ql with
  | [] => qs
  | _ => filter (search_kw_query (search_keywords ql)) qs
  end.

(** Sort keys that read only the fields [same_listing] compares. *)
Definition listing_key (k : OrderKey Product) : Prop :=
  match k with
  | Asc f | Desc f => forall a b, same_listing a b -> f a = f b
  end.

Definition bought_by (u : string) (pid : Z) (at_ : Z) : Interaction :=
  {| user := u; product := Some pid; event_type := PURCHASE;
     query_text := EmptyString; interaction_created_at := at_ |}.

(** The test catalog after three purchases by one user. *)
Definition purchase_world : World :=
  {| products := test_catalog; reviews := test_reviews;
     interactions := [bought_by "alice" 2 1; bought_by "alice" 1 2;
                      bought_by "alice" 2 3];
     now := 10 |}.

(** The store after an authenticated view of product [pid]. *)
Definition logged_view (u : string) (pid : Z) (w : World) : World :=
  {| products := products w;
     reviews := reviews w;
     interactions :=
       (interactions w
        ++ [ {| user := u; product := Some pid; event_type := VIEW;
                query_text := EmptyString; interaction_created_at := now w |} ])%list;
     now := now w |}.

(* ================================================================== *)
(** * The chat endpoint over the client ([api_chat] with [generate_text]
      of [gemini_client.py]) *)
(* ================================================================== *)

(** [request.data.get("message")]: no value, a [str], or any other JSON
    value with its truth value. *)
Inductive Posted :=
| Absent
| Text (s : string)
| Other (truthy : bool).

(** [request.data.get("message") or ""], on which [.strip()] is called: a
    falsy value gives the empty text, a truthy value that is no [str] has
    no [strip]. *)
Definition message_of (v : Posted) : outcome string :=
  match v with
  | Absent => Returns EmptyString
  | Text s => Returns s
  | Other false => Returns EmptyString
  | Other true => Raises "AttributeError"
  end.

(** [api_chat] with the call of [generate_text] resolved by
    [client_generate_text]: an exception of the posted value or of the
    client ends the request. *)
Definition api_chat_served (key : option string)
           (generate_content : string -> outcome (option string))
           (posted : Posted) : M (outcome Response) :=
  match message_of posted with
  | Raises e => ret (Raises e)
  | Returns message_param =>
      let message := strip message_param in
      if is_empty message then ret (Returns (respond 400 (Reply chat_rejection)))
      else
        let ql := lower message in
        all <- select_products ;;
        let (ps, title) := chat_retrieve all ql in
        match ps with
        | [] => ret (Returns (respond 200 (Reply chat_guidance)))
        | _ =>
            let deterministic := join newline (title :: map chat_line ps) in
            _ <- emit (Generate (chat_prompt message ps)) ;;
            match client_generate_text key generate_content
                    (chat_prompt message ps) with
            | Raises e => ret (Raises e)
            | Returns t =>
                let ai_reply := strip t in
                let reply := if is_empty ai_reply then deterministic ++ chat_notice
                             else ai_reply in
                ret (Returns (respond 200 (Reply reply)))
            end
        end
  end.

(** The oracle that stands for a client whose calls return. *)
Definition client_oracle (key : option string)
           (generate_content : string -> outcome (option string))
           (prompt : string) : string :=
  match client_generate_text key generate_content prompt with
  | Returns t => t
  | Raises _ => EmptyString
  end.

(* ================================================================== *)
(** * Vocabulary of the summary *)
(* ================================================================== *)

(** The sum of a list of numbers. *)
Definition total (xs : list Z) : Z := fold_right Z.add 0 xs.

(** Ways to round a value that lies half-way between two tenths. *)
Inductive TieRule := HalfUp | HalfDown | HalfEven | HalfOdd.

(** The exact quotient [s / n] ([0 < n]) in tenths, rounded to the nearest
    integer under a tie rule. *)
Definition round_tenths (rule : TieRule) (s n : Z) : Z :=
  let q := (10 * s) / n in
  match 2 * ((10 * s) mod n) ?= n with
  | Lt => q
  | Gt => q + 1
  | Eq => match rule with
          | HalfUp => q + 1
          | HalfDown => q
          | HalfEven => if Z.even q then q else q + 1
          | HalfOdd => if Z.odd q then q else q + 1
          end
  end.

(** A non-negative number of tenths written with one decimal. *)
Definition one_decimal (t : Z) : string :=
  str_of_Z (t / 10) ++ "."
  ++ String (ascii_of_N (Z.to_N (48 + t mod 10))) EmptyString.

(** The first line of a summary that reports [t] tenths over [n] reviews. *)
Definition sentiment_text (t : Z) (n : nat) : string :=
  "Overall sentiment: average rating is " ++ one_decimal t ++ "/5 from "
  ++ str_of_Z (Z.of_nat n) ++ " review(s).".

Definition positive_words : list string :=
  ["great"; "good"; "perfect"; "love"; "value"; "works"; "quality"].

Definition negative_words : list string :=
  ["bad"; "poor"; "disappointed"; "durable"; "worse"; "problem"; "okay"].

(** A word of the list occurs in the review's text, ignoring case. *)
Definition mentions (words : list string) (r : Review) : bool :=
  existsb (fun k => contains k (lower (text r))) words.

(** The texts of the first three reviews that mention a word, or the
    placeholder alone when none does. *)
Definition expected_entries (words : list string) (placeholder : string)
           (rs : list Review) : list string :=
  match filter (mentions words) rs with
  | [] => [placeholder]
  | ms => firstn 3 (map text ms)
  end.

(** An entry of a list of the summary. *)
Definition dashed (s : string) : string := "- " ++ s.

(** The deterministic summary for a displayed mean of [t] tenths. *)
Definition expected_summary (t : Z) (rs : list Review) : string :=
  join newline
    ([sentiment_text t (List.length rs); EmptyString; "Top pros:"]
     ++ map dashed
            (expected_entries positive_words "No strong pros detected from text." rs)
     ++ [EmptyString; "Top cons:"]
     ++ map dashed
            (expected_entries negative_words "No strong cons detected from text." rs))%list
  ++ newline ++ newline ++ "(Note: AI quota reached, showing basic summary.)".

(** The mean as the specification words it: the arithmetic mean rounded to
    one decimal place, under a tie rule. *)
Definition rounded_mean_property (rule : TieRule) : Prop :=
  forall rs : list Review,
    rs <> [] -> (List.length rs <= 20)%nat ->
    Forall (fun r => 1 <= rating r <= 5) rs ->
    sentiment_line rs
    = sentiment_text (round_tenths rule (total (map rating rs))
                                   (Z.of_nat (List.length rs)))
                     (List.length rs).

(** [n] reviews of product 1 with the rating [r]. *)
Definition rated (r : Z) (n : nat) : list Review :=
  repeat (review 1 r "Fine." 0) n.

(** The ids of an answer that some product of the store carries. *)
Definition usable_ids (ids : list Z) (rows : list Product) : list Z :=
  filter (fun i => existsb (fun p => id p =? i) rows) ids.

(* ================================================================== *)
(** * Properties of [order_by], slices and filters *)
(* ================================================================== *)

Section Ordering.

Context {A : Type}.
Variable ks : list (OrderKey A).

Let le (a b : A) : Prop := leb_keys ks a b = true.

Lemma cmp_keys_flip (a b : A) : cmp_keys ks b a = CompOpp (cmp_keys ks a b).
Proof.
  induction ks as [|k r IH]; simpl; [reflexivity|].
  destruct k as [f|f].
  - rewrite (Z.compare_antisym (f a) (f b)).
    destruct (f a ?= f b); simpl; auto.
  - rewrite (Z.compare_antisym (f b) (f a)).
    destruct (f b ?= f a); simpl; auto.
Qed.

Lemma leb_keys_total (a b : A) : leb_keys ks a b = false -> leb_keys ks b a = true.
Proof.
  unfold leb_keys. rewrite (cmp_keys_flip a b).
  destruct (cmp_keys ks a b); simpl; congruence.
Qed.

Lemma cmp_keys_trans (a b c : A) :
  cmp_keys ks a b <> Gt -> cmp_keys ks b c <> Gt -> cmp_keys ks a c <> Gt.
Proof.
  induction ks as [|k r IH]; simpl; [congruence|].
  destruct k as [f|f].
  - destruct (Z.compare_spec (f a) (f b)), (Z.compare_spec (f b) (f c)),
      (Z.compare_spec (f a) (f c)); try congruence; try lia; auto.
  - destruct (Z.compare_spec (f b) (f a)), (Z.compare_spec (f c) (f b)),
      (Z.compare_spec (f c) (f a)); try congruence; try lia; auto.
Qed.

Lemma leb_keys_trans (a b c : A) : le a b -> le b c -> le a c.
Proof.
  unfold le, leb_keys. intros Hab Hbc.
  assert (cmp_keys ks a c <> Gt) as H.
  { apply (cmp_keys_trans a b c).
    - destruct (cmp_keys ks a b); congruence.
    - destruct (cmp_keys ks b c); congruence. }
  destruct (cmp_keys ks a c); congruence.
Qed.

Lemma insert_by_perm (x : A) (l : list A) : Permutation (insert_by ks x l) (x :: l).
Proof.
  induction l as [|y r IH]; simpl; [apply Permutation_refl|].
  destruct (leb_keys ks x y); [apply Permutation_refl|].
  eapply perm_trans; [apply perm_skip, IH | apply perm_swap].
Qed.

Lemma order_by_perm (l : list A) : Permutation (order_by ks l) l.
Proof.
  induction l as [|x r IH]; simpl; [constructor|].
  eapply perm_trans; [apply insert_by_perm | apply perm_skip, IH].
Qed.

Lemma insert_by_sorted (x : A) (l : list A) :
  StronglySorted le l -> StronglySorted le (insert_by ks x l).
Proof.
  induction 1 as [|y r Hr IH Hy]; simpl.
  - repeat constructor.
  - destruct (leb_keys ks x y) eqn:Hxy.
    + constructor; [constructor; assumption|].
      constructor; [exact Hxy|].
      eapply Forall_impl; [|exact Hy].
      intros z Hz. exact (leb_keys_trans x y z Hxy Hz).
    + constructor; [exact IH|].
      eapply Permutation_Forall; [apply Permutation_sym, insert_by_perm|].
      constructor; [exact (leb_keys_total x y Hxy) | exact Hy].
Qed.

Lemma order_by_sorted (l : list A) : StronglySorted le (order_by ks l).
Proof.
  induction l as [|x r IH]; simpl; [constructor|].
  apply insert_by_sorted, IH.
Qed.

Lemma order_by_In (x : A) (l : list A) : In x (order_by ks l) <-> In x l.
Proof.
  split; apply Permutation_in;
    [apply order_by_perm | apply Permutation_sym, order_by_perm].
Qed.

Lemma order_by_length (l : list A) : List.length (order_by ks l) = List.length l.
Proof. apply Permutation_length, order_by_perm. Qed.

End Ordering.

Section Slices.

Context {A : Type}.

Lemma firstn_Forall (P : A -> Prop) (n : nat) (l : list A) :
  Forall P l -> Forall P (firstn n l).
Proof.
  intros H. rewrite <- (firstn_skipn n l) in H.
  apply Forall_app in H. tauto.
Qed.

Lemma firstn_sorted (R : A -> A -> Prop) (n : nat) (l : list A) :
  StronglySorted R l -> StronglySorted R (firstn n l).
Proof.
  intros H. revert n.
  induction H as [|x r Hr IH Hx]; intros [|n]; simpl; try constructor.
  - apply IH.
  - apply firstn_Forall, Hx.
Qed.

Lemma sorted_impl (R S : A -> A -> Prop) (l : list A) :
  (forall a b, R a b -> S a b) -> StronglySorted R l -> StronglySorted S l.
Proof.
  intros HRS. induction 1 as [|x r Hr IH Hx]; constructor; auto.
  eapply Forall_impl; [|exact Hx]. auto.
Qed.

Lemma filter_Forall (f : A -> bool) (l : list A) :
  Forall (fun x => f x = true) (filter f l).
Proof. apply Forall_forall. intros x Hx. apply filter_In in Hx. tauto. Qed.

Lemma filter_keeps (P : A -> Prop) (f : A -> bool) (l : list A) :
  Forall P l -> Forall P (filter f l).
Proof.
  rewrite !Forall_forall. intros H x Hx. apply filter_In in Hx. apply H. tauto.
Qed.

End Slices.


(* ================================================================== *)
(** * Price-bounded queries *)
(* ================================================================== *)

Lemma sorted_price_up_id_up (l : list Product) :
  StronglySorted price_up_id_up (order_by [Asc price; Asc id] l).
Proof.
  eapply sorted_impl; [|apply order_by_sorted].
  intros a b. unfold leb_keys, price_up_id_up. simpl.
  destruct (Z.compare_spec (price a) (price b)),
    (Z.compare_spec (id a) (id b)); intros; try discriminate; lia.
Qed.

Lemma sorted_price_down_id_up (l : list Product) :
  StronglySorted price_down_id_up (order_by [Desc price; Asc id] l).
Proof.
  eapply sorted_impl; [|apply order_by_sorted].
  intros a b. unfold leb_keys, price_down_id_up. simpl.
  destruct (Z.compare_spec (price b) (price a)),
    (Z.compare_spec (id a) (id b)); intros; try discriminate; lia.
Qed.

Lemma sorted_price_down_id_down (l : list Product) :
  StronglySorted price_down_id_down (order_by [Desc price; Desc id] l).
Proof.
  eapply sorted_impl; [|apply order_by_sorted].
  intros a b. unfold leb_keys, price_down_id_down. simpl.
  destruct (Z.compare_spec (price b) (price a)),
    (Z.compare_spec (id b) (id a)); intros; try discriminate; lia.
Qed.

Lemma slice_Forall (P : Product -> Prop) (ks : list (OrderKey Product))
      (n : nat) (l : list Product) :
  Forall P l -> Forall P (firstn n (order_by ks l)).
Proof.
  intros H. apply firstn_Forall.
  eapply Permutation_Forall; [apply Permutation_sym, order_by_perm | exact H].
Qed.

Lemma keyword_step_Forall (P : Product -> Prop) (kws : list string)
      (f : Product -> bool) (l : list Product) :
  Forall P l -> Forall P (match kws with [] => l | _ => filter f l end).
Proof. intros H. destruct kws; [exact H | apply filter_keeps, H]. Qed.

Lemma price_gte_Forall (n : Z) (l : list Product) :
  Forall (costs_at_least n) (filter (price_gte n) l).
Proof.
  eapply Forall_impl; [|apply filter_Forall].
  unfold price_gte, costs_at_least. intros p Hp. apply Z.leb_le, Hp.
Qed.

Lemma price_lte_Forall (n : Z) (l : list Product) :
  Forall (costs_at_most n) (filter (price_lte n) l).
Proof.
  eapply Forall_impl; [|apply filter_Forall].
  unfold price_lte, costs_at_most. intros p Hp. apply Z.leb_le, Hp.
Qed.

(** The response of [api_search] to a non-blank query carries
    [search_results] of the stored catalog. *)
Lemma api_search_body (requester : option string) (q : string) (w : World) :
  strip q <> EmptyString ->
  body (fst (run (api_search requester q) w))
  = Results (search_results (products w) (lower (strip q))).
Proof.
  intros Hq. unfold api_search.
  destruct (strip q) eqn:E; [congruence|]. simpl.
  destruct requester; reflexivity.
Qed.

Lemma chat_products_length (all : list Product) (ql : string) :
  (List.length (chat_products all ql) <= 5)%nat.
Proof.
  unfold chat_products, chat_retrieve.
  destruct (chat_order ql (chat_filter all ql)) as [qs title]. cbn [fst].
  apply firstn_le_length.
Qed.

Lemma search_results_length (all : list Product) (ql : string) :
  (List.length (search_results all ql) <= 20)%nat.
Proof.
  unfold search_results.
  destruct (parse_amount ql); [|apply firstn_le_length].
  destruct (search_wants_over ql); [apply firstn_le_length|].
  destruct (search_wants_under ql); apply firstn_le_length.
Qed.

(** C1, as the code has it.  For a query whose first number is [n], with an
    over-direction synonym and no under-direction synonym, every product
    returned costs at least [n]; plain search lists them by rising price,
    ties by rising id; chat lists them by falling price, ties by falling
    id. *)
Theorem over_query_results (all : list Product) (ql : string) (n : Z) :
  parse_amount ql = Some n ->
  (search_wants_under ql = false -> search_wants_over ql = true ->
   Forall (costs_at_least n) (search_results all ql)
   /\ StronglySorted price_up_id_up (search_results all ql))
  /\
  (chat_wants_under ql = false -> chat_wants_over ql || chat_wants_high ql = true ->
   Forall (costs_at_least n) (chat_products all ql)
   /\ StronglySorted price_down_id_down (chat_products all ql)).
Proof.
  intros Hn. split.
  - intros Hu Ho. unfold search_results. rewrite Hn, Hu, Ho. split.
    + apply slice_Forall, keyword_step_Forall, price_gte_Forall.
    + apply firstn_sorted, sorted_price_up_id_up.
  - intros Hu Ho. unfold chat_products, chat_retrieve, chat_order, chat_filter.
    rewrite Hn, Hu, Ho. cbn [fst]. split.
    + apply slice_Forall, keyword_step_Forall, price_gte_Forall.
    + apply firstn_sorted, sorted_price_down_id_down.
Qed.

Lemma over_query_results_witness :
  (Forall (costs_at_least 60) (search_results test_catalog "above $60")
   /\ StronglySorted price_up_id_up (search_results test_catalog "above $60"))
  /\ (Forall (costs_at_least 60) (chat_products test_catalog "above $60")
      /\ StronglySorted price_down_id_down (chat_products test_catalog "above $60")).
Proof.
  destruct (over_query_results test_catalog "above $60" 60 eq_refl) as [Hs Hc].
  split; [apply Hs | apply Hc]; reflexivity.
Defined.

(** C1 as worded fails: on two products at 20.00 and one at 30.00, plain
    search answers "above $10" by rising price, and chat puts the higher id
    first among the two at 20.00. *)
Lemma over_property_fails :
  ~ over_property search_results tie_catalog "above $10" 10
  /\ ~ over_property chat_products tie_catalog "above $10" 10.
Proof.
  split; intros H; destruct (H (or_introl eq_refl)) as [_ Hs]; clear H.
  - assert (search_results tie_catalog (lower (strip "above $10"))
            = tie_catalog) as E by (vm_compute; reflexivity).
    rewrite E in Hs. unfold tie_catalog in Hs.
    inversion Hs as [|? ? _ Hall]; subst.
    inversion Hall as [|? ? _ Hrest]; subst.
    inversion Hrest as [|? ? Hbad _]; subst.
    unfold price_down_id_up in Hbad; simpl in Hbad. lia.
  - assert (chat_products tie_catalog (lower (strip "above $10"))
            = rev tie_catalog) as E by (vm_compute; reflexivity).
    rewrite E in Hs. unfold tie_catalog in Hs. simpl in Hs.
    inversion Hs as [|? ? Htail _]; subst.
    inversion Htail as [|? ? _ Hall]; subst.
    inversion Hall as [|? ? Hbad _]; subst.
    unfold price_down_id_up in Hbad; simpl in Hbad. lia.
Qed.

(** C2, as the code has it.  For a query whose first number is [n], with an
    under-direction synonym, every product returned costs at most [n], and
    at most 20 (search) or 5 (chat) are returned; without an over-direction
    synonym, plain search lists them by falling price, ties by rising id;
    without an over-direction or high-price synonym, chat lists them by
    rising price, ties by rising id. *)
Theorem under_query_results (all : list Product) (ql : string) (n : Z) :
  parse_amount ql = Some n ->
  (search_wants_under ql = true ->
   Forall (costs_at_most n) (search_results all ql)
   /\ (List.length (search_results all ql) <= 20)%nat
   /\ (search_wants_over ql = false ->
       StronglySorted price_down_id_up (search_results all ql)))
  /\
  (chat_wants_under ql = true ->
   Forall (costs_at_most n) (chat_products all ql)
   /\ (List.length (chat_products all ql) <= 5)%nat
   /\ (chat_wants_over ql = false -> chat_wants_high ql = false ->
       StronglySorted price_up_id_up (chat_products all ql))).
Proof.
  intros Hn. split.
  - intros Hu. split; [|split].
    + unfold search_results. rewrite Hn, Hu.
      destruct (search_wants_over ql);
        apply slice_Forall, keyword_step_Forall, price_lte_Forall.
    + apply search_results_length.
    + intros Ho. unfold search_results. rewrite Hn, Hu, Ho.
      apply firstn_sorted, sorted_price_down_id_up.
  - intros Hu. split; [|split].
    + unfold chat_products, chat_retrieve, chat_order, chat_filter.
      rewrite Hn, Hu.
      destruct (chat_wants_over ql || chat_wants_high ql); cbn [fst];
        apply slice_Forall, keyword_step_Forall, price_lte_Forall.
    + apply chat_products_length.
    + intros Ho Hh.
      unfold chat_products, chat_retrieve, chat_order, chat_filter.
      rewrite Hn, Hu, Ho, Hh. cbn [fst orb].
      apply firstn_sorted, sorted_price_up_id_up.
Qed.

Lemma under_query_results_witness :
  (Forall (costs_at_most 20) (search_results test_catalog "under $20")
   /\ (List.length (search_results test_catalog "under $20") <= 20)%nat
   /\ StronglySorted price_down_id_up (search_results test_catalog "under $20"))
  /\ (Forall (costs_at_most 20) (chat_products test_catalog "under $20")
      /\ (List.length (chat_products test_catalog "under $20") <= 5)%nat
      /\ StronglySorted price_up_id_up (chat_products test_catalog "under $20")).
Proof.
  destruct (under_query_results test_catalog "under $20" 20 eq_refl) as [Hs Hc].
  destruct (Hs eq_refl) as (H1 & H2 & H3).
  destruct (Hc eq_refl) as (H4 & H5 & H6).
  repeat split; auto.
Defined.

(** C2 as worded fails: plain search answers "under $100" on the test
    catalog with the product at 49.90 before the one at 18.00. *)
Lemma under_property_fails :
  ~ under_property search_results 20 test_catalog "under $100" 100.
Proof.
  intros H. destruct (H (or_introl eq_refl)) as (_ & Hs & _); clear H.
  assert (map price (search_results test_catalog (lower (strip "under $100")))
          = [4990; 1800]) as E by (vm_compute; reflexivity).
  destruct (search_results test_catalog (lower (strip "under $100")))
    as [|a [|b r]]; try discriminate.
  injection E as Ea Eb _.
  inversion Hs as [|? ? _ Hall]; subst.
  inversion Hall as [|? ? Hbad _]; subst.
  unfold price_non_decreasing in Hbad. lia.
Qed.

(* ================================================================== *)
(** * The two intent parsers *)
(* ================================================================== *)

Lemma search_under_is_chat_under (ql : string) :
  search_wants_under ql = true -> chat_wants_under ql = true.
Proof.
  unfold search_wants_under, chat_wants_under, any_in. simpl.
  repeat match goal with
         | |- context [contains ?w ql] => destruct (contains w ql)
         end; simpl; congruence.
Qed.

(** C5, as the code has it.  Search and chat read the same amount from a
    query; a query that search takes as UNDER is UNDER for chat; a chat
    keyword is a search keyword unless it is a stop word of search.  The
    synonym lists, the stop words and the minimum length are otherwise each
    endpoint's own. *)
Theorem intents_agree_on (q : string) :
  intent_amount (search_intent q) = intent_amount (chat_intent q)
  /\ (intent_direction (search_intent q) = UNDER ->
      intent_direction (chat_intent q) = UNDER)
  /\ (forall w, In w (intent_keywords (chat_intent q)) ->
                mem w search_noise = false ->
                In w (intent_keywords (search_intent q))).
Proof.
  unfold search_intent, chat_intent; cbn [intent_amount intent_direction intent_keywords].
  split; [reflexivity|]. split.
  - destruct (search_wants_under (lower (strip q))) eqn:Hu.
    + rewrite (search_under_is_chat_under _ Hu). reflexivity.
    + destruct (search_wants_over (lower (strip q))); discriminate.
  - intros w Hw Hn. unfold chat_keywords in Hw. unfold search_keywords.
    apply filter_In in Hw. apply filter_In. split; [tauto|].
    rewrite Hn. reflexivity.
Qed.

Lemma intents_agree_on_witness :
  intent_amount (search_intent "cheaper speaker below $30")
  = intent_amount (chat_intent "cheaper speaker below $30")
  /\ intent_direction (chat_intent "cheaper speaker below $30") = UNDER
  /\ In "speaker" (intent_keywords (search_intent "cheaper speaker below $30")).
Proof.
  destruct (intents_agree_on "cheaper speaker below $30") as (Ha & Hd & Hk).
  split; [exact Ha|]. split; [apply Hd; reflexivity|].
  apply Hk; [|reflexivity]. vm_compute. right; left; reflexivity.
Defined.

(** C5 as worded fails: "low price tv" has no direction for search and is
    UNDER for chat, and only search keeps the keywords "low" and "tv". *)
Lemma intents_differ : ~ (forall q, search_intent q = chat_intent q).
Proof.
  intros H. specialize (H "low price tv").
  apply (f_equal intent_direction) in H. vm_compute in H. discriminate.
Qed.

Example intents_differ_keywords :
  intent_keywords (search_intent "low price tv") = ["low"; "tv"]
  /\ intent_keywords (chat_intent "low price tv") = ["low"].
Proof. split; reflexivity. Qed.

(* ================================================================== *)
(** * Replies of the chat endpoint that need no backend *)
(* ================================================================== *)

Lemma chat_replies_without_backend_aux (ai : string -> string) (message : string)
      (w : World) :
  (strip message = EmptyString ->
   run (api_chat ai message) w
   = (respond 400 (Reply chat_rejection), {| world := w; trace := [] |}))
  /\
  (strip message <> EmptyString ->
   chat_products (products w) (lower (strip message)) = [] ->
   run (api_chat ai message) w
   = (respond 200 (Reply chat_guidance),
      {| world := w; trace := [Select "product"] |})).
Proof.
  split.
  - intros H. unfold api_chat. rewrite H. reflexivity.
  - intros H Hnone. unfold api_chat.
    destruct (strip message) as [|c r] eqn:E; [congruence|].
    cbn [is_empty]. unfold chat_products in Hnone.
    cbv [run bind select_products read emit ret].
    cbn [world trace app].
    destruct (chat_retrieve (products w) (lower (String c r))) as [ps title].
    cbn [fst] in Hnone. subst ps. reflexivity.
Qed.

(** C6.  A blank message is rejected with the fixed text before any store
    or backend access; when retrieval finds no product the fixed guidance
    is returned after the one catalog query, and [generate_text] is not
    called. *)
Theorem chat_replies_without_backend (ai : string -> string) (message : string)
        (w : World) :
  (strip message = EmptyString ->
   run (api_chat ai message) w
   = (respond 400 (Reply chat_rejection), {| world := w; trace := [] |}))
  /\
  (strip message <> EmptyString ->
   chat_products (products w) (lower (strip message)) = [] ->
   run (api_chat ai message) w
   = (respond 200 (Reply chat_guidance),
      {| world := w; trace := [Select "product"] |})).
Proof.
  split.
  - intros H. unfold api_chat. rewrite H. reflexivity.
  - intros H Hnone. unfold api_chat.
    destruct (strip message) as [|c r] eqn:E; [congruence|].
    cbn [is_empty]. unfold chat_products in Hnone.
    cbv [run bind select_products read emit ret].
    cbn [world trace app].
    destruct (chat_retrieve (products w) (lower (String c r))) as [ps title].
    cbn [fst] in Hnone. subst ps. reflexivity.
Qed.

Lemma chat_replies_without_backend_witness :
  run (api_chat silent "   ") test_world
  = (respond 400 (Reply chat_rejection), {| world := test_world; trace := [] |})
  /\ run (api_chat silent "a zeppelin") test_world
     = (respond 200 (Reply chat_guidance),
        {| world := test_world; trace := [Select "product"] |}).
Proof.
  destruct (chat_replies_without_backend silent "   " test_world) as [H1 _].
  destruct (chat_replies_without_backend silent "a zeppelin" test_world) as [_ H2].
  split; [apply H1; reflexivity | apply H2; [discriminate | reflexivity]].
Defined.

(** With products at hand the backend is consulted exactly once. *)
Example chat_calls_backend_once :
  List.length (filter (fun e => match e with Generate _ => true | _ => false end)
                 (trace (snd (run (api_chat silent "under $20") test_world)))) = 1%nat.
Proof. vm_compute. reflexivity. Qed.

(* ================================================================== *)
(** * Saving a product *)
(* ================================================================== *)

Lemma lookup_product_sound (pid : Z) (rows : list Product) (p : Product) :
  lookup_product pid rows = Some p -> id p = pid /\ In p rows.
Proof.
  unfold lookup_product. intros H. apply find_some in H.
  destruct H as [Hin Hid]. apply Z.eqb_eq in Hid. auto.
Qed.

Lemma lookup_replaced (p : Product) (rows : list Product) :
  existsb (fun q => id q =? id p) rows = true ->
  lookup_product (id p) (map (fun q => if id q =? id p then p else q) rows) = Some p.
Proof.
  induction rows as [|q r IH]; simpl; [discriminate|].
  destruct (id q =? id p) eqn:E; simpl.
  - rewrite Z.eqb_refl. reflexivity.
  - rewrite E. exact IH.
Qed.

Lemma lookup_appended (p : Product) (rows : list Product) :
  existsb (fun q => id q =? id p) rows = false ->
  lookup_product (id p) (rows ++ [p]) = Some p.
Proof.
  induction rows as [|q r IH]; simpl.
  - rewrite Z.eqb_refl. reflexivity.
  - destruct (id q =? id p) eqn:E; simpl; [discriminate|exact IH].
Qed.

Lemma lookup_save_same (p : Product) (rows : list Product) :
  lookup_product (id p) (save_row p rows) = Some p.
Proof.
  unfold save_row.
  destruct (existsb (fun q => id q =? id p) rows) eqn:E;
    [apply lookup_replaced | apply lookup_appended]; exact E.
Qed.

Lemma lookup_save_other (p : Product) (rows : list Product) (other : Z) :
  other <> id p ->
  lookup_product other (save_row p rows) = lookup_product other rows.
Proof.
  intros Hne. unfold save_row.
  assert ((id p =? other) = false) as Hp by (apply Z.eqb_neq; congruence).
  destruct (existsb (fun q => id q =? id p) rows).
  - induction rows as [|q r IH]; simpl; [reflexivity|].
    destruct (id q =? id p) eqn:E; simpl.
    + apply Z.eqb_eq in E. rewrite Hp.
      assert ((id q =? other) = false) as Hq by (apply Z.eqb_neq; congruence).
      rewrite Hq. exact IH.
    + destruct (id q =? other); [reflexivity | exact IH].
  - induction rows as [|q r IH]; simpl.
    + rewrite Hp. reflexivity.
    + destruct (id q =? other); [reflexivity | exact IH].
Qed.

(* ================================================================== *)
(** * Description generation *)
(* ================================================================== *)

Lemma generate_description_run (ai : string -> string) (pid : Z) (w : World)
      (p : Product) :
  lookup_product pid (products w) = Some p ->
  run (api_generate_description ai pid) w
  = if is_empty (ai (description_prompt p))
    then (respond 502 (Error "Gemini returned empty text"),
          {| world := w;
             trace := [Select "product"; Generate (description_prompt p)] |})
    else (respond 200 (Description (id p) (ai (description_prompt p))),
          {| world := {| products := save_row (set_ai_description p (ai (description_prompt p)))
                                              (products w);
                         reviews := reviews w;
                         interactions := interactions w;
                         now := now w |};
             trace := [Select "product"; Generate (description_prompt p);
                       Update "product" (id p)] |}).
Proof.
  intros H.
  cbv [run api_generate_description bind get_product read emit ret generate_text
       save_product write].
  cbn [world trace app]. rewrite H.
  destruct (is_empty (ai (description_prompt p))); reflexivity.
Qed.

(** C8.  For a stored product: when the backend returns empty text the
    response is the explicit failure (status 502) and the store is left as
    it was; when it returns text, the response is a success, the product's
    [ai_description] is exactly that text, its other fields and every other
    product are untouched. *)
Theorem generate_description_outcome (ai : string -> string) (pid : Z) (w : World)
        (p : Product) :
  lookup_product pid (products w) = Some p ->
  let t := ai (description_prompt p) in
  let out := run (api_generate_description ai pid) w in
  (t = EmptyString ->
   fst out = respond 502 (Error "Gemini returned empty text")
   /\ world (snd out) = w)
  /\
  (t <> EmptyString ->
   fst out = respond 200 (Description pid t)
   /\ lookup_product pid (products (world (snd out))) = Some (set_ai_description p t)
   /\ ai_description (set_ai_description p t) = t
   /\ (forall other, other <> pid ->
         lookup_product other (products (world (snd out)))
         = lookup_product other (products w))).
Proof.
  intros H t out. subst out.
  rewrite (generate_description_run ai pid w p H). fold t.
  destruct (lookup_product_sound _ _ _ H) as [Hid _].
  split; intros Ht.
  - rewrite Ht. cbn [is_empty fst snd world]. destruct w; auto.
  - destruct t as [|c r] eqn:E; [congruence|]. cbn [is_empty fst snd world products].
    split; [rewrite Hid; reflexivity|]. split; [|split; [reflexivity|]].
    + rewrite <- Hid at 1.
      apply (lookup_save_same (set_ai_description p (String c r))).
    + intros other Hne. apply lookup_save_other. cbn [set_ai_description id].
      congruence.
Qed.

Lemma generate_description_outcome_witness :
  (fst (run (api_generate_description silent 1) test_world)
   = respond 502 (Error "Gemini returned empty text")
   /\ world (snd (run (api_generate_description silent 1) test_world)) = test_world)
  /\ (fst (run (api_generate_description (fun _ => "Earbuds for the gym.") 1) test_world)
      = respond 200 (Description 1 "Earbuds for the gym.")).
Proof.
  split.
  - apply (generate_description_outcome silent 1 test_world
             (item 1 "Wireless Earbuds" "Electronics" 4990 "audio,wireless,gym"
                   "Compact wireless earbuds.") eq_refl).
    reflexivity.
  - apply (generate_description_outcome (fun _ => "Earbuds for the gym.") 1 test_world
             (item 1 "Wireless Earbuds" "Electronics" 4990 "audio,wireless,gym"
                   "Compact wireless earbuds.") eq_refl).
    discriminate.
Defined.

(* ================================================================== *)
(** * Review summaries *)
(* ================================================================== *)

Lemma summarize_reviews_run (ai : string -> string) (pid : Z) (w : World)
      (p : Product) :
  lookup_product pid (products w) = Some p ->
  recent_reviews pid (reviews w) <> [] ->
  let rs := recent_reviews pid (reviews w) in
  let t := ai (summary_prompt rs) in
  let summary := if is_empty t then basic_review_summary rs ++ summary_notice
                 else t in
  run (api_summarize_reviews ai pid) w
  = (respond 200 (ReviewSummary pid summary),
     {| world := {| products := save_row (set_ai_review_summary p summary) (products w);
                    reviews := reviews w;
                    interactions := interactions w;
                    now := now w |};
        trace := [Select "product"; Select "review"; Generate (summary_prompt rs);
                  Update "product" pid] |}).
Proof.
  intros H Hrs. cbv zeta.
  destruct (lookup_product_sound _ _ _ H) as [Hid _].
  cbv [run api_summarize_reviews bind get_product read emit ret generate_text
       save_product write].
  cbn [world trace app]. rewrite H, Hid. cbn [world trace app].
  destruct (recent_reviews pid (reviews w)) as [|r0 rest]; [congruence|].
  cbn [world trace app set_ai_review_summary id ai_review_summary].
  rewrite Hid. reflexivity.
Qed.

Lemma has_review_recent (pid : Z) (rows : list Review) :
  (exists r, In r rows /\ review_product r = pid) ->
  recent_reviews pid rows <> [].
Proof.
  intros [r [Hin Hp]]. unfold recent_reviews.
  assert (In r (order_by [Desc created_at]
                  (filter (fun r => review_product r =? pid) rows))) as Hr.
  { apply order_by_In, filter_In. split; [exact Hin | apply Z.eqb_eq, Hp]. }
  destruct (order_by [Desc created_at]
              (filter (fun r => review_product r =? pid) rows));
    [destruct Hr | discriminate].
Qed.

Lemma sorted_app_cross {A} (R : A -> A -> Prop) (l1 l2 : list A) :
  StronglySorted R (l1 ++ l2) ->
  forall a b, In a l1 -> In b l2 -> R a b.
Proof.
  induction l1 as [|x r IH]; simpl; intros H a b Ha Hb; [destruct Ha|].
  inversion H as [|? ? Hr Hx]; subst.
  destruct Ha as [<-|Ha].
  - rewrite Forall_forall in Hx. apply Hx, in_or_app. right; exact Hb.
  - apply IH; assumption.
Qed.

Lemma sorted_newest_first (l : list Review) :
  StronglySorted newest_first (order_by [Desc created_at] l).
Proof.
  eapply sorted_impl; [|apply order_by_sorted].
  intros a b. unfold leb_keys, newest_first. simpl.
  destruct (Z.compare_spec (created_at b) (created_at a));
    intros; try discriminate; lia.
Qed.

(** C10.  For a stored product with at least one review the call succeeds
    and the product's [ai_review_summary] becomes the backend's text or,
    when that text is empty, the deterministic summary followed by the
    fixed notice.  The reviews used are the first 20 of the product's
    reviews by falling [created_at]: no review left out is more recent
    than a review used. *)
Theorem summarize_reviews_persists (ai : string -> string) (pid : Z) (w : World)
        (p : Product) :
  lookup_product pid (products w) = Some p ->
  (exists r, In r (reviews w) /\ review_product r = pid) ->
  let rs := recent_reviews pid (reviews w) in
  let t := ai (summary_prompt rs) in
  let summary := if is_empty t then basic_review_summary rs ++ summary_notice
                 else t in
  let out := run (api_summarize_reviews ai pid) w in
  fst out = respond 200 (ReviewSummary pid summary)
  /\ lookup_product pid (products (world (snd out)))
     = Some (set_ai_review_summary p summary)
  /\ ai_review_summary (set_ai_review_summary p summary) = summary
  /\ (List.length rs <= 20)%nat
  /\ StronglySorted newest_first rs
  /\ exists older,
       Permutation (rs ++ older) (filter (fun r => review_product r =? pid) (reviews w))
       /\ (older <> [] -> List.length rs = 20%nat)
       /\ (forall r r', In r rs -> In r' older -> created_at r' <= created_at r).
Proof.
  intros H Hex rs t summary out. subst out.
  rewrite (summarize_reviews_run ai pid w p H (has_review_recent _ _ Hex)).
  fold rs. fold t. fold summary. cbn [fst snd world products].
  destruct (lookup_product_sound _ _ _ H) as [Hid _].
  split; [reflexivity|]. split.
  { rewrite <- Hid at 1. apply (lookup_save_same (set_ai_review_summary p summary)). }
  split; [reflexivity|]. split; [apply firstn_le_length|]. split.
  { apply firstn_sorted, sorted_newest_first. }
  set (sorted := order_by [Desc created_at]
                   (filter (fun r => review_product r =? pid) (reviews w))).
  exists (skipn 20 sorted). split; [|split].
  - unfold rs, recent_reviews. fold sorted. rewrite firstn_skipn.
    apply order_by_perm.
  - intros Hold. unfold rs, recent_reviews. fold sorted.
    rewrite length_firstn. apply Nat.min_l.
    destruct (Nat.le_gt_cases 20 (List.length sorted)) as [Hle|Hlt]; [exact Hle|].
    exfalso. apply Hold. apply skipn_all2. lia.
  - intros r r' Hr Hr'.
    apply (sorted_app_cross newest_first (firstn 20 sorted) (skipn 20 sorted));
      [rewrite firstn_skipn; apply sorted_newest_first | exact Hr | exact Hr'].
Qed.

Lemma summarize_reviews_persists_witness :
  fst (run (api_summarize_reviews silent 1) test_world)
  = respond 200 (ReviewSummary 1
      (basic_review_summary (recent_reviews 1 test_reviews) ++ summary_notice)).
Proof.
  apply (summarize_reviews_persists silent 1 test_world
           (item 1 "Wireless Earbuds" "Electronics" 4990 "audio,wireless,gym"
                 "Compact wireless earbuds.") eq_refl).
  exists (review 1 5 "Great quality and works perfectly." 1).
  split; [left; reflexivity | reflexivity].
Defined.

(** ** The fallback summary *)

Lemma Zseq_In (lo x : Z) (count : nat) :
  lo <= x < lo + Z.of_nat count -> In x (Zseq lo count).
Proof.
  intros H. unfold Zseq. apply in_map_iff.
  exists (Z.to_nat (x - lo)). split; [lia|]. apply in_seq. lia.
Qed.

Lemma sum_ratings_bounds (rs : list Review) :
  Forall (fun r => 1 <= rating r <= 5) rs ->
  Z.of_nat (List.length rs) <= sum_ratings rs <= 5 * Z.of_nat (List.length rs).
Proof.
  induction 1 as [|r rest Hr _ IH]; simpl sum_ratings; simpl List.length; lia.
Qed.

Lemma all_means_checked : all_means_check = true.
Proof. vm_compute. reflexivity. Qed.

Lemma mean_checks_in_range (s n : Z) :
  1 <= n <= 20 -> n <= s <= 5 * n -> mean_checks s n = true.
Proof.
  intros Hn Hs. pose proof all_means_checked as H.
  unfold all_means_check in H. rewrite forallb_forall in H.
  specialize (H n (Zseq_In 1 n 20 ltac:(lia))). rewrite forallb_forall in H.
  apply H, Zseq_In. lia.
Qed.

Lemma displayed_mean_nearest (rs : list Review) :
  rs <> [] -> (List.length rs <= 20)%nat ->
  Forall (fun r => 1 <= rating r <= 5) rs ->
  exists t, 0 <= t
            /\ format_1f (avg rs) = show_tenths false t
            /\ nearest_tenth t (sum_ratings rs) (Z.of_nat (List.length rs)).
Proof.
  intros Hne Hlen Hr.
  pose proof (sum_ratings_bounds rs Hr) as Hs.
  assert (1 <= Z.of_nat (List.length rs) <= 20) as Hn.
  { destruct rs; [congruence|]. simpl List.length in *. lia. }
  pose proof (mean_checks_in_range _ _ Hn Hs) as Hc.
  unfold mean_checks in Hc. unfold avg.
  destruct (py_truediv (sum_ratings rs) (Z.of_nat (List.length rs)))
    as [s0|s1| |[|] m e]; try discriminate.
  exists (tenths m e). split; [|split].
  - unfold tenths, round_half_even.
    destruct (0 <=? e) eqn:He.
    + apply Z.leb_le in He. pose proof (Z.pow_nonneg 2 e ltac:(lia)). nia.
    + apply Z.leb_gt in He.
      assert (0 < 2 ^ (- e)) as Hp by (apply Z.pow_pos_nonneg; lia).
      pose proof (Z.div_pos (10 * Z.pos m) (2 ^ (- e)) ltac:(lia) Hp).
      destruct (2 * ((10 * Z.pos m) mod 2 ^ (- e)) ?= 2 ^ (- e));
        [destruct (Z.even _)|..]; lia.
  - reflexivity.
  - unfold nearest_tenth. unfold nearest_tenthb in Hc. apply Z.leb_le, Hc.
Qed.

Lemma top3_length (placeholder : string) (xs : list string) :
  (List.length (top3 placeholder xs) <= 3)%nat.
Proof.
  destruct xs as [|x r]; [simpl; lia|]. unfold top3. apply firstn_le_length.
Qed.

Lemma ratings_in_range (rs : list Review) :
  forallb (fun r => (1 <=? rating r) && (rating r <=? 5)) rs = true ->
  Forall (fun r => 1 <= rating r <= 5) rs.
Proof.
  rewrite forallb_forall, Forall_forall. intros H r Hr.
  specialize (H r Hr). apply andb_true_iff in H. lia.
Qed.

Lemma digit_text (d : Z) :
  0 <= d <= 9 ->
  str_of_Z d = String (ascii_of_N (Z.to_N (48 + d))) EmptyString.
Proof.
  intros H.
  assert (d = 0 \/ d = 1 \/ d = 2 \/ d = 3 \/ d = 4 \/ d = 5 \/ d = 6 \/ d = 7
          \/ d = 8 \/ d = 9) as Hd by lia.
  repeat (destruct Hd as [->|Hd]; [reflexivity|]). subst d. reflexivity.
Qed.

Lemma show_one_decimal (t : Z) : show_tenths false t = one_decimal t.
Proof.
  unfold show_tenths, one_decimal.
  rewrite (digit_text (t mod 10)); [reflexivity|].
  pose proof (Z.mod_pos_bound t 10 ltac:(lia)). lia.
Qed.

Lemma sum_ratings_total (rs : list Review) : sum_ratings rs = total (map rating rs).
Proof. induction rs as [|r rest IH]; simpl; [reflexivity|]. rewrite <- IH. reflexivity. Qed.

Lemma entries_expected (words : list string) (placeholder : string) (rs : list Review) :
  top3 placeholder (matching words rs) = expected_entries words placeholder rs.
Proof.
  unfold top3, matching, expected_entries, mentions, any_in.
  destruct (filter _ rs); reflexivity.
Qed.

Lemma expected_entries_length (words : list string) (placeholder : string)
      (rs : list Review) :
  (List.length (expected_entries words placeholder rs) <= 3)%nat.
Proof. rewrite <- entries_expected. apply top3_length. Qed.

Lemma sentiment_line_nearest (rs : list Review) :
  rs <> [] -> (List.length rs <= 20)%nat ->
  Forall (fun r => 1 <= rating r <= 5) rs ->
  exists t, 0 <= t
            /\ nearest_tenth t (total (map rating rs)) (Z.of_nat (List.length rs))
            /\ sentiment_line rs = sentiment_text t (List.length rs).
Proof.
  intros Hne Hlen Hr.
  destruct (displayed_mean_nearest rs Hne Hlen Hr) as (t & Ht0 & Hfmt & Hnear).
  exists t. split; [exact Ht0|]. split.
  - rewrite <- sum_ratings_total. exact Hnear.
  - unfold sentiment_line, sentiment_text. rewrite Hfmt, show_one_decimal. reflexivity.
Qed.

Lemma fallback_summary_expected (rs : list Review) (t : Z) :
  rs <> [] ->
  sentiment_line rs = sentiment_text t (List.length rs) ->
  basic_review_summary rs ++ summary_notice = expected_summary t rs.
Proof.
  intros Hne Hs. unfold expected_summary, basic_review_summary, summary_notice.
  destruct rs as [|r0 rest]; [congruence|].
  rewrite Hs. unfold pros_of, cons_of.
  rewrite !entries_expected. reflexivity.
Qed.

(** C7, as the code has it.  For a stored product whose reviews used (the
    20 most recent at most) carry ratings from 1 to 5, when the backend
    returns empty text the response and the stored summary are the
    deterministic summary followed by the notice.  Its first line shows a
    one-decimal value nearest to the arithmetic mean of the ratings: within
    0.05 of it, either neighbour when the mean lies half-way between two
    tenths.  The pros and the cons each hold at most 3 entries: the texts of
    the first three reviews, in review order, in which a word of the list
    occurs, or the placeholder sentence alone when there is none. *)
Theorem fallback_summary_properties (ai : string -> string) (pid : Z) (w : World)
        (p : Product) :
  lookup_product pid (products w) = Some p ->
  let rs := recent_reviews pid (reviews w) in
  rs <> [] ->
  Forall (fun r => 1 <= rating r <= 5) rs ->
  ai (summary_prompt rs) = EmptyString ->
  exists t p',
    0 <= t
    /\ nearest_tenth t (total (map rating rs)) (Z.of_nat (List.length rs))
    /\ fst (run (api_summarize_reviews ai pid) w)
       = respond 200 (ReviewSummary pid (expected_summary t rs))
    /\ lookup_product pid (products (world (snd (run (api_summarize_reviews ai pid) w))))
       = Some p'
    /\ ai_review_summary p' = expected_summary t rs
    /\ (List.length (expected_entries positive_words
                       "No strong pros detected from text." rs) <= 3)%nat
    /\ (List.length (expected_entries negative_words
                       "No strong cons detected from text." rs) <= 3)%nat.
Proof.
  intros H rs Hne Hr Hai.
  assert (List.length rs <= 20)%nat as Hlen by apply firstn_le_length.
  destruct (sentiment_line_nearest rs Hne Hlen Hr) as (t & Ht0 & Hnear & Hline).
  pose proof (fallback_summary_expected rs t Hne Hline) as Hsum.
  exists t, (set_ai_review_summary p (expected_summary t rs)).
  rewrite (summarize_reviews_run ai pid w p H Hne). fold rs. rewrite Hai.
  cbn [is_empty fst snd world products]. rewrite Hsum.
  destruct (lookup_product_sound _ _ _ H) as [Hid _].
  split; [exact Ht0|]. split; [exact Hnear|]. split; [reflexivity|]. split.
  { rewrite <- Hid at 1.
    apply (lookup_save_same (set_ai_review_summary p (expected_summary t rs))). }
  split; [reflexivity|]. split; apply expected_entries_length.
Qed.

Lemma fallback_summary_properties_witness :
  fst (run (api_summarize_reviews silent 1) test_world)
  = respond 200
      (ReviewSummary 1
         (join newline
            [ "Overall sentiment: average rating is 3.5/5 from 4 review(s).";
              EmptyString;
              "Top pros:";
              "- Good value for money. I like it.";
              "- Great quality and works perfectly.";
              EmptyString;
              "Top cons:";
              "- Not very durable. Disappointed.";
              "- It's okay, but could be better.";
              EmptyString;
              "(Note: AI quota reached, showing basic summary.)" ])).
Proof.
  assert (recent_reviews 1 (reviews test_world) <> []) as Hne
    by (vm_compute; discriminate).
  assert (Forall (fun r => 1 <= rating r <= 5) (recent_reviews 1 (reviews test_world)))
    as Hr by (apply ratings_in_range; vm_compute; reflexivity).
  destruct (fallback_summary_properties silent 1 test_world
              (item 1 "Wireless Earbuds" "Electronics" 4990 "audio,wireless,gym"
                    "Compact wireless earbuds.") eq_refl Hne Hr eq_refl)
    as (t & p' & Ht & Hnear & Hout & _).
  change (nearest_tenth t 14 4) in Hnear. unfold nearest_tenth in Hnear.
  assert (t = 35) as -> by lia.
  rewrite Hout. vm_compute. reflexivity.
Defined.

(** C7 as worded fails: no way of rounding a half-way mean fits the figure
    shown.  Seventeen ratings of 1 and three of 2 have the mean 1.15, shown
    as 1.1, which rounding half up or half to even turns into 1.2; the
    ratings 2, 3, 3, 3 have the mean 2.75, shown as 2.8, which rounding
    half down or half to odd turns into 2.7. *)
Lemma rounded_mean_fails : ~ exists rule, rounded_mean_property rule.
Proof.
  assert (forall rs t,
            String.eqb (sentiment_line rs) (sentiment_text t (List.length rs)) = false ->
            sentiment_line rs <> sentiment_text t (List.length rs)) as Hneq.
  { intros rs t Hb Heq. rewrite Heq, String.eqb_refl in Hb. discriminate Hb. }
  intros [rule H].
  pose proof (H (rated 1 17 ++ rated 2 3)%list ltac:(discriminate)
                ltac:(simpl; lia)
                ltac:(apply ratings_in_range; vm_compute; reflexivity)) as Hlow.
  pose proof (H (rated 2 1 ++ rated 3 3)%list ltac:(discriminate)
                ltac:(simpl; lia)
                ltac:(apply ratings_in_range; vm_compute; reflexivity)) as Hhigh.
  destruct rule.
  - revert Hlow. apply Hneq. vm_compute. reflexivity.
  - revert Hhigh. apply Hneq. vm_compute. reflexivity.
  - revert Hlow. apply Hneq. vm_compute. reflexivity.
  - revert Hhigh. apply Hneq. vm_compute. reflexivity.
Qed.

(** The summary of the four test reviews when the backend is silent. *)
Example fallback_summary_text :
  basic_review_summary (recent_reviews 1 test_reviews)
  = join newline
      [ "Overall sentiment: average rating is 3.5/5 from 4 review(s).";
        EmptyString;
        "Top pros:";
        "- Good value for money. I like it.";
        "- Great quality and works perfectly.";
        EmptyString;
        "Top cons:";
        "- Not very durable. Disappointed.";
        "- It's okay, but could be better." ].
Proof. vm_compute. reflexivity. Qed.

(** Means that lie half-way between two tenths: 23/20 = 1.15 is shown as
    1.1 (the binary64 quotient is below 1.15), 9/4 = 2.25 as 2.2 and
    11/4 = 2.75 as 2.8 (exact quotients, ties to even). *)
Example half_way_means :
  format_1f (py_truediv 23 20) = "1.1"
  /\ format_1f (py_truediv 9 4) = "2.2"
  /\ format_1f (py_truediv 11 4) = "2.8".
Proof. repeat split; vm_compute; reflexivity. Qed.

(** Ratings are not bounded by the data model ([IntegerField]): a single
    rating of 2^53 + 1 is shown as 9007199254740992.0, which is not within
    0.05 of it. *)
Example unbounded_rating_mean :
  sentiment_line [review 1 (2 ^ 53 + 1) "Fine." 0]
  = "Overall sentiment: average rating is 9007199254740992.0/5 from 1 review(s)."
  /\ ~ nearest_tenth 90071992547409920 (total [2 ^ 53 + 1]) 1.
Proof.
  split; [vm_compute; reflexivity|].
  unfold nearest_tenth, total. simpl fold_right. lia.
Qed.

(* ================================================================== *)
(** * Recommendations *)
(* ================================================================== *)

Section Lookup.

Variable rows : list Product.
Hypothesis unique_ids : NoDup (map id rows).

Lemma find_by_id_unique (l : list Product) (p : Product) :
  NoDup (map id l) -> In p l ->
  find (fun q => id q =? id p) l = Some p.
Proof.
  induction l as [|q r IH]; simpl; intros Hnd Hin; [destruct Hin|].
  inversion Hnd as [|? ? Hq Hr]; subst.
  destruct Hin as [->|Hin].
  - rewrite Z.eqb_refl. reflexivity.
  - destruct (id q =? id p) eqn:E; [|apply IH; assumption].
    apply Z.eqb_eq in E. exfalso. apply Hq. rewrite E.
    apply in_map, Hin.
Qed.

Lemma find_by_id_none (l : list Product) (i : Z) :
  (forall q, In q l -> id q <> i) -> find (fun q => id q =? i) l = None.
Proof.
  induction l as [|q r IH]; simpl; intros H; [reflexivity|].
  destruct (id q =? i) eqn:E.
  - apply Z.eqb_eq in E. exfalso. apply (H q); auto.
  - apply IH. intros x Hx. apply H. auto.
Qed.

Lemma lookup_in (p : Product) : In p rows -> lookup_product (id p) rows = Some p.
Proof. intros H. apply find_by_id_unique; assumption. Qed.

Lemma filter_id_in_unique (ids : list Z) : NoDup (map id (filter_id_in ids rows)).
Proof.
  unfold filter_id_in. clear -unique_ids.
  induction rows as [|q r IH]; simpl; [constructor|].
  inversion unique_ids as [|? ? Hq Hr]; subst.
  destruct (existsb (Z.eqb (id q)) ids); [|apply IH, Hr].
  simpl. constructor; [|apply IH, Hr].
  intros Hin. apply Hq. apply in_map_iff in Hin.
  destruct Hin as [x [Hx Hin]]. apply filter_In in Hin.
  rewrite <- Hx. apply in_map. tauto.
Qed.

Lemma filter_id_in_length (ids : list Z) :
  (List.length (filter_id_in ids rows) <= List.length ids)%nat.
Proof.
  rewrite <- (length_map id (filter_id_in ids rows)).
  apply NoDup_incl_length; [apply filter_id_in_unique|].
  intros i Hi. apply in_map_iff in Hi. destruct Hi as [q [Hq Hin]].
  apply filter_In in Hin. destruct Hin as [_ Hex].
  apply existsb_exists in Hex. destruct Hex as [j [Hj Hjq]].
  apply Z.eqb_eq in Hjq. congruence.
Qed.

Lemma found_map_get_lookup (ids : list Z) (i : Z) :
  In i ids ->
  found_map_get (filter_id_in ids rows) i = lookup_product i rows.
Proof.
  intros Hi. unfold found_map_get, lookup_product.
  destruct (find (fun p => id p =? i) rows) as [p|] eqn:E.
  - apply find_some in E. destruct E as [Hin Hid]. apply Z.eqb_eq in Hid.
    rewrite <- Hid. apply find_by_id_unique.
    + rewrite map_rev. apply NoDup_rev, filter_id_in_unique.
    + apply in_rev. rewrite rev_involutive. apply filter_In. split; [exact Hin|].
      apply existsb_exists. exists i. split; [exact Hi | apply Z.eqb_eq, Hid].
  - apply find_by_id_none. intros q Hq Hid.
    apply in_rev in Hq. apply filter_In in Hq. destruct Hq as [Hq _].
    pose proof (find_none _ _ E q Hq) as Hn. simpl in Hn.
    apply Z.eqb_neq in Hn. contradiction.
Qed.

Lemma keep_order_rows (ids : list Z) :
  keep_order (filter_id_in ids rows) ids = rows_in_order ids rows.
Proof.
  unfold keep_order, rows_in_order.
  assert (forall l, incl l ids ->
            flat_map (fun i => match found_map_get (filter_id_in ids rows) i with
                               | Some p => [p] | None => [] end) l
            = flat_map (fun i => match lookup_product i rows with
                                 | Some p => [p] | None => [] end) l) as H.
  { induction l as [|i r IH]; intros Hincl; simpl; [reflexivity|].
    rewrite (found_map_get_lookup ids i) by (apply Hincl; left; reflexivity).
    f_equal. apply IH. intros x Hx. apply Hincl. right; exact Hx. }
  apply H, incl_refl.
Qed.

Lemma rows_in_order_count (ids : list Z) (p : Product) :
  In p rows ->
  count_occ Product_eq_dec (rows_in_order ids rows) p
  = count_occ Z.eq_dec ids (id p).
Proof.
  intros Hp. unfold rows_in_order.
  induction ids as [|i r IH]; simpl; [reflexivity|].
  rewrite count_occ_app, IH. f_equal.
  destruct (Z.eq_dec i (id p)) as [->|Hne].
  - rewrite (lookup_in p Hp). simpl.
    destruct (Product_eq_dec p p); [reflexivity | congruence].
  - destruct (lookup_product i rows) as [q|] eqn:E; simpl; [|lia].
    apply lookup_product_sound in E. destruct E as [Hid _].
    destruct (Product_eq_dec q p); [subst; congruence | lia].
Qed.

End Lookup.

Lemma rows_in_order_length (ids : list Z) (rows : list Product) :
  (List.length (rows_in_order ids rows) <= List.length ids)%nat.
Proof.
  unfold rows_in_order. induction ids as [|i r IH]; simpl; [lia|].
  rewrite length_app. destruct (lookup_product i rows); simpl; lia.
Qed.

Lemma truthy_popular_length (rows : list Interaction) :
  (List.length (truthy_ids (popular_ids rows)) <= 10)%nat.
Proof.
  unfold truthy_ids, popular_ids.
  eapply Nat.le_trans; [apply filter_length_le|].
  rewrite length_map. apply firstn_le_length.
Qed.

Lemma recommend_without_history (E : Env) (u : string) (w : World) :
  recommend_history u w = [] ->
  fst (run (_recommend_products_for_user E u) w)
  = Returns (match truthy_ids (popular_ids (interactions w)) with
             | [] => firstn 10 (products w)
             | ids => filter_id_in ids (products w)
             end).
Proof.
  unfold recommend_history. intros H.
  cbv [run _recommend_products_for_user bind read emit ret].
  cbn [world trace]. rewrite H. cbn [world trace].
  destruct (truthy_ids (popular_ids (interactions w))); reflexivity.
Qed.

Lemma recommend_with_history (E : Env) (u : string) (w : World) :
  recommend_history u w <> [] ->
  fst (run (_recommend_products_for_user E u) w)
  = match recommend_data E u w with
    | JObj fields =>
        match py_iter (dict_get fields "recommended_product_ids" (JArr [])) with
        | Raises e => Raises e
        | Returns items =>
            match keep_order (filter_id_in (int_ids items) (products w))
                    (int_ids items) with
            | [] => Returns (firstn 10 (products w))
            | ordered => Returns ordered
            end
        end
    | _ => Raises "AttributeError"
    end.
Proof.
  unfold recommend_history, recommend_data, recommend_prompt_of, recommend_history.
  intros H.
  cbv [run _recommend_products_for_user bind read emit ret generate_json generate_text].
  cbn [world trace fst snd].
  destruct (user_interactions u (interactions w)) as [|i0 its]; [congruence|].
  cbn [world trace fst snd].
  set (data := match json_loads E _ with Some v => v | None => JObj [] end).
  destruct data as [| | | | | |fields]; try reflexivity.
  destruct (py_iter (dict_get fields "recommended_product_ids" (JArr [])))
    as [items|e]; [|reflexivity].
  cbn [world trace fst snd].
  destruct (keep_order (filter_id_in (int_ids items) (products w)) (int_ids items));
    reflexivity.
Qed.

Lemma popular_rows (rows : list Interaction) (x c : Z) :
  In (x, c) (order_by [Desc snd]
               (map (fun pid => (pid, Z.of_nat (count_occ Z.eq_dec (purchased_ids rows) pid)))
                    (nodup Z.eq_dec (purchased_ids rows)))) ->
  In x (purchased_ids rows) /\ c = purchases x rows.
Proof.
  intros H. apply order_by_In in H. apply in_map_iff in H.
  destruct H as [pid [Heq Hin]]. injection Heq as <- <-.
  apply nodup_In in Hin. split; [exact Hin | reflexivity].
Qed.

Lemma truthy_ids_In (rows : list (Z * Z)) (x : Z) :
  In x (truthy_ids rows) <-> x <> 0 /\ exists c, In (x, c) rows.
Proof.
  unfold truthy_ids. rewrite filter_In, in_map_iff. split.
  - intros [[[y c] [Hy Hin]] Hx]. simpl in Hy. subst y.
    apply negb_true_iff, Z.eqb_neq in Hx. split; [exact Hx | eauto].
  - intros [Hx [c Hin]]. split; [exists (x, c); auto|].
    apply negb_true_iff, Z.eqb_neq, Hx.
Qed.

Lemma filter_id_in_In (ids : list Z) (rows : list Product) (p : Product) :
  In p (filter_id_in ids rows) <-> In p rows /\ In (id p) ids.
Proof.
  unfold filter_id_in. rewrite filter_In, existsb_exists. split.
  - intros [Hp [x [Hx Heq]]]. apply Z.eqb_eq in Heq. subst x. auto.
  - intros [Hp Hi]. split; [exact Hp|]. exists (id p). split; [exact Hi|].
    apply Z.eqb_refl.
Qed.

Lemma rows_in_order_ids (ids : list Z) (rows : list Product) :
  map id (rows_in_order ids rows) = usable_ids ids rows.
Proof.
  unfold rows_in_order, usable_ids.
  induction ids as [|i r IH]; simpl; [reflexivity|].
  rewrite map_app, IH.
  destruct (lookup_product i rows) as [p|] eqn:E.
  - destruct (lookup_product_sound _ _ _ E) as [Hid Hin].
    assert (existsb (fun q => id q =? i) rows = true) as Hex.
    { apply existsb_exists. exists p. split; [exact Hin | apply Z.eqb_eq, Hid]. }
    rewrite Hex. simpl. rewrite Hid. reflexivity.
  - assert (existsb (fun q => id q =? i) rows = false) as Hex.
    { destruct (existsb (fun q => id q =? i) rows) eqn:Ex; [|reflexivity].
      apply existsb_exists in Ex. destruct Ex as [q [Hq Hid]].
      unfold lookup_product in E. rewrite (find_none _ _ E q Hq) in Hid.
      discriminate Hid. }
    rewrite Hex. reflexivity.
Qed.

Lemma rows_in_order_stored (ids : list Z) (rows : list Product) :
  Forall (fun p => In p rows) (rows_in_order ids rows).
Proof.
  unfold rows_in_order. induction ids as [|i r IH]; simpl; [constructor|].
  apply Forall_app. split; [|exact IH].
  destruct (lookup_product i rows) as [p|] eqn:E; [|constructor].
  constructor; [|constructor]. apply (lookup_product_sound _ _ _ E).
Qed.

Lemma nobody_purchased (rows : list Interaction) :
  (forall i, In i (purchased_ids rows) -> i = 0) ->
  truthy_ids (popular_ids rows) = [].
Proof.
  intros H. destruct (truthy_ids (popular_ids rows)) as [|x r] eqn:E; [reflexivity|].
  assert (In x (truthy_ids (popular_ids rows))) as Hx by (rewrite E; left; reflexivity).
  apply truthy_ids_In in Hx. destruct Hx as [Hx0 [c Hc]].
  unfold popular_ids in Hc.
  assert (In x (purchased_ids rows)) as Hp.
  { apply (popular_rows rows x c).
    rewrite <- (firstn_skipn 10 (order_by _ _)). apply in_or_app. left; exact Hc. }
  exfalso. exact (Hx0 (H x Hp)).
Qed.

Lemma few_purchased (rows : list Interaction) (x : Z) :
  (List.length (nodup Z.eq_dec (purchased_ids rows)) <= 10)%nat ->
  In x (purchased_ids rows) -> x <> 0 ->
  In x (truthy_ids (popular_ids rows)).
Proof.
  intros Hlen Hx Hx0. apply truthy_ids_In. split; [exact Hx0|].
  exists (Z.of_nat (count_occ Z.eq_dec (purchased_ids rows) x)).
  unfold popular_ids. rewrite firstn_all2.
  - apply order_by_In, in_map_iff. exists x. split; [reflexivity|].
    apply nodup_In, Hx.
  - rewrite order_by_length, length_map. exact Hlen.
Qed.

Lemma test_catalog_unique : NoDup (map id (products test_world)).
Proof.
  simpl. repeat constructor; simpl; intros H;
    repeat (destruct H as [H|H]; [discriminate H|]); exact H.
Qed.

(** C3, as the code has it.  Without history the engine returns at most 10
    products of the store: the first 10 of the catalog when nobody has
    purchased a product with a non-zero id, and otherwise purchased
    products, all of them when at most 10 different products were
    purchased.  With history, when the backend's answer is no JSON or is a
    JSON object whose ids can be iterated, it returns the first 10 of the
    catalog if no integer of the answer is the id of a stored product, and
    otherwise exactly the stored products under the usable ids, in the
    order and with the repetitions of the answer: as many products as the
    answer lists usable ids, with no cap at 10. *)
Theorem recommend_size (E : Env) (u : string) (w : World) :
  NoDup (map id (products w)) ->
  let out := fst (run (_recommend_products_for_user E u) w) in
  (recommend_history u w = [] ->
   exists ps,
     out = Returns ps
     /\ (List.length ps <= 10)%nat
     /\ Forall (fun p => In p (products w)) ps
     /\ ((forall i, In i (purchased_ids (interactions w)) -> i = 0) ->
         ps = firstn 10 (products w))
     /\ (ps = firstn 10 (products w)
         \/ Forall (fun p => In (id p) (purchased_ids (interactions w))) ps)
     /\ ((List.length (nodup Z.eq_dec (purchased_ids (interactions w))) <= 10)%nat ->
         forall p, In p (products w) -> id p <> 0 ->
                   In (id p) (purchased_ids (interactions w)) -> In p ps))
  /\
  (recommend_history u w <> [] ->
   forall fields items,
     recommend_data E u w = JObj fields ->
     py_iter (dict_get fields "recommended_product_ids" (JArr [])) = Returns items ->
     let usable := usable_ids (int_ids items) (products w) in
     exists ps,
       out = Returns ps
       /\ Forall (fun p => In p (products w)) ps
       /\ (usable = [] -> ps = firstn 10 (products w))
       /\ (usable <> [] -> map id ps = usable)
       /\ (List.length ps <= Nat.max 10 (List.length (int_ids items)))%nat).
Proof.
  intros Hnd out. subst out. split.
  - intros Hh. rewrite (recommend_without_history E u w Hh).
    eexists. split; [reflexivity|].
    pose proof (truthy_popular_length (interactions w)) as Hl.
    pose proof (nobody_purchased (interactions w)) as Hnone.
    pose proof (few_purchased (interactions w)) as Hfew.
    destruct (truthy_ids (popular_ids (interactions w))) as [|i r] eqn:Ei.
    + split; [apply firstn_le_length|]. split.
      { apply Forall_forall. intros p Hp.
        rewrite <- (firstn_skipn 10 (products w)). apply in_or_app. left; exact Hp. }
      split; [reflexivity|]. split; [left; reflexivity|].
      intros Hlen p _ Hp0 Hp. destruct (Hfew (id p) Hlen Hp Hp0).
    + rewrite <- Ei in *. split.
      { eapply Nat.le_trans; [apply filter_id_in_length, Hnd | exact Hl]. }
      split.
      { apply Forall_forall. intros p Hp. apply filter_id_in_In in Hp. tauto. }
      split.
      { intros Hzero. rewrite (Hnone Hzero) in Ei. discriminate Ei. }
      split.
      { right. apply Forall_forall. intros p Hp. apply filter_id_in_In in Hp.
        destruct Hp as [_ Hp]. apply truthy_ids_In in Hp. destruct Hp as [_ [c Hc]].
        unfold popular_ids in Hc. apply (popular_rows (interactions w) (id p) c).
        rewrite <- (firstn_skipn 10 (order_by _ _)). apply in_or_app. left; exact Hc. }
      intros Hlen p Hin Hp0 Hp. apply filter_id_in_In. split; [exact Hin|].
      apply Hfew; assumption.
  - intros Hh fields items Hd Hi usable. subst usable.
    rewrite (recommend_with_history E u w Hh), Hd, Hi.
    rewrite (keep_order_rows _ Hnd).
    pose proof (rows_in_order_length (int_ids items) (products w)) as Hl.
    pose proof (rows_in_order_ids (int_ids items) (products w)) as Hids.
    pose proof (rows_in_order_stored (int_ids items) (products w)) as Hst.
    pose proof (firstn_le_length 10 (products w)) as Hf.
    destruct (rows_in_order (int_ids items) (products w)) as [|p r] eqn:Er.
    + eexists. split; [reflexivity|]. split.
      { apply Forall_forall. intros q Hq.
        rewrite <- (firstn_skipn 10 (products w)). apply in_or_app. left; exact Hq. }
      split; [reflexivity|]. split; [|lia].
      intros Hne. exfalso. apply Hne. rewrite <- Hids. reflexivity.
    + eexists. split; [reflexivity|]. split; [exact Hst|]. split.
      { intros He. rewrite <- Hids in He. discriminate He. }
      split; [intros _; exact Hids | lia].
Qed.

Lemma recommend_size_witness :
  exists ps,
    fst (run (_recommend_products_for_user (ranking_env [3; 99; 1; 3]) "alice") test_world)
    = Returns ps
    /\ map id ps = [3; 1; 3].
Proof.
  destruct (recommend_size (ranking_env [3; 99; 1; 3]) "alice" test_world
              test_catalog_unique) as [_ H].
  assert (recommend_history "alice" test_world <> []) as Hh
    by (vm_compute; discriminate).
  destruct (H Hh _ _ eq_refl eq_refl) as (ps & Hps & _ & _ & Hids & _).
  exists ps. split; [exact Hps|]. apply Hids. vm_compute. discriminate.
Defined.

(** C3 as worded fails: on a catalog of 11 products a backend that ranks
    all 11 ids gets all 11 products back. *)
Lemma at_most_ten_fails :
  ~ at_most_ten (ranking_env (Zseq 1 11)) "alice" (world_of_size 11).
Proof.
  intros [ps [Hps Hlen]].
  assert (fst (run (_recommend_products_for_user (ranking_env (Zseq 1 11)) "alice")
                 (world_of_size 11))
          = Returns (catalog_of_size 11)) as E by (vm_compute; reflexivity).
  rewrite E in Hps. injection Hps as <-. simpl in Hlen. lia.
Qed.

Lemma recommend_ranked (E : Env) (u : string) (w : World)
      (fields : list (string * json)) (items : list json) :
  NoDup (map id (products w)) ->
  recommend_history u w <> [] ->
  recommend_data E u w = JObj fields ->
  py_iter (dict_get fields "recommended_product_ids" (JArr [])) = Returns items ->
  fst (run (_recommend_products_for_user E u) w)
  = Returns (match rows_in_order (int_ids items) (products w) with
             | [] => firstn 10 (products w)
             | ranked => ranked
             end).
Proof.
  intros Hnd Hh Hd Hi.
  rewrite (recommend_with_history E u w Hh), Hd, Hi, (keep_order_rows _ Hnd).
  destruct (rows_in_order (int_ids items) (products w)); reflexivity.
Qed.

(** C4, as the code has it.  In the history branch an answer that is no
    JSON, or a JSON object without the key, gives no ids, and the first 10
    products of the catalog are returned.  Otherwise the items that are
    Python [int]s (booleans included, as 1 and 0) are kept, the ids that no
    product of the store carries are dropped (the store, not the 50
    candidates of the prompt, decides), and the products are returned in
    the order of the ids; if none is left the first 10 of the catalog are
    returned. *)
Theorem recommend_ranking (E : Env) (u : string) (w : World) :
  NoDup (map id (products w)) ->
  recommend_history u w <> [] ->
  let out := fst (run (_recommend_products_for_user E u) w) in
  (json_loads E (ai E (recommend_prompt_of E u w)) = None ->
   out = Returns (firstn 10 (products w)))
  /\
  (forall fields,
     recommend_data E u w = JObj fields ->
     find (fun kv => String.eqb (fst kv) "recommended_product_ids") fields = None ->
     out = Returns (firstn 10 (products w)))
  /\
  (forall fields items,
     recommend_data E u w = JObj fields ->
     py_iter (dict_get fields "recommended_product_ids" (JArr [])) = Returns items ->
     out = Returns (match rows_in_order (int_ids items) (products w) with
                    | [] => firstn 10 (products w)
                    | ranked => ranked
                    end)).
Proof.
  intros Hnd Hh out. subst out.
  split; [|split].
  - intros Hnone.
    apply (recommend_ranked E u w [] [] Hnd Hh); [|reflexivity].
    unfold recommend_data. rewrite Hnone. reflexivity.
  - intros fields Hd Hkey.
    apply (recommend_ranked E u w fields [] Hnd Hh Hd).
    unfold dict_get. rewrite Hkey. reflexivity.
  - intros fields items. apply (recommend_ranked E u w fields items Hnd Hh).
Qed.

Lemma recommend_ranking_witness :
  fst (run (_recommend_products_for_user (ranking_env [3; 99; 1]) "alice") test_world)
  = Returns [ item 3 "Smart Watch" "Electronics" 11900 "health,fitness,wearable"
                   "Track fitness and notifications.";
              item 1 "Wireless Earbuds" "Electronics" 4990 "audio,wireless,gym"
                   "Compact wireless earbuds." ].
Proof.
  assert (recommend_history "alice" test_world <> []) as Hh
    by (vm_compute; discriminate).
  destruct (recommend_ranking (ranking_env [3; 99; 1]) "alice" test_world
              test_catalog_unique Hh) as (_ & _ & H).
  exact (H _ _ eq_refl eq_refl).
Defined.

(** C4 as worded fails: with 51 products in the store a backend that
    answers [51] gets product 51 back, which is not among the 50
    candidates of the prompt. *)
Lemma among_candidates_fails :
  ~ among_candidates (ranking_env [51]) "alice" (world_of_size 51).
Proof.
  intros H.
  assert (fst (run (_recommend_products_for_user (ranking_env [51]) "alice")
                 (world_of_size 51))
          = Returns [numbered 51]) as E by (vm_compute; reflexivity).
  specialize (H _ E). inversion H as [|? ? Hin _]; subst.
  apply (in_map id) in Hin.
  assert (map id (firstn 50 (products (world_of_size 51))) = Zseq 1 50) as Eids
    by (vm_compute; reflexivity).
  rewrite Eids in Hin. unfold Zseq in Hin. apply in_map_iff in Hin.
  destruct Hin as [k [Hk Hin]]. apply in_seq in Hin.
  unfold numbered in Hk. cbn [id item] in Hk. lia.
Qed.

(** C9.  In the history branch, a product of the store whose id occurs
    [k >= 1] times among the integers of the backend's answer occurs
    exactly [k] times in the recommendation. *)
Theorem ranked_duplicates (E : Env) (u : string) (w : World) (p : Product)
        (fields : list (string * json)) (items : list json) :
  NoDup (map id (products w)) ->
  recommend_history u w <> [] ->
  recommend_data E u w = JObj fields ->
  py_iter (dict_get fields "recommended_product_ids" (JArr [])) = Returns items ->
  In p (products w) ->
  (1 <= count_occ Z.eq_dec (int_ids items) (id p))%nat ->
  exists ps,
    fst (run (_recommend_products_for_user E u) w) = Returns ps
    /\ count_occ Product_eq_dec ps p = count_occ Z.eq_dec (int_ids items) (id p).
Proof.
  intros Hnd Hh Hd Hi Hp Hk.
  rewrite (recommend_ranked E u w fields items Hnd Hh Hd Hi).
  pose proof (rows_in_order_count (products w) Hnd (int_ids items) p Hp) as Hc.
  destruct (rows_in_order (int_ids items) (products w)) as [|q r] eqn:Er.
  - simpl in Hc. lia.
  - eexists. split; [reflexivity | exact Hc].
Qed.

Lemma ranked_duplicates_witness :
  exists ps,
    fst (run (_recommend_products_for_user (ranking_env [2; 3; 2]) "alice") test_world)
    = Returns ps
    /\ count_occ Product_eq_dec ps
         (item 2 "Yoga Mat" "Sports" 1800 "fitness,yoga,home-workout"
               "Non-slip yoga mat.") = 2%nat.
Proof.
  assert (recommend_history "alice" test_world <> []) as Hh
    by (vm_compute; discriminate).
  apply (ranked_duplicates (ranking_env [2; 3; 2]) "alice" test_world
           (item 2 "Yoga Mat" "Sports" 1800 "fitness,yoga,home-workout"
                 "Non-slip yoga mat.")
           _ _ test_catalog_unique Hh eq_refl eq_refl).
  - right; left; reflexivity.
  - vm_compute. lia.
Defined.

(** Answers the engine does not absorb: a JSON value that is no object has
    no [get], and ids that are no sequence cannot be iterated. *)
Example recommend_raises :
  fst (run (_recommend_products_for_user
              {| ai := fun _ => "[1, 2]";
                 json_loads := fun _ => Some (JArr [JInt 1; JInt 2]);
                 repr_list := fun _ => EmptyString |} "alice") test_world)
  = Raises "AttributeError"
  /\ fst (run (_recommend_products_for_user
                 {| ai := fun _ => "{...: null}";
                    json_loads := fun _ =>
                      Some (JObj [("recommended_product_ids", JNull)]);
                    repr_list := fun _ => EmptyString |} "alice") test_world)
     = Raises "TypeError".
Proof. split; vm_compute; reflexivity. Qed.

(** A JSON [true] passes [isinstance(i, int)] and selects the product with
    id 1; a float and a string are dropped. *)
Example boolean_id :
  fst (run (_recommend_products_for_user
              {| ai := fun _ => "{...: [true, 2.0, ...]}";
                 json_loads := fun _ =>
                   Some (JObj [("recommended_product_ids",
                                JArr [JBool true; JFloat "2.0"; JStr "3"])]);
                 repr_list := fun _ => EmptyString |} "alice") test_world)
  = Returns [ item 1 "Wireless Earbuds" "Electronics" 4990 "audio,wireless,gym"
                   "Compact wireless earbuds." ].
Proof. vm_compute. reflexivity. Qed.

(* ================================================================== *)
(** * The amount scan *)
(* ================================================================== *)

Lemma space_not_digit (c : ascii) : is_space c = true -> is_digit c = false.
Proof.
  unfold is_space, is_digit.
  destruct (Z.leb_spec 9 (code c)), (Z.leb_spec (code c) 13),
    (Z.leb_spec 28 (code c)), (Z.leb_spec (code c) 32),
    (Z.leb_spec 48 (code c)), (Z.leb_spec (code c) 57);
    simpl; intros; try discriminate; try reflexivity; lia.
Qed.

Lemma take_digits_head (s : string) :
  take_digits s <> EmptyString ->
  exists c r, s = String c r /\ is_digit c = true.
Proof.
  destruct s as [|c r]; simpl; [congruence|].
  destruct (is_digit c) eqn:E; [|congruence]. intros _. eauto.
Qed.

Lemma lstrip_digit_run (t : string) :
  take_digits (lstrip t) <> EmptyString -> take_digits (lstrip t) = digit_run t.
Proof.
  induction t as [|a t IH]; simpl; [congruence|].
  destruct (is_space a) eqn:Ea.
  - rewrite (space_not_digit a Ea). exact IH.
  - simpl. destruct (is_digit a); [reflexivity | congruence].
Qed.

Lemma match_amount_here_run (s : string) (d : string) :
  match_amount_here s = Some d -> d = digit_run s.
Proof.
  unfold match_amount_here.
  destruct s as [|c r].
  - simpl. discriminate.
  - destruct (Ascii.eqb c "$"%char) eqn:Ec.
    + apply Ascii.eqb_eq in Ec. subst c.
      destruct (take_digits (lstrip r)) eqn:Ed; simpl; [discriminate|].
      intros H. injection H as <-. rewrite <- Ed.
      change (digit_run (String "$" r)) with (digit_run r).
      apply lstrip_digit_run. congruence.
    + destruct (take_digits (lstrip (String c r))) eqn:Ed; simpl; [discriminate|].
      intros H. injection H as <-. rewrite <- Ed.
      apply lstrip_digit_run. congruence.
Qed.

Lemma match_amount_here_digit (c : ascii) (r : string) :
  is_digit c = true ->
  match_amount_here (String c r) = Some (take_digits (String c r)).
Proof.
  intros Hc. unfold match_amount_here.
  assert (Ascii.eqb c "$"%char = false) as Hd.
  { destruct (Ascii.eqb c "$"%char) eqn:E; [|reflexivity].
    apply Ascii.eqb_eq in E. subst c. discriminate Hc. }
  rewrite Hd. simpl lstrip.
  destruct (is_space c) eqn:Es; [rewrite (space_not_digit c Es) in Hc; discriminate|].
  simpl. rewrite Hc. reflexivity.
Qed.

(** [re.search] finds the first maximal run of digits, if there is one. *)
Lemma re_search_amount_run (s : string) :
  re_search_amount s
  = if is_empty (digit_run s) then None else Some (digit_run s).
Proof.
  induction s as [|c r IH].
  - reflexivity.
  - cbn [re_search_amount].
    destruct (match_amount_here (String c r)) as [d|] eqn:Em.
    + pose proof (match_amount_here_run _ _ Em) as Hd. subst d.
      unfold match_amount_here in Em.
      destruct (is_empty (digit_run (String c r))) eqn:Ee; [|reflexivity].
      destruct (digit_run (String c r)); [|discriminate].
      destruct (take_digits _) in Em; simpl in Em; discriminate.
    + rewrite IH. simpl digit_run.
      destruct (is_digit c) eqn:Ec; [|reflexivity].
      rewrite (match_amount_here_digit c r Ec) in Em. discriminate.
Qed.

Lemma take_digits_all (s : string) : all_chars is_digit (take_digits s) = true.
Proof.
  induction s as [|c r IH]; simpl; [reflexivity|].
  destruct (is_digit c) eqn:E; simpl; [rewrite E; exact IH | reflexivity].
Qed.

Lemma digit_run_all (s : string) : all_chars is_digit (digit_run s) = true.
Proof.
  induction s as [|c r IH]; [reflexivity|].
  cbn [digit_run]. destruct (is_digit c) eqn:E; [|exact IH].
  apply (take_digits_all (String c r)).
Qed.

Lemma digit_run_none (s : string) :
  digit_run s = EmptyString <-> has_digit s = false.
Proof.
  induction s as [|c r IH]; simpl; [tauto|].
  destruct (is_digit c) eqn:E; simpl; [split; discriminate | exact IH].
Qed.

Lemma int_of_digits_nonneg (s : string) (acc : Z) :
  0 <= acc -> all_chars is_digit s = true -> 0 <= int_of_digits acc s.
Proof.
  revert acc.
  induction s as [|c r IH]; cbn [int_of_digits all_chars]; intros acc Ha Hs;
    [exact Ha|].
  apply andb_true_iff in Hs. destruct Hs as [Hc Hr].
  apply IH; [|exact Hr]. unfold is_digit in Hc.
  apply andb_true_iff in Hc. destruct Hc as [H1 H2].
  apply Z.leb_le in H1. lia.
Qed.

(** X1.  The amount of a text is absent exactly when the text holds no
    digit; an amount that is present is never negative. *)
Theorem amount_presence (ql : string) :
  (parse_amount ql = None <-> has_digit ql = false)
  /\ (forall n, parse_amount ql = Some n -> 0 <= n).
Proof.
  unfold parse_amount. rewrite re_search_amount_run.
  pose proof (digit_run_none ql) as Hn. pose proof (digit_run_all ql) as Ha.
  destruct (digit_run ql) as [|c r] eqn:E; simpl.
  - split; [split; [intros _; apply Hn; reflexivity | reflexivity] | discriminate].
  - split.
    + split; [discriminate|]. intros H. apply Hn in H. discriminate.
    + intros n H. injection H as <-.
      apply (int_of_digits_nonneg (String c r) 0); [lia | exact Ha].
Qed.

Lemma amount_presence_witness :
  parse_amount "cheap shoes" = None /\ 0 <= 60.
Proof.
  destruct (amount_presence "cheap shoes") as [H _].
  destruct (amount_presence "above $60") as [_ H'].
  split; [apply H; reflexivity | apply (H' 60); reflexivity].
Defined.

(** ** Reading back a printed amount *)

Lemma int_of_digits_acc (d : Decimal.uint) (acc : positive) :
  int_of_digits (Z.pos acc) (NilEmpty.string_of_uint d)
  = Z.pos (Pos.of_uint_acc d acc).
Proof.
  revert acc. induction d; intros acc; cbn [NilEmpty.string_of_uint int_of_digits Pos.of_uint_acc];
    [reflexivity|..];
    rewrite <- IHd; f_equal; vm_compute (code _ - 48); lia.
Qed.

Lemma int_of_digits_uint (d : Decimal.uint) :
  int_of_digits 0 (NilEmpty.string_of_uint d) = Z.of_N (Pos.of_uint d).
Proof.
  induction d; cbn [NilEmpty.string_of_uint int_of_digits Pos.of_uint];
    [reflexivity | exact IHd |..];
    vm_compute (10 * 0 + (code _ - 48)); apply int_of_digits_acc.
Qed.

Lemma string_of_uint_digits (d : Decimal.uint) :
  all_chars is_digit (NilEmpty.string_of_uint d) = true.
Proof. induction d; simpl; auto. Qed.

Lemma string_of_uint_nonnil (d : Decimal.uint) :
  d <> Decimal.Nil -> NilZero.string_of_uint d = NilEmpty.string_of_uint d.
Proof. destruct d; [congruence | reflexivity..]. Qed.

Lemma str_of_Z_pos (p : positive) :
  str_of_Z (Z.pos p) = NilEmpty.string_of_uint (Pos.to_uint p).
Proof.
  unfold str_of_Z. cbn [Z.to_int NilZero.string_of_int].
  apply string_of_uint_nonnil, DecimalPos.Unsigned.to_uint_nonnil.
Qed.

Lemma str_of_Z_value (n : Z) : 0 <= n -> int_of_digits 0 (str_of_Z n) = n.
Proof.
  intros Hn. destruct n as [|p|p]; [reflexivity| |lia].
  rewrite str_of_Z_pos, int_of_digits_uint, DecimalPos.Unsigned.of_to.
  reflexivity.
Qed.

Lemma str_of_Z_digits (n : Z) :
  0 <= n -> all_chars is_digit (str_of_Z n) = true /\ str_of_Z n <> EmptyString.
Proof.
  intros Hn.
  destruct n as [|p|p]; [split; [reflexivity|discriminate]| |lia].
  rewrite str_of_Z_pos. split; [apply string_of_uint_digits|].
  pose proof (DecimalPos.Unsigned.to_uint_nonnil p) as Hnil.
  destruct (Pos.to_uint p); [congruence|..]; discriminate.
Qed.

Lemma digit_run_skip (pre s : string) :
  has_digit pre = false -> digit_run (pre ++ s) = digit_run s.
Proof.
  induction pre as [|c r IH]; simpl; [reflexivity|].
  intros H. apply orb_false_iff in H. destruct H as [Hc Hr].
  rewrite Hc. apply IH, Hr.
Qed.

Lemma take_digits_exact (d post : string) :
  all_chars is_digit d = true ->
  match post with String c _ => is_digit c = false | EmptyString => True end ->
  take_digits (d ++ post) = d.
Proof.
  intros Hd Hp. induction d as [|c r IH]; simpl.
  - destruct post as [|c r]; simpl; [reflexivity|]. rewrite Hp. reflexivity.
  - simpl in Hd. apply andb_true_iff in Hd. destruct Hd as [Hc Hr].
    rewrite Hc. f_equal. apply IH, Hr.
Qed.

(** X2.  A non-negative amount printed in decimal is read back: in a text
    made of a part without digits, the decimal form of [n] and a rest that
    does not go on with a digit, the amount found is [n]. *)
Theorem amount_round_trip (pre post : string) (n : Z) :
  0 <= n ->
  has_digit pre = false ->
  match post with String c _ => is_digit c = false | EmptyString => True end ->
  parse_amount (pre ++ str_of_Z n ++ post) = Some n.
Proof.
  intros Hn Hpre Hpost. unfold parse_amount.
  rewrite re_search_amount_run, (digit_run_skip _ _ Hpre).
  destruct (str_of_Z_digits n Hn) as [Hall Hne].
  assert (digit_run (str_of_Z n ++ post) = str_of_Z n) as Hrun.
  { destruct (str_of_Z n) as [|c r] eqn:E; [congruence|].
    pose proof Hall as Hall'. simpl in Hall'. apply andb_true_iff in Hall'.
    destruct Hall' as [Hc _].
    change ((String c r ++ post)%string) with (String c (r ++ post)).
    cbn [digit_run]. rewrite Hc.
    apply (take_digits_exact (String c r) post Hall Hpost). }
  rewrite Hrun. destruct (str_of_Z n) eqn:E; [congruence|].
  simpl is_empty. cbn [option_map]. rewrite <- E. f_equal.
  apply str_of_Z_value, Hn.
Qed.

Lemma amount_round_trip_witness :
  parse_amount ("shoes above $" ++ str_of_Z 60 ++ " please") = Some 60.
Proof.
  apply (amount_round_trip "shoes above $" " please" 60); [lia | reflexivity | reflexivity].
Defined.

(* ================================================================== *)
(** * Keywords *)
(* ================================================================== *)

Lemma lower_char_letter (c : ascii) :
  is_alpha (lower_char c) = true -> is_lower (lower_char c) = true.
Proof.
  destruct c as [[] [] [] [] [] [] [] []]; vm_compute; intros H;
    first [reflexivity | discriminate H].
Qed.

Lemma all_chars_app (f : ascii -> bool) (a b : string) :
  all_chars f (a ++ b) = all_chars f a && all_chars f b.
Proof.
  induction a as [|c r IH]; simpl; [reflexivity|].
  rewrite IH, andb_assoc. reflexivity.
Qed.

Lemma flush_shape (cur : string) :
  all_chars is_lower cur = true ->
  Forall (fun w => w <> EmptyString /\ all_chars is_lower w = true) (flush cur).
Proof.
  intros H. unfold flush. destruct cur as [|c r]; simpl; constructor; [|constructor].
  split; [discriminate | exact H].
Qed.

Lemma findall_alpha_from_shape (s cur : string) :
  all_chars is_lower cur = true ->
  Forall (fun w => w <> EmptyString /\ all_chars is_lower w = true)
         (findall_alpha_from cur (lower s)).
Proof.
  revert cur. induction s as [|c r IH]; intros cur Hcur; cbn [lower findall_alpha_from].
  - apply flush_shape, Hcur.
  - destruct (is_alpha (lower_char c)) eqn:Ea.
    + apply IH. rewrite all_chars_app, Hcur. simpl.
      rewrite (lower_char_letter c Ea). reflexivity.
    + apply Forall_app. split; [apply flush_shape, Hcur | apply IH; reflexivity].
Qed.

(** X3.  The keywords of either endpoint are non-empty words of lower-case
    ASCII letters that are no stop word of that endpoint; a chat keyword
    has at least 3 letters. *)
Theorem keywords_shape (q w : string) :
  (In w (search_keywords (lower (strip q))) ->
   w <> EmptyString /\ all_chars is_lower w = true /\ mem w search_noise = false)
  /\
  (In w (chat_keywords (lower (strip q))) ->
   w <> EmptyString /\ all_chars is_lower w = true /\ mem w chat_noise = false
   /\ (3 <= String.length w)%nat).
Proof.
  pose proof (findall_alpha_from_shape (strip q) EmptyString eq_refl) as Hs.
  fold (findall_alpha (lower (strip q))) in Hs. rewrite Forall_forall in Hs.
  split; intros Hw.
  - unfold search_keywords in Hw. apply filter_In in Hw. destruct Hw as [Hin Hf].
    destruct (Hs w Hin) as [H1 H2]. repeat split; auto.
    apply negb_true_iff, Hf.
  - unfold chat_keywords in Hw. apply filter_In in Hw. destruct Hw as [Hin Hf].
    apply andb_true_iff in Hf. destruct Hf as [Hn Hl].
    destruct (Hs w Hin) as [H1 H2]. repeat split; auto.
    + apply negb_true_iff, Hn.
    + apply Z.ltb_lt in Hl. lia.
Qed.

Lemma keywords_shape_witness :
  all_chars is_lower "headphones" = true
  /\ (3 <= String.length "headphones")%nat.
Proof.
  destruct (keywords_shape "Show me HEADPHONES under $50" "headphones") as [_ H].
  destruct H as (_ & H2 & _ & H4); [vm_compute; left; reflexivity|].
  split; [exact H2 | exact H4].
Defined.

(* ================================================================== *)
(** * White space and the client of the backend *)
(* ================================================================== *)

Lemma rstrip_cons (c : ascii) (r : string) :
  rstrip (String c r)
  = match rstrip r with
    | EmptyString => if is_space c then EmptyString else String c EmptyString
    | r' => String c r'
    end.
Proof. reflexivity. Qed.

Lemma rstrip_idempotent (s : string) : rstrip (rstrip s) = rstrip s.
Proof.
  induction s as [|c r IH]; [reflexivity|].
  rewrite rstrip_cons. destruct (rstrip r) as [|c' r'] eqn:E.
  - destruct (is_space c) eqn:Es; [reflexivity|].
    rewrite rstrip_cons. cbn [rstrip]. rewrite Es. reflexivity.
  - rewrite rstrip_cons, IH. reflexivity.
Qed.

Lemma rstrip_keeps_head (c : ascii) (r : string) :
  is_space c = false -> exists r', rstrip (String c r) = String c r'.
Proof.
  intros Hc. rewrite rstrip_cons. destruct (rstrip r); [rewrite Hc|]; eauto.
Qed.

Lemma lstrip_head (s : string) (c : ascii) (r : string) :
  lstrip s = String c r -> is_space c = false.
Proof.
  induction s as [|a t IH]; simpl; [discriminate|].
  destruct (is_space a) eqn:Ea; [exact IH|].
  intros H. injection H as <- _. exact Ea.
Qed.

Lemma strip_head (s : string) (c : ascii) (r : string) :
  strip s = String c r -> is_space c = false.
Proof.
  unfold strip. destruct (lstrip s) as [|a t] eqn:E; [discriminate|].
  pose proof (lstrip_head s a t E) as Ha.
  destruct (rstrip_keeps_head a t Ha) as [r' Hr]. rewrite Hr.
  intros H. injection H as <- _. exact Ha.
Qed.

Lemma rstrip_last (t r : string) (c : ascii) :
  rstrip t = r ++ String c EmptyString -> is_space c = false.
Proof.
  revert r. induction t as [|a t IH]; intros r.
  - cbn [rstrip]. destruct r; discriminate.
  - rewrite rstrip_cons. destruct (rstrip t) as [|b u] eqn:E.
    + destruct (is_space a) eqn:Ea; [destruct r; discriminate|].
      destruct r as [|x r]; simpl; intros H.
      * injection H as <-. exact Ea.
      * injection H as _ H. destruct r; discriminate.
    + destruct r as [|x r]; simpl; intros H; [discriminate|].
      injection H as _ H. apply (IH r). exact H.
Qed.

Lemma strip_idempotent (s : string) : strip (strip s) = strip s.
Proof.
  unfold strip at 1. destruct (strip s) as [|c r] eqn:E; [reflexivity|].
  pose proof (strip_head s c r E) as Hc.
  cbn [lstrip]. rewrite Hc. rewrite <- E. unfold strip. apply rstrip_idempotent.
Qed.

(** X4.  With the API key set, [generate_text] never raises: a failed
    remote call gives the empty text, and a text returned has no white
    space at either end, so that stripping it again (as [api_chat] does)
    changes nothing.  Without the key every call raises. *)
Theorem client_text_is_stripped (key : option string)
        (generate_content : string -> outcome (option string)) (prompt : string) :
  (forall k, key = Some k -> k <> EmptyString ->
     exists t,
       client_generate_text key generate_content prompt = Returns t
       /\ strip t = t
       /\ (forall c r, t = String c r -> is_space c = false)
       /\ (forall r c, t = r ++ String c EmptyString -> is_space c = false)
       /\ (forall e, generate_content prompt = Raises e -> t = EmptyString))
  /\ (key = None \/ key = Some EmptyString ->
      client_generate_text key generate_content prompt = Raises "RuntimeError").
Proof.
  split.
  - intros k -> Hk. unfold client_generate_text.
    destruct k as [|a k']; [congruence|]. cbn [is_empty].
    assert (forall u, strip (strip u) = strip u
                      /\ (forall c r, strip u = String c r -> is_space c = false)
                      /\ (forall r c, strip u = r ++ String c EmptyString ->
                                      is_space c = false)) as Hstrip.
    { intros u. split; [apply strip_idempotent|]. split; [apply strip_head|].
      intros r c H. unfold strip in H. apply (rstrip_last _ _ _ H). }
    destruct (generate_content prompt) as [[t|]|e].
    + exists (strip t). destruct (Hstrip t) as (H1 & H2 & H3).
      repeat split; auto. discriminate.
    + exists (strip EmptyString). repeat split; auto; try discriminate.
      intros r c H. destruct r; discriminate.
    + exists EmptyString. repeat split; auto; try discriminate.
      intros r c H. destruct r; discriminate.
  - intros [->| ->]; reflexivity.
Qed.

Lemma client_text_is_stripped_witness :
  (exists t,
     client_generate_text (Some "k-123") (fun _ => Returns (Some "  Hello.  ")) "Hi"
     = Returns t /\ strip t = t)
  /\ client_generate_text None (fun _ => Returns (Some "  Hello.  ")) "Hi"
     = Raises "RuntimeError".
Proof.
  destruct (client_text_is_stripped (Some "k-123")
              (fun _ => Returns (Some "  Hello.  ")) "Hi") as [H _].
  destruct (client_text_is_stripped None
              (fun _ => Returns (Some "  Hello.  ")) "Hi") as [_ H'].
  split.
  - destruct (H "k-123" eq_refl ltac:(discriminate)) as (t & Ht & Hs & _).
    exists t. split; assumption.
  - apply H'. left; reflexivity.
Defined.

(* ================================================================== *)
(** * What the search endpoint does to the store *)
(* ================================================================== *)

Lemma api_search_run (requester : option string) (q : string) (w : World) :
  strip q <> EmptyString ->
  run (api_search requester q) w
  = match requester with
    | Some u =>
        (respond 200 (Results (search_results (products w) (lower (strip q)))),
         {| world := logged_search u (strip q) w;
            trace := [Insert "interaction"; Select "product"] |})
    | None =>
        (respond 200 (Results (search_results (products w) (lower (strip q)))),
         {| world := w; trace := [Select "product"] |})
    end.
Proof.
  intros Hq. unfold api_search.
  destruct (strip q) as [|c r] eqn:E; [congruence|]. cbn [is_empty].
  destruct requester as [u|]; reflexivity.
Qed.

(** X5.  A blank query is answered with no results and touches nothing,
    whoever asks.  Any other query is answered from the stored catalog; for
    an authenticated user exactly one SEARCH interaction is appended
    first, carrying the stripped query in its original case and no
    product; for an anonymous caller the store is left as it was.  The
    results do not depend on who asks. *)
Theorem search_logging (requester : option string) (q : string) (w : World) :
  (strip q = EmptyString ->
   run (api_search requester q) w
   = (respond 200 (Results []), {| world := w; trace := [] |}))
  /\
  (strip q <> EmptyString ->
   fst (run (api_search requester q) w)
   = respond 200 (Results (search_results (products w) (lower (strip q))))
   /\ world (snd (run (api_search requester q) w))
      = match requester with
        | Some u => logged_search u (strip q) w
        | None => w
        end).
Proof.
  split.
  - intros H. unfold api_search. rewrite H. reflexivity.
  - intros H. rewrite (api_search_run requester q w H).
    destruct requester; split; reflexivity.
Qed.

Lemma search_logging_witness :
  run (api_search (Some "alice") "   ") test_world
  = (respond 200 (Results []), {| world := test_world; trace := [] |})
  /\ world (snd (run (api_search (Some "alice") " Yoga MAT ") test_world))
     = logged_search "alice" "Yoga MAT" test_world.
Proof.
  destruct (search_logging (Some "alice") "   " test_world) as [H1 _].
  destruct (search_logging (Some "alice") " Yoga MAT " test_world) as [_ H2].
  split; [apply H1; reflexivity | apply H2; discriminate].
Defined.

(* ================================================================== *)
(** * Retrieval returns catalog rows that pass the filters *)
(* ================================================================== *)

Lemma filter_unique_ids (f : Product -> bool) (rows : list Product) :
  NoDup (map id rows) -> NoDup (map id (filter f rows)).
Proof.
  induction rows as [|q r IH]; simpl; intros H; [constructor|].
  inversion H as [|? ? Hq Hr]; subst.
  destruct (f q); [|apply IH, Hr]. simpl. constructor; [|apply IH, Hr].
  intros Hin. apply Hq. apply in_map_iff in Hin.
  destruct Hin as [x [Hx Hin]]. apply filter_In in Hin.
  rewrite <- Hx. apply in_map. tauto.
Qed.

Lemma firstn_unique_ids (n : nat) (rows : list Product) :
  NoDup (map id rows) -> NoDup (map id (firstn n rows)).
Proof.
  intros H. rewrite <- (firstn_skipn n rows), map_app in H.
  apply NoDup_app_remove_r in H. exact H.
Qed.

Lemma order_by_unique_ids (ks : list (OrderKey Product)) (rows : list Product) :
  NoDup (map id rows) -> NoDup (map id (order_by ks rows)).
Proof.
  intros H. eapply Permutation_NoDup; [|exact H].
  apply Permutation_map, Permutation_sym, order_by_perm.
Qed.

Lemma page_of_sound (n : nat) (all l res : list Product) :
  page_of n all l res ->
  incl res l /\ incl res all
  /\ (NoDup (map id all) -> NoDup (map id res)).
Proof.
  intros ([ks ->] & Hincl & Hnd).
  assert (incl (firstn n (order_by ks l)) l) as H.
  { intros x Hx. apply (order_by_In ks). 
    rewrite <- (firstn_skipn n (order_by ks l)). apply in_or_app. left; exact Hx. }
  split; [exact H|]. split; [intros x Hx; apply Hincl, H, Hx|].
  intros Hall. apply firstn_unique_ids, order_by_unique_ids, Hnd, Hall.
Qed.

Lemma selection_filter (f : Product -> bool) (all l : list Product) :
  incl l all /\ (NoDup (map id all) -> NoDup (map id l)) ->
  incl (filter f l) all /\ (NoDup (map id all) -> NoDup (map id (filter f l))).
Proof.
  intros [Hi Hn]. split.
  - intros x Hx. apply filter_In in Hx. apply Hi. tauto.
  - intros H. apply filter_unique_ids, Hn, H.
Qed.

Lemma search_results_page (all : list Product) (ql : string) :
  page_of 20 all (search_selection all ql) (search_results all ql).
Proof.
  unfold page_of. split; [|].
  - unfold search_results, search_selection.
    destruct (parse_amount ql); [|eexists; reflexivity].
    destruct (search_wants_over ql); [eexists; reflexivity|].
    destruct (search_wants_under ql); eexists; reflexivity.
  - unfold search_selection.
    assert (incl all all /\ (NoDup (map id all) -> NoDup (map id all))) as H0
      by (split; [apply incl_refl | auto]).
    destruct (search_keywords ql); [|apply selection_filter];
      (destruct (parse_amount ql); [|exact H0]);
      (destruct (search_wants_under ql); [apply selection_filter, H0|]);
      (destruct (search_wants_over ql); [apply selection_filter, H0 | exact H0]).
Qed.

(** X6.  Plain search only returns rows of the stored catalog, never more
    than 20 and never one twice when ids are unique; when the query has
    keywords, every product returned holds one of them, case-insensitively,
    in its name, category or tags. *)
Theorem search_results_sound (all : list Product) (ql : string) :
  (forall p, In p (search_results all ql) ->
     In p all
     /\ (search_keywords ql <> [] ->
         exists w, In w (search_keywords ql)
                   /\ (icontains (name p) w || icontains (category p) w
                       || icontains (tags p) w) = true))
  /\ (NoDup (map id all) -> NoDup (map id (search_results all ql)))
  /\ (List.length (search_results all ql) <= 20)%nat.
Proof.
  destruct (page_of_sound _ _ _ _ (search_results_page all ql)) as (Hl & Ha & Hn).
  split; [|split; [exact Hn | apply search_results_length]].
  intros p Hp. split; [apply Ha, Hp|].
  intros Hk. apply Hl in Hp. unfold search_selection in Hp.
  destruct (search_keywords ql) as [|k ks] eqn:E; [congruence|].
  apply filter_In in Hp. destruct Hp as [_ Hq].
  unfold search_kw_query in Hq. apply existsb_exists in Hq. exact Hq.
Qed.

Lemma search_results_sound_witness :
  In (item 2 "Yoga Mat" "Sports" 1800 "fitness,yoga,home-workout" "Non-slip yoga mat.")
     test_catalog
  /\ NoDup (map id (search_results test_catalog "yoga")).
Proof.
  destruct (search_results_sound test_catalog "yoga") as (H1 & H2 & _).
  split.
  - apply H1. vm_compute. left; reflexivity.
  - apply H2, test_catalog_unique.
Defined.

(* ================================================================== *)
(** * The rows a page leaves out *)
(* ================================================================== *)

Lemma page_top {A} (ks : list (OrderKey A)) (n : nat) (l : list A) (r p : A) :
  In r (firstn n (order_by ks l)) ->
  In p l ->
  ~ In p (firstn n (order_by ks l)) ->
  leb_keys ks r p = true /\ List.length (firstn n (order_by ks l)) = n.
Proof.
  intros Hr Hp Hout.
  assert (In p (skipn n (order_by ks l))) as Hs.
  { apply (order_by_In ks) in Hp.
    rewrite <- (firstn_skipn n (order_by ks l)) in Hp.
    apply in_app_or in Hp. tauto. }
  split.
  - apply (sorted_app_cross (fun a b => leb_keys ks a b = true)
             (firstn n (order_by ks l)) (skipn n (order_by ks l)));
      [rewrite firstn_skipn; apply order_by_sorted | exact Hr | exact Hs].
  - rewrite length_firstn. apply Nat.min_l.
    destruct (Nat.le_gt_cases n (List.length (order_by ks l))) as [H|H]; [exact H|].
    rewrite skipn_all2 in Hs by lia. destruct Hs.
Qed.

Lemma sorted_id_up (l : list Product) : StronglySorted id_up (order_by [Asc id] l).
Proof.
  eapply sorted_impl; [|apply order_by_sorted].
  intros a b. unfold leb_keys, id_up. simpl.
  destruct (Z.compare_spec (id a) (id b)); intros; try discriminate; lia.
Qed.

Lemma sorted_id_down (l : list Product) : StronglySorted id_down (order_by [Desc id] l).
Proof.
  eapply sorted_impl; [|apply order_by_sorted].
  intros a b. unfold leb_keys, id_down. simpl.
  destruct (Z.compare_spec (id b) (id a)); intros; try discriminate; lia.
Qed.

(** X7.  A query without a number is not filtered or sorted by price, even
    if it holds direction words: plain search lists the matching products
    by rising id, and a product of the catalog that matches the keywords
    (or any product, when there are none) is missing from the results only
    if 20 products of lower or equal id fill them. *)
Theorem search_without_amount (all : list Product) (ql : string) :
  parse_amount ql = None ->
  StronglySorted id_up (search_results all ql)
  /\ forall p, In p all ->
       (search_keywords ql = []
        \/ search_kw_query (search_keywords ql) p = true) ->
       In p (search_results all ql)
       \/ (List.length (search_results all ql) = 20%nat
           /\ forall r, In r (search_results all ql) -> id r <= id p).
Proof.
  intros Hn.
  assert (search_results all ql
          = firstn 20 (order_by [Asc id] (search_selection all ql))) as E.
  { unfold search_results, search_selection. rewrite Hn. reflexivity. }
  rewrite E. split; [apply firstn_sorted, sorted_id_up|].
  intros p Hp Hk.
  assert (In p (search_selection all ql)) as Hsel.
  { unfold search_selection. rewrite Hn.
    destruct (search_keywords ql) as [|k ks] eqn:Ek; [exact Hp|].
    apply filter_In. split; [exact Hp|]. destruct Hk as [Hk|Hk]; [discriminate|exact Hk]. }
  destruct (in_dec Product_eq_dec p
              (firstn 20 (order_by [Asc id] (search_selection all ql)))) as [Hin|Hout];
    [left; exact Hin | right].
  split.
  - destruct (firstn 20 (order_by [Asc id] (search_selection all ql))) as [|r0 rest] eqn:Ef.
    + exfalso. apply (order_by_In [Asc id]) in Hsel.
      rewrite <- (firstn_skipn 20 (order_by [Asc id] (search_selection all ql))) in Hsel.
      rewrite Ef in Hsel. simpl in Hsel.
      destruct (order_by [Asc id] (search_selection all ql)); [destruct Hsel|].
      simpl in Ef. discriminate.
    + rewrite <- Ef.
      apply (page_top [Asc id] 20 (search_selection all ql) r0 p);
        [rewrite Ef; left; reflexivity | exact Hsel | rewrite Ef; exact Hout].
  - intros r Hr.
    destruct (page_top [Asc id] 20 (search_selection all ql) r p Hr Hsel Hout)
      as [Hle _].
    unfold leb_keys in Hle. simpl in Hle.
    destruct (Z.compare_spec (id r) (id p)); try discriminate; lia.
Qed.

Lemma search_without_amount_witness :
  StronglySorted id_up (search_results test_catalog "cheaper electronics")
  /\ In (item 3 "Smart Watch" "Electronics" 11900 "health,fitness,wearable"
              "Track fitness and notifications.")
        (search_results test_catalog "cheaper electronics").
Proof.
  destruct (search_without_amount test_catalog "cheaper electronics" eq_refl)
    as [Hs Hc].
  split; [exact Hs|].
  assert (In (item 3 "Smart Watch" "Electronics" 11900 "health,fitness,wearable"
                   "Track fitness and notifications.") test_catalog) as Hin
    by (right; right; left; reflexivity).
  destruct (Hc _ Hin (or_intror eq_refl)) as [H|[Hlen _]]; [exact H|].
  vm_compute in Hlen. discriminate Hlen.
Defined.

(* ================================================================== *)
(** * Chat retrieval *)
(* ================================================================== *)

Lemma chat_products_page (all : list Product) (ql : string) :
  page_of 5 all (chat_filter all ql) (chat_products all ql).
Proof.
  unfold page_of. split.
  - unfold chat_products, chat_retrieve, chat_order.
    destruct (parse_amount ql).
    + destruct (chat_wants_over ql || chat_wants_high ql); [eexists; reflexivity|].
      destruct (chat_wants_under ql); eexists; reflexivity.
    + destruct (chat_wants_high ql); eexists; reflexivity.
  - unfold chat_filter.
    assert (incl all all /\ (NoDup (map id all) -> NoDup (map id all))) as H0
      by (split; [apply incl_refl | auto]).
    assert (forall l, incl l all /\ (NoDup (map id all) -> NoDup (map id l)) ->
              let qs := match parse_amount ql with
                        | Some a =>
                            if chat_wants_under ql then filter (price_lte a) l
                            else if chat_wants_over ql || chat_wants_high ql
                                 then filter (price_gte a) l
                                 else l
                        | None => l
                        end in
              incl match chat_keywords ql with
                   | [] => qs
                   | _ => filter (chat_kw_query (firstn 6 (chat_keywords ql))) qs
                   end all
              /\ (NoDup (map id all) ->
                  NoDup (map id match chat_keywords ql with
                                | [] => qs
                                | _ => filter (chat_kw_query (firstn 6 (chat_keywords ql))) qs
                                end))) as Hstep.
    { intros l Hl qs.
      assert (incl qs all /\ (NoDup (map id all) -> NoDup (map id qs))) as Hqs.
      { subst qs. destruct (parse_amount ql); [|exact Hl].
        destruct (chat_wants_under ql); [apply selection_filter, Hl|].
        destruct (chat_wants_over ql || chat_wants_high ql);
          [apply selection_filter, Hl | exact Hl]. }
      destruct (chat_keywords ql); [exact Hqs | apply selection_filter, Hqs]. }
    destruct (chat_category ql); apply Hstep; [apply selection_filter, H0 | exact H0].
Qed.

Lemma chat_filter_category (all : list Product) (ql c : string) (p : Product) :
  chat_category ql = Some c -> In p (chat_filter all ql) ->
  (icontains (category p) c || icontains (tags p) c) = true.
Proof.
  intros Hc Hp. unfold chat_filter in Hp. rewrite Hc in Hp.
  assert (forall l, In p match chat_keywords ql with
                         | [] => l
                         | _ => filter (chat_kw_query (firstn 6 (chat_keywords ql))) l
                         end -> In p l) as Hkw.
  { intros l H. destruct (chat_keywords ql); [exact H|].
    apply filter_In in H. tauto. }
  apply Hkw in Hp.
  assert (In p (filter (fun p => icontains (category p) c || icontains (tags p) c) all))
    as Hin.
  { destruct (parse_amount ql); [|exact Hp].
    destruct (chat_wants_under ql); [apply filter_In in Hp; tauto|].
    destruct (chat_wants_over ql || chat_wants_high ql);
      [apply filter_In in Hp; tauto | exact Hp]. }
  apply filter_In in Hin. tauto.
Qed.

(** X8.  Chat only returns rows of the stored catalog, at most 5 and none
    twice when ids are unique.  When a category word is found in the
    message every product returned carries it in its category or tags;
    when the message has keywords every product returned holds one of the
    first 6 of them in its name, tags, category or short description. *)
Theorem chat_products_sound (all : list Product) (ql : string) :
  (forall p, In p (chat_products all ql) ->
     In p all
     /\ (forall c, chat_category ql = Some c ->
           (icontains (category p) c || icontains (tags p) c) = true)
     /\ (chat_keywords ql <> [] ->
         exists w, In w (firstn 6 (chat_keywords ql))
                   /\ (icontains (name p) w || icontains (tags p) w
                       || icontains (category p) w
                       || icontains (short_description p) w) = true))
  /\ (NoDup (map id all) -> NoDup (map id (chat_products all ql)))
  /\ (List.length (chat_products all ql) <= 5)%nat.
Proof.
  destruct (page_of_sound _ _ _ _ (chat_products_page all ql)) as (Hl & Ha & Hn).
  split; [|split; [exact Hn | apply chat_products_length]].
  intros p Hp. split; [apply Ha, Hp|]. apply Hl in Hp. split.
  - intros c Hc. apply (chat_filter_category all ql c p Hc Hp).
  - intros Hk. unfold chat_filter in Hp.
    destruct (chat_keywords ql) as [|k ks] eqn:E; [congruence|].
    apply filter_In in Hp. destruct Hp as [_ Hq].
    unfold chat_kw_query in Hq. apply existsb_exists in Hq. exact Hq.
Qed.

Lemma chat_products_sound_witness :
  (icontains (category (item 2 "Yoga Mat" "Sports" 1800 "fitness,yoga,home-workout"
                             "Non-slip yoga mat.")) "sports"
   || icontains (tags (item 2 "Yoga Mat" "Sports" 1800 "fitness,yoga,home-workout"
                            "Non-slip yoga mat.")) "sports") = true
  /\ NoDup (map id (chat_products test_catalog "sports gear under $30")).
Proof.
  destruct (chat_products_sound test_catalog "sports gear under $30") as (H1 & H2 & _).
  split.
  - destruct (H1 (item 2 "Yoga Mat" "Sports" 1800 "fitness,yoga,home-workout"
                       "Non-slip yoga mat.")) as (_ & Hc & _).
    + vm_compute. left; reflexivity.
    + apply Hc. reflexivity.
  - apply H2, test_catalog_unique.
Defined.

Lemma chat_filter_complete (all : list Product) (ql : string) (p : Product) :
  parse_amount ql = None ->
  In p all ->
  (forall c, chat_category ql = Some c ->
     (icontains (category p) c || icontains (tags p) c) = true) ->
  (chat_keywords ql = []
   \/ exists w, In w (firstn 6 (chat_keywords ql))
                /\ (icontains (name p) w || icontains (tags p) w
                    || icontains (category p) w
                    || icontains (short_description p) w) = true) ->
  In p (chat_filter all ql).
Proof.
  intros Hn Hin Hc Hk. unfold chat_filter. rewrite Hn.
  assert (In p match chat_category ql with
               | Some c => filter (fun p => icontains (category p) c
                                            || icontains (tags p) c) all
               | None => all
               end) as Hcat.
  { destruct (chat_category ql) as [c|]; [|exact Hin].
    apply filter_In. split; [exact Hin | apply Hc; reflexivity]. }
  destruct (chat_keywords ql) as [|k ks] eqn:Ek; [exact Hcat|].
  apply filter_In. split; [exact Hcat|].
  destruct Hk as [Hk|Hk]; [discriminate Hk|].
  unfold chat_kw_query. apply existsb_exists. exact Hk.
Qed.

(** X9.  For a message with a high-price phrase and no number, the title
    announces higher-priced products and the products are listed by falling
    price (ties by falling id).  No price filter applies: every product of
    the catalog, whatever its price, that carries the category named in the
    message (if one is) and one of the first 6 keywords (if there are any)
    is listed, unless 5 products are listed and each costs at least as
    much. *)
Theorem chat_high_price (all : list Product) (ql : string) :
  parse_amount ql = None ->
  chat_wants_high ql = true ->
  snd (chat_retrieve all ql) = "Here are some higher-priced products from our catalog:"
  /\ StronglySorted price_down_id_down (chat_products all ql)
  /\ forall p,
       In p all ->
       (forall c, chat_category ql = Some c ->
          (icontains (category p) c || icontains (tags p) c) = true) ->
       (chat_keywords ql = []
        \/ exists w, In w (firstn 6 (chat_keywords ql))
                     /\ (icontains (name p) w || icontains (tags p) w
                         || icontains (category p) w
                         || icontains (short_description p) w) = true) ->
       In p (chat_products all ql)
       \/ (List.length (chat_products all ql) = 5%nat
           /\ forall r, In r (chat_products all ql) -> price p <= price r).
Proof.
  intros Hn Hh.
  assert (chat_retrieve all ql
          = (firstn 5 (order_by [Desc price; Desc id] (chat_filter all ql)),
             "Here are some higher-priced products from our catalog:")) as E.
  { unfold chat_retrieve, chat_order. rewrite Hn, Hh. reflexivity. }
  unfold chat_products. rewrite E. cbn [fst snd].
  split; [reflexivity|]. split; [apply firstn_sorted, sorted_price_down_id_down|].
  intros p Hin Hc Hk.
  pose proof (chat_filter_complete all ql p Hn Hin Hc Hk) as Hp.
  destruct (in_dec Product_eq_dec p
              (firstn 5 (order_by [Desc price; Desc id] (chat_filter all ql))))
    as [Hlisted|Hout]; [left; exact Hlisted|].
  right.
  assert (exists r0, In r0 (firstn 5 (order_by [Desc price; Desc id]
                                        (chat_filter all ql)))) as [r0 Hr0].
  { assert (In p (order_by [Desc price; Desc id] (chat_filter all ql))) as Hs
      by (apply order_by_In, Hp).
    destruct (order_by [Desc price; Desc id] (chat_filter all ql)) as [|x xs];
      [destruct Hs | exists x; left; reflexivity]. }
  split.
  - apply (page_top [Desc price; Desc id] 5 (chat_filter all ql) r0 p Hr0 Hp Hout).
  - intros r Hr.
    destruct (page_top [Desc price; Desc id] 5 (chat_filter all ql) r p Hr Hp Hout)
      as [Hle _].
    unfold leb_keys in Hle. simpl in Hle.
    destruct (Z.compare_spec (price p) (price r)); first [lia | discriminate Hle].
Qed.

Lemma chat_high_price_witness :
  snd (chat_retrieve test_catalog "most expensive")
  = "Here are some higher-priced products from our catalog:"
  /\ (In (item 2 "Yoga Mat" "Sports" 1800 "fitness,yoga,home-workout"
               "Non-slip yoga mat.")
         (chat_products test_catalog "most expensive")
      \/ (List.length (chat_products test_catalog "most expensive") = 5%nat
          /\ forall r, In r (chat_products test_catalog "most expensive") ->
                       1800 <= price r)).
Proof.
  destruct (chat_high_price test_catalog "most expensive" eq_refl eq_refl)
    as (H1 & _ & H3).
  split; [exact H1|].
  apply (H3 (item 2 "Yoga Mat" "Sports" 1800 "fitness,yoga,home-workout"
                  "Non-slip yoga mat.")).
  - vm_compute. tauto.
  - intros c Hc. vm_compute in Hc. discriminate Hc.
  - left. vm_compute. reflexivity.
Defined.

(* ================================================================== *)
(** * The reply of the chat endpoint *)
(* ================================================================== *)

Lemma api_chat_run (ai : string -> string) (message : string) (w : World) :
  strip message <> EmptyString ->
  chat_products (products w) (lower (strip message)) <> [] ->
  let ql := lower (strip message) in
  let ps := chat_products (products w) ql in
  let title := snd (chat_retrieve (products w) ql) in
  let ai_reply := strip (ai (chat_prompt (strip message) ps)) in
  run (api_chat ai message) w
  = (respond 200
       (Reply (if is_empty ai_reply
               then join newline (title :: map chat_line ps) ++ chat_notice
               else ai_reply)),
     {| world := w;
        trace := [Select "product"; Generate (chat_prompt (strip message) ps)] |}).
Proof.
  intros Hm Hps. cbv zeta. unfold chat_products in *. unfold api_chat.
  destruct (strip message) as [|c r] eqn:E; [congruence|]. cbn [is_empty].
  cbv [run bind select_products read emit ret generate_text].
  cbn [world trace app].
  destruct (chat_retrieve (products w) (lower (String c r))) as [ps title].
  cbn [fst snd] in *. destruct ps as [|p0 ps]; [congruence|]. reflexivity.
Qed.

Lemma append_nonempty (a b : string) : b <> EmptyString -> (a ++ b)%string <> EmptyString.
Proof. destruct a; simpl; [auto | discriminate]. Qed.

Lemma api_chat_served_run (key : option string)
      (generate_content : string -> outcome (option string))
      (posted : Posted) (text : string) (w : World) :
  message_of posted = Returns text ->
  run (api_chat_served key generate_content posted) w
  = let message := strip text in
    if is_empty message
    then (Returns (respond 400 (Reply chat_rejection)), {| world := w; trace := [] |})
    else
      let ps := chat_products (products w) (lower message) in
      let title := snd (chat_retrieve (products w) (lower message)) in
      match ps with
      | [] => (Returns (respond 200 (Reply chat_guidance)),
               {| world := w; trace := [Select "product"] |})
      | _ =>
          (match client_generate_text key generate_content (chat_prompt message ps) with
           | Raises e => Raises e
           | Returns t =>
               Returns (respond 200
                          (Reply (if is_empty (strip t)
                                  then join newline (title :: map chat_line ps)
                                       ++ chat_notice
                                  else strip t)))
           end,
           {| world := w;
              trace := [Select "product"; Generate (chat_prompt message ps)] |})
      end.
Proof.
  intros Hm. unfold api_chat_served, chat_products. rewrite Hm. cbv zeta.
  destruct (strip text) as [|c r] eqn:E; cbn [is_empty]; [reflexivity|].
  cbv [run bind select_products read emit ret].
  cbn [world trace app].
  destruct (chat_retrieve (products w) (lower (String c r))) as [ps title].
  cbn [fst snd]. destruct ps as [|p0 ps]; [reflexivity|].
  cbn [world trace app].
  destruct (client_generate_text key generate_content _); reflexivity.
Qed.

Lemma client_with_key (k : string) (generate_content : string -> outcome (option string))
      (prompt : string) :
  k <> EmptyString ->
  client_generate_text (Some k) generate_content prompt
  = Returns (client_oracle (Some k) generate_content prompt).
Proof.
  intros Hk. unfold client_oracle, client_generate_text.
  destruct k as [|c r]; [congruence|]. cbn [is_empty].
  destruct (generate_content prompt) as [[t|]|e]; reflexivity.
Qed.

(** X10.  The chat endpoint over the client never writes to the store and
    calls [generate_text] at most once.  A truthy message that is no text
    ends the request in an AttributeError.  Otherwise, with the posted text
    (the empty text for an absent or falsy value): a blank message gets
    status 400 and the fixed rejection; a message for which no product is
    retrieved gets status 200 and the fixed guidance; when products are
    retrieved and the API key is set, the answer is that of [api_chat] run
    on the client's texts, status 200 with a non-empty reply; when products
    are retrieved and the key is missing or empty, the request ends in the
    RuntimeError of the client. *)
Theorem chat_always_replies (key : option string)
        (generate_content : string -> outcome (option string))
        (posted : Posted) (w : World) :
  let out := run (api_chat_served key generate_content posted) w in
  world (snd out) = w
  /\ (backend_calls (trace (snd out)) <= 1)%nat
  /\ (posted = Other true -> fst out = Raises "AttributeError")
  /\ forall text,
       posted = Text text
       \/ (posted = Absent \/ posted = Other false) /\ text = EmptyString ->
       let m := strip text in
       (m = EmptyString ->
        out = (Returns (respond 400 (Reply "Please type a question first.")),
               {| world := w; trace := [] |}))
       /\ (m <> EmptyString -> chat_products (products w) (lower m) = [] ->
           fst out
           = Returns (respond 200 (Reply "I couldn't find matching products. Try: 'most expensive products', 'over $50 electronics', or 'under $30 sports'.")))
       /\ (m <> EmptyString -> chat_products (products w) (lower m) <> [] ->
           (forall k, key = Some k -> k <> EmptyString ->
              out = (Returns (fst (run (api_chat (client_oracle key generate_content)
                                          text) w)),
                     snd (run (api_chat (client_oracle key generate_content) text) w))
              /\ exists reply,
                   fst out = Returns (respond 200 (Reply reply))
                   /\ reply <> EmptyString)
           /\ (key = None \/ key = Some EmptyString ->
               fst out = Raises "RuntimeError"
               /\ backend_calls (trace (snd out)) = 1%nat)).
Proof.
  intros out. subst out.
  assert (forall text, message_of posted = Returns text ->
            world (snd (run (api_chat_served key generate_content posted) w)) = w
            /\ (backend_calls
                  (trace (snd (run (api_chat_served key generate_content posted) w)))
                <= 1)%nat) as Hstate.
  { intros text Hm. rewrite (api_chat_served_run key generate_content posted text w Hm).
    cbv zeta. destruct (is_empty (strip text)); [cbn; split; [reflexivity | lia]|].
    destruct (chat_products (products w) (lower (strip text)));
      cbn; split; first [reflexivity | lia]. }
  assert (forall text,
            posted = Text text
            \/ (posted = Absent \/ posted = Other false) /\ text = EmptyString ->
            message_of posted = Returns text) as Hposted.
  { intros text [->|[[->| ->] ->]]; reflexivity. }
  split; [|split; [|split]].
  - destruct posted as [|s|[|]]; try (apply (Hstate _ eq_refl)). reflexivity.
  - destruct posted as [|s|[|]]; try (apply (Hstate _ eq_refl)). cbn. lia.
  - intros ->. reflexivity.
  - intros text Hp m. subst m. apply Hposted in Hp.
    rewrite (api_chat_served_run key generate_content posted text w Hp). cbv zeta.
    split; [|split].
    + intros ->. reflexivity.
    + intros Hm Hps. destruct (strip text) as [|c r]; [congruence|].
      cbn [is_empty]. rewrite Hps. reflexivity.
    + intros Hm Hps. split.
      * intros k -> Hk.
        rewrite (api_chat_run (client_oracle (Some k) generate_content) text w Hm Hps).
        cbv zeta. cbn [fst snd].
        destruct (strip text) as [|c r] eqn:E; [congruence|]. cbn [is_empty].
        destruct (chat_products (products w) (lower (String c r))) as [|p0 ps] eqn:Ep;
          [congruence|].
        rewrite (client_with_key k generate_content _ Hk).
        split; [reflexivity|]. cbn [fst].
        eexists. split; [reflexivity|].
        destruct (strip (client_oracle (Some k) generate_content _)) as [|c' r'];
          cbn [is_empty]; [apply append_nonempty; discriminate | discriminate].
      * intros Hkey.
        destruct (strip text) as [|c r] eqn:E; [congruence|]. cbn [is_empty].
        destruct (chat_products (products w) (lower (String c r))) as [|p0 ps] eqn:Ep;
          [congruence|].
        destruct Hkey as [-> | ->]; split; reflexivity.
Qed.

Lemma chat_always_replies_witness :
  fst (run (api_chat_served None (fun _ => Returns None) (Text "most expensive"))
           test_world)
  = Raises "RuntimeError".
Proof.
  destruct (chat_always_replies None (fun _ => Returns None) (Text "most expensive")
              test_world) as (_ & _ & _ & H).
  destruct (H "most expensive" (or_introl eq_refl)) as (_ & _ & H3).
  apply H3.
  - vm_compute. discriminate.
  - vm_compute. discriminate.
  - left; reflexivity.
Defined.

(** ** Substrings of a reply *)

Lemma starts_with_refl (p : string) : starts_with p p = true.
Proof. induction p as [|c r IH]; simpl; [reflexivity|]. rewrite Ascii.eqb_refl. exact IH. Qed.

Lemma starts_with_app (p a b : string) :
  starts_with p a = true -> starts_with p (a ++ b) = true.
Proof.
  revert a. induction p as [|c r IH]; intros a; [reflexivity|].
  destruct a as [|x a]; simpl; [discriminate|].
  intros H. apply andb_true_iff in H. destruct H as [H1 H2].
  rewrite H1. apply IH, H2.
Qed.

Lemma contains_app_l (n a b : string) :
  contains n a = true -> contains n (a ++ b) = true.
Proof.
  induction a as [|x a IH]; intros H.
  - simpl in H. rewrite orb_false_r in H.
    destruct n; [destruct b; reflexivity | discriminate].
  - cbn [contains] in H. apply orb_true_iff in H.
    change ((String x a ++ b)%string) with (String x (a ++ b)). cbn [contains].
    apply orb_true_iff. destruct H as [H|H].
    + left. apply (starts_with_app n (String x a) b H).
    + right. apply IH, H.
Qed.

Lemma contains_app_r (n a b : string) :
  contains n b = true -> contains n (a ++ b) = true.
Proof.
  intros H. induction a as [|x a IH]; [exact H|].
  change ((String x a ++ b)%string) with (String x (a ++ b)). cbn [contains].
  rewrite IH. apply orb_true_r.
Qed.

Lemma contains_refl (n : string) : contains n n = true.
Proof. destruct n; cbn [contains]; rewrite starts_with_refl; reflexivity. Qed.

Lemma contains_trans_app (n a x b : string) :
  contains n x = true -> contains n (a ++ x ++ b) = true.
Proof. intros H. apply contains_app_r, contains_app_l, H. Qed.

Lemma contains_join (n sep x : string) (parts : list string) :
  In x parts -> contains n x = true -> contains n (join sep parts) = true.
Proof.
  intros Hin Hx. induction parts as [|y r IH]; [destruct Hin|].
  destruct r as [|z r'].
  - destruct Hin as [->|[]]. exact Hx.
  - change (join sep (y :: z :: r')) with (y ++ sep ++ join sep (z :: r'))%string.
    destruct Hin as [->|Hin].
    + apply contains_app_l, Hx.
    + apply contains_app_r, contains_app_r, IH, Hin.
Qed.

Lemma chat_line_shows (p : Product) :
  contains (name p) (chat_line p) = true
  /\ contains (price_str (price p)) (chat_line p) = true
  /\ contains (category p) (chat_line p) = true.
Proof.
  unfold chat_line. repeat split.
  - apply contains_trans_app, contains_refl.
  - apply contains_app_r, contains_app_r, contains_trans_app, contains_refl.
  - do 7 apply contains_app_r. apply contains_app_l, contains_refl.
Qed.

(** X11.  When products are retrieved, a non-blank answer of the backend
    is the reply, stripped and otherwise verbatim.  When the answer is
    blank, the reply is the deterministic listing followed by the notice:
    it starts with the title and shows the name, the price and the
    category of every product retrieved. *)
Theorem chat_reply_content (ai : string -> string) (message : string) (w : World) :
  strip message <> EmptyString ->
  chat_products (products w) (lower (strip message)) <> [] ->
  let ql := lower (strip message) in
  let ps := chat_products (products w) ql in
  let title := snd (chat_retrieve (products w) ql) in
  let ai_reply := strip (ai (chat_prompt (strip message) ps)) in
  (ai_reply <> EmptyString ->
   fst (run (api_chat ai message) w) = respond 200 (Reply ai_reply))
  /\
  (ai_reply = EmptyString ->
   exists reply,
     fst (run (api_chat ai message) w) = respond 200 (Reply reply)
     /\ reply = join newline (title :: map chat_line ps) ++ chat_notice
     /\ starts_with title reply = true
     /\ forall p, In p ps ->
          contains (name p) reply = true
          /\ contains (price_str (price p)) reply = true
          /\ contains (category p) reply = true).
Proof.
  intros Hm Hps ql ps title ai_reply.
  pose proof (api_chat_run ai message w Hm Hps) as Hrun. cbv zeta in Hrun.
  fold ql in Hrun. fold ps in Hrun. fold title in Hrun. fold ai_reply in Hrun.
  rewrite Hrun. cbn [fst]. split.
  - intros Hne. destruct ai_reply; [congruence | reflexivity].
  - intros He. rewrite He. cbn [is_empty].
    eexists. split; [reflexivity|]. split; [reflexivity|]. split.
    + apply starts_with_app.
      destruct (map chat_line ps) as [|l ls].
      * apply starts_with_refl.
      * change (join newline (title :: l :: ls))
          with (title ++ newline ++ join newline (l :: ls))%string.
        apply starts_with_app, starts_with_refl.
    + intros p Hp.
      destruct (chat_line_shows p) as (H1 & H2 & H3).
      assert (In (chat_line p) (title :: map chat_line ps)) as Hin
        by (right; apply in_map, Hp).
      repeat split; apply contains_app_l;
        apply (contains_join _ newline (chat_line p) _ Hin); assumption.
Qed.

Lemma chat_reply_content_witness :
  fst (run (api_chat (fun _ => "  Try the Yoga Mat ($18.00).  ") "under $20") test_world)
  = respond 200 (Reply "Try the Yoga Mat ($18.00).")
  /\ exists reply,
       fst (run (api_chat silent "under $20") test_world) = respond 200 (Reply reply)
       /\ contains "Yoga Mat" reply = true.
Proof.
  assert (chat_products (products test_world) (lower (strip "under $20")) <> [])
    as Hps by (vm_compute; discriminate).
  assert (strip "under $20" <> EmptyString) as Hm by discriminate.
  destruct (chat_reply_content (fun _ => "  Try the Yoga Mat ($18.00).  ")
              "under $20" test_world Hm Hps) as [H1 _].
  destruct (chat_reply_content silent "under $20" test_world Hm Hps) as [_ H2].
  split.
  - apply H1. discriminate.
  - destruct (H2 eq_refl) as (reply & Hr & _ & _ & Hall).
    exists reply. split; [exact Hr|].
    apply (Hall (item 2 "Yoga Mat" "Sports" 1800 "fitness,yoga,home-workout"
                      "Non-slip yoga mat.")).
    vm_compute. left; reflexivity.
Defined.

(* ================================================================== *)
(** * Requests that end in an error *)
(* ================================================================== *)

Lemma missing_product_aux (ai : string -> string) (pid : Z) (w : World) :
  lookup_product pid (products w) = None ->
  run (api_generate_description ai pid) w
  = (respond 404 NotFound, {| world := w; trace := [Select "product"] |})
  /\ run (api_summarize_reviews ai pid) w
     = (respond 404 NotFound, {| world := w; trace := [Select "product"] |}).
Proof.
  intros H. split.
  - cbv [run api_generate_description bind get_product read emit ret].
    cbn [world trace app]. rewrite H. reflexivity.
  - cbv [run api_summarize_reviews bind get_product read emit ret].
    cbn [world trace app]. rewrite H. reflexivity.
Qed.

(** X12.  For an id that no product carries, description generation,
    review summarization and the detail page all end in 404 after the one
    lookup: nothing is written, no interaction is logged and the backend is
    not called. *)
Theorem missing_product (ai : string -> string) (requester : option string)
        (pid : Z) (w : World) :
  lookup_product pid (products w) = None ->
  run (api_generate_description ai pid) w
  = (respond 404 NotFound, {| world := w; trace := [Select "product"] |})
  /\ run (api_summarize_reviews ai pid) w
     = (respond 404 NotFound, {| world := w; trace := [Select "product"] |})
  /\ run (product_detail requester pid) w
     = (Http404, {| world := w; trace := [Select "product"] |}).
Proof.
  intros H. repeat split.
  - cbv [run api_generate_description bind get_product read emit ret].
    cbn [world trace app]. rewrite H. reflexivity.
  - cbv [run api_summarize_reviews bind get_product read emit ret].
    cbn [world trace app]. rewrite H. reflexivity.
  - cbv [run product_detail bind get_product read emit ret].
    cbn [world trace app]. rewrite H. reflexivity.
Qed.

Lemma missing_product_witness :
  run (api_generate_description silent 99) test_world
  = (respond 404 NotFound, {| world := test_world; trace := [Select "product"] |}).
Proof.
  apply (missing_product silent None 99 test_world). reflexivity.
Defined.

Lemma no_reviews_recent (pid : Z) (rows : list Review) :
  (forall r, In r rows -> review_product r <> pid) -> recent_reviews pid rows = [].
Proof.
  intros H. unfold recent_reviews.
  assert (filter (fun r => review_product r =? pid) rows = []) as E.
  { induction rows as [|r rest IH]; [reflexivity|]. simpl.
    destruct (review_product r =? pid) eqn:Er.
    - apply Z.eqb_eq in Er. exfalso. apply (H r); [left; reflexivity | exact Er].
    - apply IH. intros x Hx. apply H. right; exact Hx. }
  rewrite E. reflexivity.
Qed.

Lemma summarize_no_reviews_run (ai : string -> string) (pid : Z) (w : World)
      (p : Product) :
  lookup_product pid (products w) = Some p ->
  recent_reviews pid (reviews w) = [] ->
  run (api_summarize_reviews ai pid) w
  = (respond 400 (Error "No reviews to summarize"),
     {| world := w; trace := [Select "product"; Select "review"] |}).
Proof.
  intros H Hr. destruct (lookup_product_sound _ _ _ H) as [Hid _].
  cbv [run api_summarize_reviews bind get_product read emit ret].
  cbn [world trace app]. rewrite H, Hid. cbn [world trace app].
  rewrite Hr. reflexivity.
Qed.

(** X13.  Summarizing a stored product that has no review is refused with
    status 400 before the backend is called, and the product keeps its
    summary. *)
Theorem no_reviews_to_summarize (ai : string -> string) (pid : Z) (w : World)
        (p : Product) :
  lookup_product pid (products w) = Some p ->
  (forall r, In r (reviews w) -> review_product r <> pid) ->
  run (api_summarize_reviews ai pid) w
  = (respond 400 (Error "No reviews to summarize"),
     {| world := w; trace := [Select "product"; Select "review"] |}).
Proof.
  intros H Hr. apply (summarize_no_reviews_run ai pid w p H).
  apply no_reviews_recent, Hr.
Qed.

Lemma no_reviews_to_summarize_witness :
  run (api_summarize_reviews (fun _ => "Great.") 2) test_world
  = (respond 400 (Error "No reviews to summarize"),
     {| world := test_world; trace := [Select "product"; Select "review"] |}).
Proof.
  apply (no_reviews_to_summarize (fun _ => "Great.") 2 test_world
           (item 2 "Yoga Mat" "Sports" 1800 "fitness,yoga,home-workout"
                 "Non-slip yoga mat.") eq_refl).
  intros r Hr. vm_compute in Hr.
  repeat (destruct Hr as [<-|Hr]; [discriminate|]). destruct Hr.
Defined.

(* ================================================================== *)
(** * What the backend's texts can change in the catalog *)
(* ================================================================== *)

Lemma same_listing_refl (a : Product) : same_listing a a.
Proof. unfold same_listing. tauto. Qed.

Lemma Forall2_same (rows : list Product) : Forall2 same_listing rows rows.
Proof. induction rows; constructor; auto using same_listing_refl. Qed.

Lemma Forall2_pointwise {A} (R : A -> A -> Prop) (f : A -> A) (l : list A) :
  (forall x, In x l -> R x (f x)) -> Forall2 R l (map f l).
Proof.
  induction l as [|x r IH]; intros H; simpl; constructor.
  - apply H. left; reflexivity.
  - apply IH. intros y Hy. apply H. right; exact Hy.
Qed.

Lemma unique_row (rows : list Product) (p q : Product) :
  NoDup (map id rows) -> In p rows -> In q rows -> id q = id p -> q = p.
Proof.
  intros Hnd Hp Hq Hid.
  pose proof (find_by_id_unique rows p Hnd Hp) as Ep.
  pose proof (find_by_id_unique rows q Hnd Hq) as Eq.
  rewrite Hid in Eq. congruence.
Qed.

Lemma save_row_listing (rows : list Product) (p p' : Product) :
  NoDup (map id rows) -> In p rows -> same_listing p p' ->
  Forall2 same_listing rows (save_row p' rows).
Proof.
  intros Hnd Hp Hs. unfold save_row.
  assert (id p' = id p) as Hid by (symmetry; apply Hs).
  assert (existsb (fun q => id q =? id p') rows = true) as Hex.
  { apply existsb_exists. exists p. split; [exact Hp|]. apply Z.eqb_eq. congruence. }
  rewrite Hex. apply Forall2_pointwise. intros q Hq.
  destruct (id q =? id p') eqn:E; [|apply same_listing_refl].
  apply Z.eqb_eq in E.
  rewrite (unique_row rows p q Hnd Hp Hq) by congruence. exact Hs.
Qed.

Lemma same_listing_ids (l l' : list Product) :
  Forall2 same_listing l l' -> map id l = map id l'.
Proof.
  induction 1 as [|a b l l' Hab _ IH]; simpl; [reflexivity|].
  f_equal; [apply Hab | exact IH].
Qed.

Lemma description_keeps_listing (ai : string -> string) (pid : Z) (w : World) :
  NoDup (map id (products w)) ->
  let w' := world (snd (run (api_generate_description ai pid) w)) in
  Forall2 same_listing (products w) (products w')
  /\ reviews w' = reviews w /\ interactions w' = interactions w.
Proof.
  intros Hnd. cbv zeta.
  destruct (lookup_product pid (products w)) as [p|] eqn:E.
  - rewrite (generate_description_run ai pid w p E).
    destruct (is_empty (ai (description_prompt p))); cbn [snd world products reviews interactions].
    + split; [apply Forall2_same | split; reflexivity].
    + split; [|split; reflexivity].
      destruct (lookup_product_sound _ _ _ E) as [_ Hin].
      apply (save_row_listing _ p); [exact Hnd | exact Hin|].
      unfold same_listing, set_ai_description. cbn. tauto.
  - assert (run (api_generate_description ai pid) w
            = (respond 404 NotFound, {| world := w; trace := [Select "product"] |})) as Hr.
    { cbv [run api_generate_description bind get_product read emit ret].
      cbn [world trace app]. rewrite E. reflexivity. }
    rewrite Hr. cbn [snd world]. split; [apply Forall2_same | split; reflexivity].
Qed.

Lemma summary_keeps_listing (ai : string -> string) (pid : Z) (w : World) :
  NoDup (map id (products w)) ->
  let w' := world (snd (run (api_summarize_reviews ai pid) w)) in
  Forall2 same_listing (products w) (products w')
  /\ reviews w' = reviews w /\ interactions w' = interactions w.
Proof.
  intros Hnd. cbv zeta.
  destruct (lookup_product pid (products w)) as [p|] eqn:E.
  - destruct (recent_reviews pid (reviews w)) as [|r0 rest] eqn:Er.
    + rewrite (summarize_no_reviews_run ai pid w p E Er). cbn [snd world].
      split; [apply Forall2_same | split; reflexivity].
    + assert (recent_reviews pid (reviews w) <> []) as Hne by congruence.
      rewrite (summarize_reviews_run ai pid w p E Hne).
      cbn [snd world products reviews interactions].
      split; [|split; reflexivity].
      destruct (lookup_product_sound _ _ _ E) as [_ Hin].
      apply (save_row_listing _ p); [exact Hnd | exact Hin|].
      unfold same_listing, set_ai_review_summary. cbn. tauto.
  - assert (run (api_summarize_reviews ai pid) w
            = (respond 404 NotFound, {| world := w; trace := [Select "product"] |})) as Hr.
    { cbv [run api_summarize_reviews bind get_product read emit ret].
      cbn [world trace app]. rewrite E. reflexivity. }
    rewrite Hr. cbn [snd world]. split; [apply Forall2_same | split; reflexivity].
Qed.

(** X14.  Whatever the backend returns and whatever id is asked for,
    description generation and review summarization never add, remove or
    reorder products and never touch a product's id, name, category,
    price, tags or short description, nor any review or interaction; ids
    that were unique stay unique. *)
Theorem backend_writes_keep_listing (ai : string -> string) (pid : Z) (w : World) :
  NoDup (map id (products w)) ->
  let w1 := world (snd (run (api_generate_description ai pid) w)) in
  let w2 := world (snd (run (api_summarize_reviews ai pid) w)) in
  (Forall2 same_listing (products w) (products w1)
   /\ reviews w1 = reviews w /\ interactions w1 = interactions w
   /\ NoDup (map id (products w1)))
  /\
  (Forall2 same_listing (products w) (products w2)
   /\ reviews w2 = reviews w /\ interactions w2 = interactions w
   /\ NoDup (map id (products w2))).
Proof.
  intros Hnd w1 w2.
  destruct (description_keeps_listing ai pid w Hnd) as (H1 & H2 & H3).
  destruct (summary_keeps_listing ai pid w Hnd) as (H4 & H5 & H6).
  split; (split; [assumption|]; split; [assumption|]; split; [assumption|]).
  - subst w1. rewrite <- (same_listing_ids _ _ H1). exact Hnd.
  - subst w2. rewrite <- (same_listing_ids _ _ H4). exact Hnd.
Qed.

Lemma backend_writes_keep_listing_witness :
  map id (products (world (snd (run (api_generate_description
                                       (fun _ => "New text.") 1) test_world))))
  = map id (products test_world).
Proof.
  destruct (backend_writes_keep_listing (fun _ => "New text.") 1 test_world
              test_catalog_unique) as [(H & _) _].
  symmetry. apply same_listing_ids, H.
Defined.

(* ================================================================== *)
(** * Retrieval does not read the backend's texts *)
(* ================================================================== *)

Lemma cmp_keys_listing (ks : list (OrderKey Product)) (a b c d : Product) :
  Forall listing_key ks -> same_listing a b -> same_listing c d ->
  cmp_keys ks a c = cmp_keys ks b d.
Proof.
  intros Hks Hab Hcd. induction Hks as [|k r Hk _ IH]; [reflexivity|].
  destruct k as [f|f]; simpl in *;
    rewrite (Hk a b Hab), (Hk c d Hcd), IH; reflexivity.
Qed.

Lemma insert_by_listing (ks : list (OrderKey Product)) (x y : Product)
      (l l' : list Product) :
  Forall listing_key ks -> same_listing x y -> Forall2 same_listing l l' ->
  Forall2 same_listing (insert_by ks x l) (insert_by ks y l').
Proof.
  intros Hks Hxy H. induction H as [|a b l l' Hab Hl IH]; simpl.
  - constructor; [exact Hxy | constructor].
  - unfold leb_keys. rewrite (cmp_keys_listing ks x y a b Hks Hxy Hab).
    destruct (cmp_keys ks y b);
      first [ constructor; [exact Hxy | constructor; assumption]
            | constructor; [exact Hab | exact IH] ].
Qed.

Lemma order_by_listing (ks : list (OrderKey Product)) (l l' : list Product) :
  Forall listing_key ks -> Forall2 same_listing l l' ->
  Forall2 same_listing (order_by ks l) (order_by ks l').
Proof.
  intros Hks H. induction H as [|a b l l' Hab Hl IH]; simpl; [constructor|].
  apply insert_by_listing; assumption.
Qed.

Lemma filter_listing (f : Product -> bool) (l l' : list Product) :
  (forall a b, same_listing a b -> f a = f b) -> Forall2 same_listing l l' ->
  Forall2 same_listing (filter f l) (filter f l').
Proof.
  intros Hf H. induction H as [|a b l l' Hab Hl IH]; simpl; [constructor|].
  rewrite (Hf a b Hab). destruct (f b); [constructor|]; assumption.
Qed.

Lemma firstn_listing (n : nat) (l l' : list Product) :
  Forall2 same_listing l l' -> Forall2 same_listing (firstn n l) (firstn n l').
Proof.
  intros H. revert n. induction H as [|a b l l' Hab Hl IH]; intros [|n]; simpl;
    constructor; auto.
Qed.

Lemma price_key : listing_key (Asc price) /\ listing_key (Desc price).
Proof. split; intros a b H; apply H. Qed.

Lemma id_key : listing_key (Asc id) /\ listing_key (Desc id).
Proof. split; intros a b H; apply H. Qed.

Lemma price_lte_listing (n : Z) (a b : Product) :
  same_listing a b -> price_lte n a = price_lte n b.
Proof. intros (_ & _ & _ & Hp & _). unfold price_lte. rewrite Hp. reflexivity. Qed.

Lemma price_gte_listing (n : Z) (a b : Product) :
  same_listing a b -> price_gte n a = price_gte n b.
Proof. intros (_ & _ & _ & Hp & _). unfold price_gte. rewrite Hp. reflexivity. Qed.

Lemma search_kw_listing (kws : list string) (a b : Product) :
  same_listing a b -> search_kw_query kws a = search_kw_query kws b.
Proof.
  intros (_ & Hn & Hc & _ & Ht & _). unfold search_kw_query.
  rewrite Hn, Hc, Ht. reflexivity.
Qed.

Lemma chat_kw_listing (kws : list string) (a b : Product) :
  same_listing a b -> chat_kw_query kws a = chat_kw_query kws b.
Proof.
  intros (_ & Hn & Hc & _ & Ht & Hd). unfold chat_kw_query.
  rewrite Hn, Hc, Ht, Hd. reflexivity.
Qed.

Lemma search_results_listing (l l' : list Product) (ql : string) :
  Forall2 same_listing l l' ->
  Forall2 same_listing (search_results l ql) (search_results l' ql).
Proof.
  intros H. unfold search_results.
  destruct price_key as [Kpa Kpd]. destruct id_key as [Kia Kid].
  assert (forall m m', Forall2 same_listing m m' ->
            Forall2 same_listing
              match search_keywords ql with
              | [] => m
              | _ => filter (search_kw_query (search_keywords ql)) m
              end
              match search_keywords ql with
              | [] => m'
              | _ => filter (search_kw_query (search_keywords ql)) m'
              end) as Hkw.
  { intros m m' Hm. destruct (search_keywords ql); [exact Hm|].
    apply filter_listing; [apply search_kw_listing | exact Hm]. }
  destruct (parse_amount ql) as [a|].
  - destruct (search_wants_under ql), (search_wants_over ql);
      apply firstn_listing, order_by_listing; auto; apply Hkw;
      first [ apply filter_listing; [apply price_lte_listing | exact H]
            | apply filter_listing; [apply price_gte_listing | exact H]
            | exact H ].
  - apply firstn_listing, order_by_listing; auto.
Qed.

Lemma chat_filter_listing (l l' : list Product) (ql : string) :
  Forall2 same_listing l l' ->
  Forall2 same_listing (chat_filter l ql) (chat_filter l' ql).
Proof.
  intros H. unfold chat_filter.
  assert (forall m m', Forall2 same_listing m m' ->
            Forall2 same_listing
              match chat_keywords ql with
              | [] => m
              | _ => filter (chat_kw_query (firstn 6 (chat_keywords ql))) m
              end
              match chat_keywords ql with
              | [] => m'
              | _ => filter (chat_kw_query (firstn 6 (chat_keywords ql))) m'
              end) as Hkw.
  { intros m m' Hm. destruct (chat_keywords ql); [exact Hm|].
    apply filter_listing; [apply chat_kw_listing | exact Hm]. }
  assert (forall m m', Forall2 same_listing m m' ->
            Forall2 same_listing
              match parse_amount ql with
              | Some a =>
                  if chat_wants_under ql then filter (price_lte a) m
                  else if chat_wants_over ql || chat_wants_high ql
                       then filter (price_gte a) m else m
              | None => m
              end
              match parse_amount ql with
              | Some a =>
                  if chat_wants_under ql then filter (price_lte a) m'
                  else if chat_wants_over ql || chat_wants_high ql
                       then filter (price_gte a) m' else m'
              | None => m'
              end) as Hpr.
  { intros m m' Hm. destruct (parse_amount ql); [|exact Hm].
    destruct (chat_wants_under ql);
      [apply filter_listing; [apply price_lte_listing | exact Hm]|].
    destruct (chat_wants_over ql || chat_wants_high ql);
      [apply filter_listing; [apply price_gte_listing | exact Hm] | exact Hm]. }
  apply Hkw, Hpr. destruct (chat_category ql) as [c|]; [|exact H].
  apply filter_listing; [|exact H].
  intros a b (_ & _ & Hc & _ & Ht & _). rewrite Hc, Ht. reflexivity.
Qed.

Lemma chat_products_listing (l l' : list Product) (ql : string) :
  Forall2 same_listing l l' ->
  Forall2 same_listing (chat_products l ql) (chat_products l' ql)
  /\ snd (chat_retrieve l ql) = snd (chat_retrieve l' ql).
Proof.
  intros H. pose proof (chat_filter_listing l l' ql H) as Hf.
  destruct price_key as [Kpa Kpd]. destruct id_key as [Kia Kid].
  unfold chat_products, chat_retrieve, chat_order.
  destruct (parse_amount ql) as [a|].
  - destruct (chat_wants_over ql || chat_wants_high ql);
      [|destruct (chat_wants_under ql)];
      cbn [fst snd]; (split; [|reflexivity]);
      apply firstn_listing, order_by_listing; auto.
  - destruct (chat_wants_high ql); cbn [fst snd]; (split; [|reflexivity]);
      apply firstn_listing, order_by_listing; auto.
Qed.

(** X15.  Storing a generated description or review summary does not
    change what search and chat retrieve: for every query the same
    products come back in the same order, equal in every field but the two
    the backend writes, and chat shows the same title. *)
Theorem retrieval_ignores_backend_texts (ai : string -> string) (pid : Z)
        (w : World) (ql : string) :
  NoDup (map id (products w)) ->
  forall w',
    w' = world (snd (run (api_generate_description ai pid) w))
    \/ w' = world (snd (run (api_summarize_reviews ai pid) w)) ->
    Forall2 same_listing (search_results (products w) ql)
                         (search_results (products w') ql)
    /\ Forall2 same_listing (chat_products (products w) ql)
                            (chat_products (products w') ql)
    /\ snd (chat_retrieve (products w) ql) = snd (chat_retrieve (products w') ql).
Proof.
  intros Hnd w' Hw'.
  assert (Forall2 same_listing (products w) (products w')) as H.
  { destruct Hw' as [->| ->];
      [apply (description_keeps_listing ai pid w Hnd)
      | apply (summary_keeps_listing ai pid w Hnd)]. }
  split; [apply search_results_listing, H | apply chat_products_listing, H].
Qed.

Lemma retrieval_ignores_backend_texts_witness :
  map name (search_results
              (products (world (snd (run (api_summarize_reviews silent 1) test_world))))
              "earbuds")
  = map name (search_results (products test_world) "earbuds").
Proof.
  destruct (retrieval_ignores_backend_texts silent 1 test_world "earbuds"
              test_catalog_unique _ (or_intror eq_refl)) as [H _].
  symmetry. induction H as [|a b l l' Hab _ IH]; simpl; [reflexivity|].
  f_equal; [apply Hab | exact IH].
Defined.

(* ================================================================== *)
(** * The recommendation engine and the store *)
(* ================================================================== *)

Lemma recommend_state (E : Env) (u : string) (w : World) :
  world (snd (run (_recommend_products_for_user E u) w)) = w
  /\ backend_calls (trace (snd (run (_recommend_products_for_user E u) w)))
     = match recommend_history u w with [] => 0%nat | _ => 1%nat end.
Proof.
  unfold recommend_history.
  cbv [run _recommend_products_for_user bind read emit ret generate_json generate_text].
  cbn [world trace fst snd].
  destruct (user_interactions u (interactions w)) as [|i0 its].
  - cbn [world trace fst snd].
    destruct (truthy_ids (popular_ids (interactions w))); split; reflexivity.
  - cbn [world trace fst snd].
    set (data := match json_loads E _ with Some v => v | None => JObj [] end).
    destruct data as [| | | | | |fields]; try (split; reflexivity).
    destruct (py_iter (dict_get fields "recommended_product_ids" (JArr [])))
      as [items|e]; [|split; reflexivity].
    cbn [world trace fst snd].
    destruct (keep_order (filter_id_in (int_ids items) (products w)) (int_ids items));
      split; reflexivity.
Qed.

(** X16.  The recommendation engine never writes to the store.  It calls
    the backend exactly once for a user with history and not at all for a
    user without, whatever the backend would answer. *)
Theorem recommend_reads_only (E : Env) (u : string) (w : World) :
  world (snd (run (_recommend_products_for_user E u) w)) = w
  /\ backend_calls (trace (snd (run (_recommend_products_for_user E u) w)))
     = match recommend_history u w with [] => 0%nat | _ => 1%nat end.
Proof. apply recommend_state. Qed.

(** ** Users without history *)

(** X17.  For a user without history: if nobody has purchased anything
    the first 10 products of the catalog are recommended; otherwise, when
    some purchased product has a non-zero id, the recommendation holds
    only purchased products of the store, in storage order, and they are
    the most purchased: a product of the store that is left out was
    purchased no more often than any product recommended. *)
Theorem cold_start_recommendation (E : Env) (u : string) (w : World) :
  recommend_history u w = [] ->
  exists ps,
    fst (run (_recommend_products_for_user E u) w) = Returns ps
    /\ (purchased_ids (interactions w) = [] -> ps = firstn 10 (products w))
    /\ (truthy_ids (popular_ids (interactions w)) <> [] ->
        (forall p, In p ps ->
           In p (products w) /\ 1 <= purchases (id p) (interactions w))
        /\ (forall p q, In p ps -> In q (products w) -> ~ In q ps -> id q <> 0 ->
              purchases (id q) (interactions w)
              <= purchases (id p) (interactions w))).
Proof.
  intros Hh. rewrite (recommend_without_history E u w Hh).
  eexists. split; [reflexivity|]. split.
  - intros Hnone. unfold popular_ids. rewrite Hnone. reflexivity.
  - intros Hne.
    destruct (truthy_ids (popular_ids (interactions w))) as [|i0 ids0] eqn:Eids;
      [congruence|]. rewrite <- Eids. clear Hne.
    set (sorted := order_by [Desc snd]
           (map (fun pid => (pid, Z.of_nat (count_occ Z.eq_dec
                                              (purchased_ids (interactions w)) pid)))
                (nodup Z.eq_dec (purchased_ids (interactions w))))).
    assert (forall p, In p (filter_id_in (truthy_ids (popular_ids (interactions w)))
                              (products w)) ->
              In p (products w)
              /\ In (id p, purchases (id p) (interactions w)) (firstn 10 sorted)
              /\ In (id p) (purchased_ids (interactions w))) as Hin.
    { intros p Hp. apply filter_id_in_In in Hp. destruct Hp as [Hp Hi].
      apply truthy_ids_In in Hi. destruct Hi as [_ [c Hc]].
      unfold popular_ids in Hc. fold sorted in Hc.
      assert (In (id p, c) sorted) as Hs.
      { rewrite <- (firstn_skipn 10 sorted). apply in_or_app. left; exact Hc. }
      destruct (popular_rows _ _ _ Hs) as [Hb ->]. auto. }
    split.
    + intros p Hp. destruct (Hin p Hp) as (H1 & _ & H3). split; [exact H1|].
      unfold purchases.
      apply (count_occ_In Z.eq_dec) in H3. lia.
    + intros p q Hp Hq Hout Hq0. destruct (Hin p Hp) as (_ & Hr & _).
      destruct (in_dec Z.eq_dec (id q) (purchased_ids (interactions w))) as [Hb|Hb].
      * assert (In (id q, purchases (id q) (interactions w))
                  (map (fun pid => (pid, Z.of_nat (count_occ Z.eq_dec
                                              (purchased_ids (interactions w)) pid)))
                       (nodup Z.eq_dec (purchased_ids (interactions w))))) as Hs.
        { apply in_map_iff. exists (id q). split; [reflexivity|].
          apply nodup_In, Hb. }
        assert (~ In (id q, purchases (id q) (interactions w)) (firstn 10 sorted)) as Hn.
        { intros Hf. apply Hout. apply filter_id_in_In. split; [exact Hq|].
          apply truthy_ids_In. split; [exact Hq0|].
          exists (purchases (id q) (interactions w)). exact Hf. }
        destruct (page_top [Desc snd] 10 _ _ _ Hr Hs Hn) as [Hle _].
        unfold leb_keys in Hle. cbn [cmp_keys snd] in Hle.
        destruct (Z.compare_spec (purchases (id q) (interactions w))
                                 (purchases (id p) (interactions w)));
          first [lia | discriminate Hle].
      * unfold purchases at 1.
        rewrite (proj1 (count_occ_not_In Z.eq_dec _ _) Hb).
        unfold purchases. lia.
Qed.

Lemma cold_start_recommendation_witness :
  exists ps,
    fst (run (_recommend_products_for_user (ranking_env []) "bob") purchase_world)
    = Returns ps
    /\ forall p, In p ps -> 1 <= purchases (id p) (interactions purchase_world).
Proof.
  destruct (cold_start_recommendation (ranking_env []) "bob" purchase_world eq_refl)
    as (ps & Hps & _ & H).
  exists ps. split; [exact Hps|].
  intros p Hp. apply H; [vm_compute; discriminate | exact Hp].
Defined.

(** The two purchased products, in storage order. *)
Example cold_start_example :
  fst (run (_recommend_products_for_user (ranking_env []) "bob") purchase_world)
  = Returns (firstn 2 test_catalog).
Proof. vm_compute. reflexivity. Qed.

(* ================================================================== *)
(** * Pages *)
(* ================================================================== *)

Lemma home_run (E : Env) (u : string) (w : World) :
  fst (run (home E (Some u)) w)
  = match fst (run (_recommend_products_for_user E u) w) with
    | Returns ps =>
        HomePage (firstn 24 (order_by [Asc id] (products w))) (firstn 8 ps)
    | Raises e => Http500 e
    end
  /\ snd (run (home E (Some u)) w)
     = match fst (run (_recommend_products_for_user E u) w) with
       | Returns ps =>
           {| world := w;
              trace := (trace (snd (run (_recommend_products_for_user E u) w))
                        ++ [Select "product"])%list |}
       | Raises e => snd (run (_recommend_products_for_user E u) w)
       end.
Proof.
  pose proof (recommend_state E u w) as [Hw _].
  unfold home, run, bind in *.
  destruct (_recommend_products_for_user E u {| world := w; trace := [] |})
    as [r s] eqn:Er.
  cbn [fst snd] in *. destruct r as [ps|e]; [|split; reflexivity].
  cbv [read bind emit ret]. cbn [fst snd world trace]. rewrite Hw.
  split; reflexivity.
Qed.

(** X18.  The home page lists at most 24 products, by rising id.  An
    anonymous visitor gets no recommendation and causes no backend call.
    An authenticated visitor is shown the first 8 products of the
    recommendation, whatever its length, or the error the recommendation
    ended in; the page never writes to the store. *)
Theorem home_page (E : Env) (requester : option string) (w : World) :
  let listing := firstn 24 (order_by [Asc id] (products w)) in
  (List.length listing <= 24)%nat
  /\ StronglySorted id_up listing
  /\ world (snd (run (home E requester) w)) = w
  /\ match requester with
     | None =>
         run (home E None) w
         = (HomePage listing [], {| world := w; trace := [Select "product"] |})
     | Some u =>
         match fst (run (_recommend_products_for_user E u) w) with
         | Returns ps =>
             fst (run (home E (Some u)) w) = HomePage listing (firstn 8 ps)
             /\ (List.length (firstn 8 ps) <= 8)%nat
         | Raises e => fst (run (home E (Some u)) w) = Http500 e
         end
     end.
Proof.
  cbv zeta. split; [apply firstn_le_length|].
  split; [apply firstn_sorted, sorted_id_up|].
  destruct requester as [u|].
  - destruct (home_run E u w) as [Hf Hs]. pose proof (recommend_state E u w) as [Hw _].
    split.
    + rewrite Hs. destruct (fst (run (_recommend_products_for_user E u) w));
        [reflexivity | exact Hw].
    + rewrite Hf. destruct (fst (run (_recommend_products_for_user E u) w));
        [split; [reflexivity | apply firstn_le_length] | reflexivity].
  - split; reflexivity.
Qed.

Lemma product_detail_run (requester : option string) (pid : Z) (w : World)
      (p : Product) :
  lookup_product pid (products w) = Some p ->
  run (product_detail requester pid) w
  = match requester with
    | Some u =>
        (DetailPage p (shown_reviews pid (reviews w)),
         {| world := logged_view u pid w;
            trace := [Select "product"; Insert "interaction"; Select "review"] |})
    | None =>
        (DetailPage p (shown_reviews pid (reviews w)),
         {| world := w; trace := [Select "product"; Select "review"] |})
    end.
Proof.
  intros H. destruct (lookup_product_sound _ _ _ H) as [Hid _].
  cbv [run product_detail bind get_product read emit ret create_interaction write].
  cbn [world trace app]. rewrite H, Hid.
  destruct requester; reflexivity.
Qed.

(** X19.  The detail page of a stored product shows that product with at
    most 10 of its reviews, newest first.  For an authenticated visitor
    exactly one VIEW interaction of that product is appended to the log;
    for an anonymous visitor the store is left as it was.  The backend is
    never called. *)
Theorem product_detail_page (requester : option string) (pid : Z) (w : World)
        (p : Product) :
  lookup_product pid (products w) = Some p ->
  let out := run (product_detail requester pid) w in
  fst out = DetailPage p (shown_reviews pid (reviews w))
  /\ (List.length (shown_reviews pid (reviews w)) <= 10)%nat
  /\ StronglySorted newest_first (shown_reviews pid (reviews w))
  /\ (forall r, In r (shown_reviews pid (reviews w)) ->
        In r (reviews w) /\ review_product r = pid)
  /\ world (snd out) = match requester with
                       | Some u => logged_view u pid w
                       | None => w
                       end
  /\ backend_calls (trace (snd out)) = 0%nat.
Proof.
  intros H out. subst out. rewrite (product_detail_run requester pid w p H).
  split; [destruct requester; reflexivity|].
  split; [apply firstn_le_length|].
  split; [apply firstn_sorted, sorted_newest_first|].
  split.
  - intros r Hr. unfold shown_reviews in Hr.
    assert (In r (order_by [Desc created_at]
                    (filter (fun r => review_product r =? pid) (reviews w)))) as Hin.
    { rewrite <- (firstn_skipn 10 (order_by _ _)). apply in_or_app. left; exact Hr. }
    apply order_by_In, filter_In in Hin. destruct Hin as [Hin Hp].
    split; [exact Hin | apply Z.eqb_eq, Hp].
  - destruct requester; split; reflexivity.
Qed.

Lemma product_detail_page_witness :
  fst (run (product_detail (Some "bob") 1) test_world)
  = DetailPage (item 1 "Wireless Earbuds" "Electronics" 4990 "audio,wireless,gym"
                     "Compact wireless earbuds.")
               (shown_reviews 1 test_reviews)
  /\ world (snd (run (product_detail (Some "bob") 1) test_world))
     = logged_view "bob" 1 test_world.
Proof.
  destruct (product_detail_page (Some "bob") 1 test_world
              (item 1 "Wireless Earbuds" "Electronics" 4990 "audio,wireless,gym"
                    "Compact wireless earbuds.") eq_refl)
    as (H1 & _ & _ & _ & H5 & _).
  split; [exact H1 | exact H5].
Defined.

Lemma appended_makes_history (u : string) (rows : list Interaction) (i : Interaction) :
  user i = u -> user_interactions u (rows ++ [i]) <> [].
Proof.
  intros Hu. unfold user_interactions.
  assert (In i (order_by [Desc interaction_created_at]
                  (filter (fun i => String.eqb (user i) u) (rows ++ [i])))) as Hin.
  { apply order_by_In, filter_In. split.
    - apply in_or_app. right; left; reflexivity.
    - apply String.eqb_eq, Hu. }
  destruct (order_by [Desc interaction_created_at]
              (filter (fun i => String.eqb (user i) u) (rows ++ [i])));
    [destruct Hin | discriminate].
Qed.

(** X20.  Activity builds history: once an authenticated user has made a
    non-blank search or opened the page of a stored product, the
    recommendation engine finds history for that user and its next run
    consults the backend exactly once. *)
Theorem activity_makes_history (E : Env) (u : string) (w : World) :
  (forall q, strip q <> EmptyString ->
     let w' := world (snd (run (api_search (Some u) q) w)) in
     recommend_history u w' <> []
     /\ backend_calls (trace (snd (run (_recommend_products_for_user E u) w')))
        = 1%nat)
  /\
  (forall pid p, lookup_product pid (products w) = Some p ->
     let w' := world (snd (run (product_detail (Some u) pid) w)) in
     recommend_history u w' <> []
     /\ backend_calls (trace (snd (run (_recommend_products_for_user E u) w')))
        = 1%nat).
Proof.
  assert (forall w', recommend_history u w' <> [] ->
            backend_calls (trace (snd (run (_recommend_products_for_user E u) w')))
            = 1%nat) as Hcalls.
  { intros w' Hh. destruct (recommend_state E u w') as [_ Hc]. rewrite Hc.
    destruct (recommend_history u w'); [congruence | reflexivity]. }
  split.
  - intros q Hq w'. subst w'. rewrite (api_search_run (Some u) q w Hq).
    cbn [snd world].
    assert (recommend_history u (logged_search u (strip q) w) <> []) as Hh
      by (apply appended_makes_history; reflexivity).
    split; [exact Hh | apply Hcalls, Hh].
  - intros pid p Hp w'. subst w'. rewrite (product_detail_run (Some u) pid w p Hp).
    cbn [snd world].
    assert (recommend_history u (logged_view u pid w) <> []) as Hh
      by (apply appended_makes_history; reflexivity).
    split; [exact Hh | apply Hcalls, Hh].
Qed.

Lemma activity_makes_history_witness :
  recommend_history "bob" test_world = []
  /\ recommend_history "bob"
       (world (snd (run (api_search (Some "bob") "yoga") test_world))) <> []
  /\ recommend_history "bob"
       (world (snd (run (product_detail (Some "bob") 2) test_world))) <> [].
Proof.
  destruct (activity_makes_history (ranking_env []) "bob" test_world) as [H1 H2].
  split; [reflexivity|]. split.
  - apply (H1 "yoga"). discriminate.
  - apply (H2 2 (item 2 "Yoga Mat" "Sports" 1800 "fitness,yoga,home-workout"
                      "Non-slip yoga mat.")). reflexivity.
Defined.

(** X21.  The product listing of the API is the whole catalog, every row
    once, by rising id; the call reads the store and changes nothing. *)
Theorem api_products_lists_all (w : World) :
  Permutation (fst (run api_products w)) (products w)
  /\ StronglySorted id_up (fst (run api_products w))
  /\ snd (run api_products w) = {| world := w; trace := [Select "product"] |}.
Proof.
  split; [apply order_by_perm|]. split; [apply sorted_id_up | reflexivity].
Qed.

(* ================================================================== *)
(** * Where pros and cons come from *)
(* ================================================================== *)

Lemma expected_entries_placeholder (words : list string) (placeholder : string)
      (rs : list Review) :
  (forall r, In r rs -> mentions words r = false) ->
  expected_entries words placeholder rs = [placeholder].
Proof.
  intros H. unfold expected_entries.
  destruct (filter (mentions words) rs) as [|r0 rest] eqn:E; [reflexivity|].
  assert (In r0 (filter (mentions words) rs)) as Hin by (rewrite E; left; reflexivity).
  apply filter_In in Hin. destruct Hin as [Hin Hm]. rewrite (H r0 Hin) in Hm.
  discriminate Hm.
Qed.

Lemma expected_entries_from (words : list string) (placeholder : string)
      (rs : list Review) (t : string) :
  (exists r, In r rs /\ mentions words r = true) ->
  In t (expected_entries words placeholder rs) ->
  exists r, In r rs /\ text r = t /\ mentions words r = true.
Proof.
  intros [r1 [Hr1 Hm1]] Ht. unfold expected_entries in Ht.
  assert (In r1 (filter (mentions words) rs)) as Hin
    by (apply filter_In; split; assumption).
  destruct (filter (mentions words) rs) as [|r0 rest] eqn:E; [destruct Hin|].
  rewrite <- E in Ht.
  assert (In t (map text (filter (mentions words) rs))) as Hall.
  { rewrite <- (firstn_skipn 3 (map text (filter (mentions words) rs))).
    apply in_or_app. left; exact Ht. }
  apply in_map_iff in Hall. destruct Hall as [r [Hr Hf]].
  apply filter_In in Hf. exists r. tauto.
Qed.

(** X22.  In the deterministic summary the pros are the texts of the first
    three reviews, in review order, in which one of the words great, good,
    perfect, love, value, works, quality occurs, ignoring case, and the cons
    those of the first three reviews in which one of bad, poor,
    disappointed, durable, worse, problem, okay occurs.  When no review
    mentions a word of a list the placeholder sentence stands alone in it;
    when one does, every entry of the list is the text of such a review. *)
Theorem pros_and_cons_origin (rs : list Review) :
  pros_of rs = expected_entries
                 ["great"; "good"; "perfect"; "love"; "value"; "works"; "quality"]
                 "No strong pros detected from text." rs
  /\ cons_of rs = expected_entries
                    ["bad"; "poor"; "disappointed"; "durable"; "worse"; "problem"; "okay"]
                    "No strong cons detected from text." rs
  /\ ((forall r, In r rs -> mentions positive_words r = false) ->
      pros_of rs = ["No strong pros detected from text."])
  /\ ((exists r, In r rs /\ mentions positive_words r = true) ->
      forall t, In t (pros_of rs) ->
        exists r, In r rs /\ text r = t /\ mentions positive_words r = true)
  /\ ((forall r, In r rs -> mentions negative_words r = false) ->
      cons_of rs = ["No strong cons detected from text."])
  /\ ((exists r, In r rs /\ mentions negative_words r = true) ->
      forall t, In t (cons_of rs) ->
        exists r, In r rs /\ text r = t /\ mentions negative_words r = true).
Proof.
  assert (pros_of rs = expected_entries positive_words
                         "No strong pros detected from text." rs) as Hp
    by (apply (entries_expected pros_keywords no_pros)).
  assert (cons_of rs = expected_entries negative_words
                         "No strong cons detected from text." rs) as Hc
    by (apply (entries_expected cons_keywords no_cons)).
  split; [exact Hp|]. split; [exact Hc|]. rewrite Hp, Hc.
  split; [apply expected_entries_placeholder|].
  split; [intros Hex t; apply expected_entries_from, Hex|].
  split; [apply expected_entries_placeholder|].
  intros Hex t; apply expected_entries_from, Hex.
Qed.

Lemma pros_and_cons_origin_witness :
  pros_of test_reviews
  = ["Great quality and works perfectly."; "Good value for money. I like it."]
  /\ cons_of (rated 4 2) = ["No strong cons detected from text."].
Proof.
  destruct (pros_and_cons_origin test_reviews) as (H & _).
  destruct (pros_and_cons_origin (rated 4 2)) as (_ & _ & _ & _ & Hc & _).
  split.
  - rewrite H. vm_compute. reflexivity.
  - apply Hc. intros r Hr. vm_compute in Hr.
    destruct Hr as [<-|[<-|Hr]]; [vm_compute; reflexivity .. | destruct Hr].
Defined.

(* ================================================================== *)
(** * Generated texts overwrite *)
(* ================================================================== *)

Lemma save_row_twice (p : Product) (rows : list Product) :
  save_row p (save_row p rows) = save_row p rows.
Proof.
  assert (existsb (fun q => id q =? id p) (save_row p rows) = true) as Hex.
  { pose proof (lookup_save_same p rows) as H. unfold lookup_product in H.
    apply find_some in H. apply existsb_exists. exists p. exact H. }
  unfold save_row at 1. rewrite Hex. unfold save_row.
  destruct (existsb (fun q => id q =? id p) rows) eqn:E.
  - rewrite map_map. apply map_ext. intros q.
    destruct (id q =? id p) eqn:Eq; [rewrite Z.eqb_refl | rewrite Eq]; reflexivity.
  - rewrite map_app. simpl. rewrite Z.eqb_refl. f_equal.
    rewrite <- (map_id rows) at 2. apply map_ext_in. intros q Hq.
    destruct (id q =? id p) eqn:Eq; [|reflexivity].
    exfalso. assert (existsb (fun q => id q =? id p) rows = true) as Ht
      by (apply existsb_exists; exists q; auto).
    congruence.
Qed.

(** X23.  Generated texts overwrite, they do not accumulate: with a
    backend that answers a given prompt the same way, asking again for the
    description or for the review summary of a product gives the same
    response and leaves the store exactly as the first request left it. *)
Theorem regeneration_is_idempotent (ai : string -> string) (pid : Z) (w : World) :
  (let w1 := world (snd (run (api_generate_description ai pid) w)) in
   fst (run (api_generate_description ai pid) w1)
   = fst (run (api_generate_description ai pid) w)
   /\ world (snd (run (api_generate_description ai pid) w1)) = w1)
  /\
  (let w1 := world (snd (run (api_summarize_reviews ai pid) w)) in
   fst (run (api_summarize_reviews ai pid) w1)
   = fst (run (api_summarize_reviews ai pid) w)
   /\ world (snd (run (api_summarize_reviews ai pid) w1)) = w1).
Proof.
  split; cbv zeta.
  - destruct (lookup_product pid (products w)) as [p|] eqn:E.
    + destruct (lookup_product_sound _ _ _ E) as [Hid _].
      rewrite (generate_description_run ai pid w p E).
      destruct (is_empty (ai (description_prompt p))) eqn:Et; cbn [snd world].
      * rewrite (generate_description_run ai pid w p E), Et. split; reflexivity.
      * set (t := ai (description_prompt p)) in *.
        set (w1 := {| products := save_row (set_ai_description p t) (products w);
                      reviews := reviews w; interactions := interactions w;
                      now := now w |}).
        assert (lookup_product pid (products w1) = Some (set_ai_description p t)) as E1.
        { rewrite <- Hid. apply (lookup_save_same (set_ai_description p t)). }
        rewrite (generate_description_run ai pid w1 _ E1).
        change (description_prompt (set_ai_description p t))
          with (description_prompt p).
        fold t. rewrite Et. cbn [fst snd world]. split; [reflexivity|].
        unfold w1. cbn [products reviews interactions now]. f_equal.
        apply (save_row_twice (set_ai_description p t)).
    + destruct (missing_product_aux ai pid w E) as [Hr _].
      rewrite Hr. cbn [snd world]. rewrite Hr. split; reflexivity.
  - destruct (lookup_product pid (products w)) as [p|] eqn:E.
    + destruct (lookup_product_sound _ _ _ E) as [Hid _].
      destruct (recent_reviews pid (reviews w)) as [|r0 rest] eqn:Er.
      * rewrite (summarize_no_reviews_run ai pid w p E Er). cbn [snd world].
        rewrite (summarize_no_reviews_run ai pid w p E Er). split; reflexivity.
      * assert (recent_reviews pid (reviews w) <> []) as Hne by congruence.
        rewrite (summarize_reviews_run ai pid w p E Hne).
        set (summary := if is_empty (ai (summary_prompt (recent_reviews pid (reviews w))))
                        then basic_review_summary (recent_reviews pid (reviews w))
                             ++ summary_notice
                        else ai (summary_prompt (recent_reviews pid (reviews w)))).
        cbn [snd world].
        set (w1 := {| products := save_row (set_ai_review_summary p summary) (products w);
                      reviews := reviews w; interactions := interactions w;
                      now := now w |}).
        assert (lookup_product pid (products w1) = Some (set_ai_review_summary p summary))
          as E1.
        { rewrite <- Hid. apply (lookup_save_same (set_ai_review_summary p summary)). }
        rewrite (summarize_reviews_run ai pid w1 _ E1 Hne).
        cbn [fst snd world]. fold summary. split; [reflexivity|].
        unfold w1. cbn [products reviews interactions now]. f_equal.
        apply (save_row_twice (set_ai_review_summary p summary)).
    + destruct (missing_product_aux ai pid w E) as [_ Hr].
      rewrite Hr. cbn [snd world]. rewrite Hr. split; reflexivity.
Qed.

(* ================================================================== *)
(** * Messages that name both directions *)
(* ================================================================== *)

(** X24.  When a text with a number holds both an under-direction word and
    an over-direction word, the under filter wins but the over ordering is
    used: plain search returns products at or below the amount by rising
    price; chat returns products at or below the amount by falling price
    under the title that announces products priced above the amount. *)
Theorem mixed_directions (all : list Product) (ql : string) (n : Z) :
  parse_amount ql = Some n ->
  (search_wants_under ql = true -> search_wants_over ql = true ->
   Forall (costs_at_most n) (search_results all ql)
   /\ StronglySorted price_up_id_up (search_results all ql))
  /\
  (chat_wants_under ql = true -> chat_wants_over ql || chat_wants_high ql = true ->
   Forall (costs_at_most n) (chat_products all ql)
   /\ StronglySorted price_down_id_down (chat_products all ql)
   /\ snd (chat_retrieve all ql)
      = "Here are some products from our catalog priced above $" ++ str_of_Z n ++ ":").
Proof.
  intros Hn. split.
  - intros Hu Ho. unfold search_results. rewrite Hn, Hu, Ho. split.
    + apply slice_Forall, keyword_step_Forall, price_lte_Forall.
    + apply firstn_sorted, sorted_price_up_id_up.
  - intros Hu Ho. unfold chat_products, chat_retrieve, chat_order, chat_filter.
    rewrite Hn, Hu, Ho. cbn [fst snd]. split; [|split; [|reflexivity]].
    + apply slice_Forall, keyword_step_Forall, price_lte_Forall.
    + apply firstn_sorted, sorted_price_down_id_down.
Qed.

Lemma mixed_directions_witness :
  Forall (costs_at_most 50) (chat_products test_catalog "over or under $50")
  /\ snd (chat_retrieve test_catalog "over or under $50")
     = "Here are some products from our catalog priced above $50:".
Proof.
  destruct (mixed_directions test_catalog "over or under $50" 50 eq_refl) as [_ H].
  destruct (H eq_refl eq_refl) as (H1 & _ & H3).
  split; [exact H1 | exact H3].
Defined.

(* ================================================================== *)
(** * What the prompts carry *)
(* ================================================================== *)

Lemma chat_catalog_line_shows (p : Product) :
  contains (name p) (chat_catalog_line p) = true
  /\ contains (price_str (price p)) (chat_catalog_line p) = true
  /\ contains (tags p) (chat_catalog_line p) = true.
Proof.
  unfold chat_catalog_line. repeat split.
  - apply contains_trans_app, contains_refl.
  - do 3 apply contains_app_r. apply contains_app_l, contains_refl.
  - do 7 apply contains_app_r. apply contains_refl.
Qed.

(** X25.  The prompts hold the data they are about.  The one prompt chat
    sends carries the stripped message and, for every product retrieved,
    its name, price and tags; the summary prompt carries the text of every
    review used; the description prompt carries the product's name, price
    and short description. *)
Theorem prompts_carry_data (ai : string -> string) (message : string) (w : World)
        (rs : list Review) (q : Product) :
  (strip message <> EmptyString ->
   chat_products (products w) (lower (strip message)) <> [] ->
   exists prompt,
     filter is_generate (trace (snd (run (api_chat ai message) w))) = [Generate prompt]
     /\ contains (strip message) prompt = true
     /\ forall p, In p (chat_products (products w) (lower (strip message))) ->
          contains (name p) prompt = true
          /\ contains (price_str (price p)) prompt = true
          /\ contains (tags p) prompt = true)
  /\ (forall r, In r rs -> contains (text r) (summary_prompt rs) = true)
  /\ (contains (name q) (description_prompt q) = true
      /\ contains (price_str (price q)) (description_prompt q) = true
      /\ contains (short_description q) (description_prompt q) = true).
Proof.
  split; [|split].
  - intros Hm Hps. rewrite (api_chat_run ai message w Hm Hps).
    cbn [snd trace filter is_generate]. eexists. split; [reflexivity|].
    split.
    + unfold chat_prompt.
      apply (contains_join _ newline ("User request: " ++ strip message));
        [simpl; tauto | apply contains_app_r, contains_refl].
    + intros p Hp. destruct (chat_catalog_line_shows p) as (H1 & H2 & H3).
      assert (forall n, contains n (chat_catalog_line p) = true ->
                contains n (chat_prompt (strip message)
                              (chat_products (products w) (lower (strip message))))
                = true) as Hin.
      { intros n Hn. unfold chat_prompt.
        apply (contains_join _ newline
                 (join newline (map chat_catalog_line
                    (chat_products (products w) (lower (strip message))))));
          [simpl; tauto|].
        apply (contains_join _ newline (chat_catalog_line p));
          [apply in_map, Hp | exact Hn]. }
      repeat split; apply Hin; assumption.
  - intros r Hr. unfold summary_prompt.
    apply (contains_join _ newline (join newline (map review_line rs)));
      [simpl; tauto|].
    apply (contains_join _ newline (review_line r)); [apply in_map, Hr|].
    unfold review_line. do 3 apply contains_app_r. apply contains_refl.
  - unfold description_prompt. repeat split.
    + apply (contains_join _ newline ("- name: " ++ name q));
        [simpl; tauto | apply contains_app_r, contains_refl].
    + apply (contains_join _ newline ("- price: " ++ price_str (price q)));
        [simpl; tauto | apply contains_app_r, contains_refl].
    + apply (contains_join _ newline
               ("Existing short description: " ++ short_description q));
        [simpl; tauto | apply contains_app_r, contains_refl].
Qed.

Lemma prompts_carry_data_witness :
  exists prompt,
    filter is_generate (trace (snd (run (api_chat silent "under $20") test_world)))
    = [Generate prompt]
    /\ contains "under $20" prompt = true.
Proof.
  destruct (prompts_carry_data silent "under $20" test_world [] 
              (item 1 "Wireless Earbuds" "Electronics" 4990 "audio,wireless,gym"
                    "Compact wireless earbuds.")) as [H _].
  destruct H as (prompt & Hp & Hm & _); [discriminate | vm_compute; discriminate|].
  exists prompt. split; [exact Hp | exact Hm].
Defined.
